(** * Smart College Attendance: the mocked demo's account and ledger logic

    A shallow embedding of [smart_college_attendance_react_preview_mocked_demo]
    (the second, WebAuthn-and-selfie version of the app): the local-storage
    helpers, the date utilities, the handlers of the [App] component and the
    derived attendance figures, followed by the properties proved of them.

    Modelling conventions.
    - A calendar date string [YYYY-MM-DD] is represented by its day number,
      the count of days from 1970-01-01 ([ymd] builds one from a civil date).
      The start of the semester is always such a date; the empty string a
      cleared date input delivers is left out.
    - A [Date] object is its time value, milliseconds from the epoch, in [Z].
    - The host's time zone is a fixed offset [tz], in minutes east of UTC
      (the negation of [getTimezoneOffset()]). Daylight-saving changes are
      not modelled: what is proved of the day loop is proved for a host
      whose zone keeps one offset all year.
    - A finite JS number is the rational it denotes; [NaN] and the
      infinities stand apart. The counts the app manipulates are integers
      far below 2^53 and their sums and differences are exact. The quotient
      and the product of the percentage are rounded to double precision
      ([divDouble], [mulDouble]); the counter version's percentage is kept
      on exact rationals.
    - JS strings are [string]s of 8-bit code units.
    - [localStorage] is a record with one component per key family. The
      accounts are a finite map: the members a plain object inherits are
      listed in [inheritedNames], and what is proved of a lookup is proved
      for ids outside that list.
    - The memoised figures are kept next to the state hooks, in a
      [Screen]. *)

From Stdlib Require Import ZArith QArith Qround Qabs Qpower String Ascii List Lia Lqa.
From Stdlib Require Import DecimalString DecimalN DecimalPos DecimalFacts.
From Stdlib Require PrimFloat FloatOps SpecFloat Uint63.
From stdpp Require Import base strings gmap list.

Open Scope Z_scope.

(** ** Dates *)

Definition msPerDay : Z := 86400000.
Definition msPerMinute : Z := 60000.

(** Day number of the civil date [y]-[m]-[d] (proleptic Gregorian). *)
Definition ymd (y m d : Z) : Z :=
  let y' := if m <=? 2 then y - 1 else y in
  let era := y' / 400 in
  let yoe := y' - era * 400 in
  let doy := (153 * (if 2 <? m then m - 3 else m + 9) + 2) / 5 + d - 1 in
  let doe := yoe * 365 + yoe / 4 - yoe / 100 + doy in
  era * 146097 + doe - 719468.

(** Year and month (1..12) of a day number. *)
Definition yearMonth (z : Z) : Z * Z :=
  let z' := z + 719468 in
  let era := z' / 146097 in
  let doe := z' - era * 146097 in
  let yoe := (doe - doe / 1460 + doe / 36524 - doe / 146096) / 365 in
  let doy := doe - (365 * yoe + yoe / 4 - yoe / 100) in
  let mp := (5 * doy + 2) / 153 in
  let m := if mp <? 10 then mp + 3 else mp - 9 in
  (if m <=? 2 then yoe + era * 400 + 1 else yoe + era * 400, m).

(** [new Date(iso)]: a date-only string denotes midnight UTC of that day. *)
Definition newDate (iso : Z) : Z := iso * msPerDay.

(** [t.toISOString().slice(0, 10)]: the UTC calendar day of a time value. *)
Definition toISODate (t : Z) : Z := t / msPerDay.

(** [todayISO()], reading the clock [now]. *)
Definition todayISO (now : Z) : Z := toISODate now.

(** The local calendar day of a time value. *)
Definition localDay (tz t : Z) : Z := (t + tz * msPerMinute) / msPerDay.

(** [t.getDay()]: 0 Sun ... 6 Sat, in local time; 1970-01-01 was a Thursday. *)
Definition getDay (tz t : Z) : Z := (localDay tz t + 4) mod 7.

(** [d.setDate(d.getDate() + 1)]: the same local time on the next local
    day, which is 24 hours later where the zone keeps one offset. *)
Definition nextDay (t : Z) : Z := t + msPerDay.

Definition isWeekday (tz date : Z) : bool :=
  let d := date in
  let day := getDay tz d in
  negb (day =? 0) && negb (day =? 6).

(** The [for] loop of [workingDaysCount]; [None] when [fuel] runs out before
    the loop condition fails. *)
Fixpoint workingDaysLoop (fuel : nat) (tz d end_ count : Z) : option Z :=
  if d <=? end_ then
    match fuel with
    | O => None
    | S fuel' =>
        workingDaysLoop fuel' tz (nextDay d) end_
          (if isWeekday tz d then count + 1 else count)
    end
  else Some count.

Definition workingDaysRun (fuel : nat) (tz startDateISO endDateISO : Z) : option Z :=
  let start := newDate startDateISO in
  let end_ := newDate endDateISO in
  workingDaysLoop fuel tz start end_ 0.

(** One unit of fuel per day of the range is enough ([workingDaysRun_enough]). *)
Definition workingDaysCount (tz startDateISO endDateISO : Z) : Z :=
  default 0 (workingDaysRun (Z.to_nat (endDateISO - startDateISO + 1))
               tz startDateISO endDateISO).

(** [defaultSemesterStart()]: local midnight of the first day of the current
    local month, printed as a UTC date. *)
Definition defaultSemesterStart (tz now : Z) : Z :=
  let '(y, m) := yearMonth (localDay tz now) in
  let first := ymd y m 1 * msPerDay - tz * msPerMinute in
  toISODate first.

(** The weekday of a calendar date itself: 0 Sun ... 6 Sat. *)
Definition weekdayOf (iso : Z) : Z := (iso + 4) mod 7.

(** ** Numbers and [toFixed] *)

Inductive number :=
  | Fin (q : Q)
  | NaN
  | Inf (negative : bool).

Definition ofZ (z : Z) : number := Fin (inject_Z z).

Definition isNegative (q : Q) : bool := negb (Qle_bool 0 q).

(** [a / b]: division by zero does not raise, it yields [NaN] or an infinity. *)
Definition numDiv (a b : number) : number :=
  match a, b with
  | Fin x, Fin y =>
      if Qeq_bool y 0 then (if Qeq_bool x 0 then NaN else Inf (isNegative x))
      else Fin (x / y)%Q
  | Fin _, Inf _ => Fin 0
  | Inf n, Fin y => Inf (xorb n (isNegative y))
  | _, _ => NaN
  end.

Definition numMul (a b : number) : number :=
  match a, b with
  | Fin x, Fin y => Fin (x * y)%Q
  | Fin x, Inf n | Inf n, Fin x =>
      if Qeq_bool x 0 then NaN else Inf (xorb n (isNegative x))
  | Inf n, Inf n' => Inf (xorb n n')
  | _, _ => NaN
  end.

(** The integer [n] for which [n / 10^f - x] is closest to zero, the larger
    one when two are equally close. *)
Definition nearestScaled (x : Q) (f : nat) : Z :=
  Qfloor (x * inject_Z (10 ^ Z.of_nat f) + (1 # 2))%Q.

Definition digits (n : Z) : string := NilZero.string_of_uint (N.to_uint (Z.to_N n)).

Fixpoint zeros (k : nat) : string :=
  match k with
  | O => EmptyString
  | S k' => String "0" (zeros k')
  end.

(** The digit string of [n] with a decimal point before its last [f] digits. *)
Definition fixedString (n : Z) (f : nat) : string :=
  let m := digits n in
  match f with
  | O => m
  | S _ =>
      let k := String.length m in
      let m := if (k <=? f)%nat then zeros (f + 1 - k)%nat +:+ m else m in
      let k := String.length m in
      substring 0 (k - f)%nat m +:+ "." +:+ substring (k - f)%nat f m
  end.

(** [x.toFixed(f)]. The exponent notation used from 10^21 on is not
    modelled: an array's length, below 2^32, keeps the app's values under it. *)
Definition toFixed (x : number) (f : nat) : string :=
  match x with
  | NaN => "NaN"
  | Inf false => "Infinity"
  | Inf true => "-Infinity"
  | Fin q =>
      let s := if isNegative q then "-" else "" in
      let q := Qabs q in
      s +:+ fixedString (nearestScaled q f) f
  end.

(** ** Double precision

    The percentage is computed in IEEE binary64. Division and multiplication
    return the exact result rounded to the nearest double, ties to the even
    significand, with gradual underflow and overflow to infinity; a finite
    double is represented by the rational it denotes. *)

(** The exponent [e] with [2^e <= q < 2^(e+1)], for a positive [q]. *)
Definition floorLog2 (q : Q) : Z :=
  let e := Z.log2 (Qnum q) - Z.log2 (Z.pos (Qden q)) in
  if Qle_bool (2 ^ e) q then e else e - 1.

Definition roundHalfEven (m : Q) : Z :=
  let f := Qfloor m in
  match (m - inject_Z f ?= 1 # 2)%Q with
  | Lt => f
  | Gt => f + 1
  | Eq => if Z.even f then f else f + 1
  end.

(** The double nearest to [x]: 53 significant bits, the exponent of the
    unit in the last place not below -1074, infinity from 2^1024 on. *)
Definition roundDouble (x : Q) : number :=
  let x := Qred x in
  if Qeq_bool x 0 then Fin 0
  else
    let a := Qabs x in
    let e := Z.max (floorLog2 a) (-1022) in
    let ulp := (2 ^ (e - 52))%Q in
    let r := (inject_Z (roundHalfEven (a / ulp)) * ulp)%Q in
    if Qle_bool (2 ^ 1024) r then Inf (isNegative x)
    else Fin (if isNegative x then - r else r)%Q.

(** [a / b] and [a * b] on doubles. *)
Definition divDouble (a b : number) : number :=
  match numDiv a b with
  | Fin q => roundDouble q
  | other => other
  end.

Definition mulDouble (a b : number) : number :=
  match numMul a b with
  | Fin q => roundDouble q
  | other => other
  end.

(** The same quotient and product on primitive floats, which are IEEE
    binary64 as well, to compare the two on samples. *)
Definition floatValue (f : PrimFloat.float) : option Q :=
  match FloatOps.Prim2SF f with
  | SpecFloat.S754_zero _ => Some 0%Q
  | SpecFloat.S754_finite s m e =>
      Some ((if s then - (1) else 1) * inject_Z (Z.pos m) * 2 ^ e)%Q
  | _ => None
  end.

Definition floatOfZ (z : Z) : PrimFloat.float :=
  if z <? 0 then PrimFloat.opp (PrimFloat.of_uint63 (Uint63.of_Z (- z)))
  else PrimFloat.of_uint63 (Uint63.of_Z z).

Definition primitivePercent (d w : Z) : option Q :=
  floatValue (PrimFloat.mul (PrimFloat.div (floatOfZ d) (floatOfZ w)) (floatOfZ 100)).

Definition doublePercent (d w : Z) : option Q :=
  match mulDouble (divDouble (ofZ d) (ofZ w)) (ofZ 100) with
  | Fin q => Some q
  | _ => None
  end.

Definition samePercent (d w : Z) : bool :=
  match primitivePercent d w, doublePercent d w with
  | Some a, Some b => Qeq_bool a b
  | _, _ => false
  end.

(** ** Reading a printed figure back

    A reader for the notation of [toFixed(2)], written apart from the
    printer: an optional minus sign, an integer part without superfluous
    zeros, a point and exactly two digits. It returns the number written. *)

Definition isDigit (a : ascii) : bool :=
  let c := nat_of_ascii a in ((48 <=? c) && (c <=? 57))%nat.

Fixpoint allDigits (s : string) : bool :=
  match s with
  | EmptyString => true
  | String a s' => isDigit a && allDigits s'
  end.

(** No leading zero, except for the numeral 0 itself. *)
Definition canonicalInteger (s : string) : bool :=
  match s with
  | EmptyString => false
  | String a s' =>
      allDigits s && (negb (Ascii.eqb a "0") || if s' is EmptyString then true else false)
  end.

(** The number a string of digits denotes. *)
Definition digitsValue (s : string) : option Z :=
  match NilEmpty.uint_of_string s with
  | Some d => Some (Z.of_N (N.of_uint d))
  | None => None
  end.

Definition readUnsigned2 (s : string) : option Q :=
  let k := String.length s in
  let whole := substring 0 (k - 3) s in
  let point := substring (k - 3) 1 s in
  let cents := substring (k - 2) 2 s in
  if (4 <=? k)%nat && canonicalInteger whole && String.eqb point "."
     && allDigits cents
  then
    match digitsValue (whole +:+ cents) with
    | Some n => Some (inject_Z n / 100)%Q
    | None => None
    end
  else None.

Definition readFixed2 (s : string) : option Q :=
  match s with
  | String a s' =>
      if Ascii.eqb a "-" then
        match readUnsigned2 s' with
        | Some v => Some (- v)%Q
        | None => None
        end
      else readUnsigned2 s
  | EmptyString => None
  end.

(** A value shown by the interface: a number or a string. *)
Inductive value :=
  | VNum (n : number)
  | VStr (s : string).

(** ** Strings *)

(** White space and line terminators among the 8-bit code units. *)
Definition isWhiteSpace (a : ascii) : bool :=
  let c := nat_of_ascii a in
  ((9 <=? c) && (c <=? 13) || (c =? 32) || (c =? 160))%nat.

Fixpoint trimStart (s : string) : string :=
  match s with
  | EmptyString => EmptyString
  | String a s' => if isWhiteSpace a then trimStart s' else s
  end.

Fixpoint trimEnd (s : string) : string :=
  match s with
  | EmptyString => EmptyString
  | String a s' =>
      match trimEnd s' with
      | EmptyString => if isWhiteSpace a then EmptyString else String a EmptyString
      | r => String a r
      end
  end.

(** [s.trim()] *)
Definition trim (s : string) : string := trimEnd (trimStart s).

(** ** Local storage *)

Module User.
Record t := mk {
  collegeId : string;
  email : option string;
  phone : option string;
  password : option string;
  webauthn : bool
}.

(** [{ collegeId: id }] *)
Definition seed (id : string) : t := mk id None None None false.

Definition setEmail (v : string) (u : t) : t :=
  mk (collegeId u) (Some v) (phone u) (password u) (webauthn u).
Definition setPhone (v : string) (u : t) : t :=
  mk (collegeId u) (email u) (Some v) (password u) (webauthn u).
Definition setPassword (v : string) (u : t) : t :=
  mk (collegeId u) (email u) (phone u) (Some v) (webauthn u).
Definition setWebauthn (v : bool) (u : t) : t :=
  mk (collegeId u) (email u) (phone u) (password u) v.
End User.

(** The three key families: [sca_users_v1], [sca_session_v1] and
    [sca_att_<collegeId>]. *)
Record Storage := mkStorage {
  users : gmap string User.t;
  session : option string;
  attendance : gmap string (list Z)
}.

Definition emptyStorage : Storage := mkStorage ∅ None ∅.

Definition loadUsers (st : Storage) : gmap string User.t := users st.

Definition saveUsers (us : gmap string User.t) (st : Storage) : Storage :=
  mkStorage us (session st) (attendance st).

Definition getUser (st : Storage) (id : string) : option User.t :=
  loadUsers st !! id.

Definition upsertUser (user : User.t) (st : Storage) : Storage :=
  let us := loadUsers st in
  saveUsers (<[User.collegeId user := user]> us) st.

Definition setSession (collegeId : string) (st : Storage) : Storage :=
  mkStorage (users st) (Some collegeId) (attendance st).

Definition getSession (st : Storage) : option string := session st.

Definition clearSession (st : Storage) : Storage :=
  mkStorage (users st) None (attendance st).

Definition loadAttendance (st : Storage) (collegeId : string) : list Z :=
  default [] (attendance st !! collegeId).

Definition saveAttendance (collegeId : string) (dates : list Z) (st : Storage) : Storage :=
  mkStorage (users st) (session st) (<[collegeId := dates]> (attendance st)).

(** ** Names every object inherits

    [loadUsers()] returns a plain object, so [users[id]] also finds what the
    object inherits from [Object.prototype]: for the id [constructor] the
    lookup yields a function, not [undefined], whether or not an account is
    stored, and an assignment to [users["__proto__"]] stores nothing.
    [getUser] and [upsertUser] above are the lookup and the update among the
    stored accounts: they are the code's for every id outside the list
    below. The statements that depend on a lookup are made for such ids, and
    say so with [inheritedName]. *)
Definition inheritedNames : list string :=
  [ "constructor"; "hasOwnProperty"; "isPrototypeOf"; "propertyIsEnumerable";
    "toLocaleString"; "toString"; "valueOf"; "__proto__";
    "__defineGetter__"; "__defineSetter__"; "__lookupGetter__"; "__lookupSetter__" ].

Definition inheritedName (id : string) : bool :=
  existsb (String.eqb id) inheritedNames.

(** ** WebAuthn *)

(** What the platform authenticator does when asked. *)
Inductive Authenticator :=
  | Unsupported
  | Throws (message : string)
  | ReturnsNull
  | Succeeds.

Record WaResult := mkWa { ok : bool; reason : string }.

Definition createWebAuthnCredential (a : Authenticator) (collegeId : string)
    (st : Storage) : Storage * WaResult :=
  match a with
  | Unsupported => (st, mkWa false "WebAuthn not supported")
  | Throws m => (st, mkWa false m)
  | ReturnsNull => (st, mkWa false "No credential returned")
  | Succeeds =>
      match getUser st collegeId with
      | Some user => (upsertUser (User.setWebauthn true user) st, mkWa true "")
      | None => (st, mkWa false "Cannot set properties of null (setting 'webauthn')")
      end
  end.

Definition authenticateWithWebAuthn (a : Authenticator) : WaResult :=
  match a with
  | Unsupported => mkWa false "WebAuthn not supported"
  | Throws m => mkWa false m
  | ReturnsNull => mkWa false "No assertion"
  | Succeeds => mkWa true ""
  end.

(** ** The [App] component *)

Module Form.
Record t := mk {
  collegeId : string;
  email : string;
  phone : string;
  otp : string;
  password : string;
  confirm : string
}.

Definition empty : t := mk "" "" "" "" "" "".

Inductive key := CollegeId | Email | Phone | Otp | Password | Confirm.

(** [{ ...prev, [k]: v }] *)
Definition update (k : key) (v : string) (prev : t) : t :=
  match k with
  | CollegeId => mk v (email prev) (phone prev) (otp prev) (password prev) (confirm prev)
  | Email => mk (collegeId prev) v (phone prev) (otp prev) (password prev) (confirm prev)
  | Phone => mk (collegeId prev) (email prev) v (otp prev) (password prev) (confirm prev)
  | Otp => mk (collegeId prev) (email prev) (phone prev) v (password prev) (confirm prev)
  | Password => mk (collegeId prev) (email prev) (phone prev) (otp prev) v (confirm prev)
  | Confirm => mk (collegeId prev) (email prev) (phone prev) (otp prev) (password prev) v
  end.
End Form.

Inductive View := ViewAuth | ViewApp.
Inductive Step := StepLogin | StepRegister | StepVerify | StepSetpass.

(** The component's state hooks, the storage it writes to and the clock. *)
Record App := mkApp {
  view : View;
  step : Step;
  form : Form.t;
  info : string;
  err : string;
  otpSent : bool;
  otpCode : string;
  user : option User.t;
  marking : bool;
  shotBlob : bool;
  waStatus : string;
  semStart : Z;
  storage : Storage;
  clock : Z
}.

Definition setView (v : View) (s : App) : App :=
  mkApp v (step s) (form s) (info s) (err s) (otpSent s) (otpCode s) (user s)
    (marking s) (shotBlob s) (waStatus s) (semStart s) (storage s) (clock s).
Definition setStep (v : Step) (s : App) : App :=
  mkApp (view s) v (form s) (info s) (err s) (otpSent s) (otpCode s) (user s)
    (marking s) (shotBlob s) (waStatus s) (semStart s) (storage s) (clock s).
Definition setForm (v : Form.t) (s : App) : App :=
  mkApp (view s) (step s) v (info s) (err s) (otpSent s) (otpCode s) (user s)
    (marking s) (shotBlob s) (waStatus s) (semStart s) (storage s) (clock s).
Definition setInfo (v : string) (s : App) : App :=
  mkApp (view s) (step s) (form s) v (err s) (otpSent s) (otpCode s) (user s)
    (marking s) (shotBlob s) (waStatus s) (semStart s) (storage s) (clock s).
Definition setErr (v : string) (s : App) : App :=
  mkApp (view s) (step s) (form s) (info s) v (otpSent s) (otpCode s) (user s)
    (marking s) (shotBlob s) (waStatus s) (semStart s) (storage s) (clock s).
Definition setOtpSent (v : bool) (s : App) : App :=
  mkApp (view s) (step s) (form s) (info s) (err s) v (otpCode s) (user s)
    (marking s) (shotBlob s) (waStatus s) (semStart s) (storage s) (clock s).
Definition setOtpCode (v : string) (s : App) : App :=
  mkApp (view s) (step s) (form s) (info s) (err s) (otpSent s) v (user s)
    (marking s) (shotBlob s) (waStatus s) (semStart s) (storage s) (clock s).
Definition setUser (v : option User.t) (s : App) : App :=
  mkApp (view s) (step s) (form s) (info s) (err s) (otpSent s) (otpCode s) v
    (marking s) (shotBlob s) (waStatus s) (semStart s) (storage s) (clock s).
Definition setMarking (v : bool) (s : App) : App :=
  mkApp (view s) (step s) (form s) (info s) (err s) (otpSent s) (otpCode s) (user s)
    v (shotBlob s) (waStatus s) (semStart s) (storage s) (clock s).
Definition setShotBlob (v : bool) (s : App) : App :=
  mkApp (view s) (step s) (form s) (info s) (err s) (otpSent s) (otpCode s) (user s)
    (marking s) v (waStatus s) (semStart s) (storage s) (clock s).
Definition setWaStatus (v : string) (s : App) : App :=
  mkApp (view s) (step s) (form s) (info s) (err s) (otpSent s) (otpCode s) (user s)
    (marking s) (shotBlob s) v (semStart s) (storage s) (clock s).
Definition setSemStart (v : Z) (s : App) : App :=
  mkApp (view s) (step s) (form s) (info s) (err s) (otpSent s) (otpCode s) (user s)
    (marking s) (shotBlob s) (waStatus s) v (storage s) (clock s).
Definition setStorage (v : Storage) (s : App) : App :=
  mkApp (view s) (step s) (form s) (info s) (err s) (otpSent s) (otpCode s) (user s)
    (marking s) (shotBlob s) (waStatus s) (semStart s) v (clock s).
Definition setClock (v : Z) (s : App) : App :=
  mkApp (view s) (step s) (form s) (info s) (err s) (otpSent s) (otpCode s) (user s)
    (marking s) (shotBlob s) (waStatus s) (semStart s) (storage s) v.

(** The messages the handlers report, under the names the design gives
    the failures. *)
Definition NotFoundError : string := "Account not found. Please register first.".
Definition NoPasswordSetError : string := "Password not set. Complete registration.".
Definition InvalidCredentialsError : string := "Invalid credentials.".
Definition ValidationError : string := "Fill all fields".
Definition InvalidCodeError : string := "Incorrect OTP".
Definition WeakPasswordError : string := "Password must be at least 6 characters".
Definition MismatchError : string := "Passwords do not match".
Definition UserNotFoundDuringSetup : string := "User not found during setup".
Definition SelfieRequiredError : string := "Please capture a selfie first".
Definition BiometricRequiredError : string := "Biometric/Passkey auth failed or not available".
Definition NonWorkingDayError : string := "Today is not a working day (weekend)".

(** [!s] for a string that may be absent: true of [undefined] and of [""]. *)
Definition falsy (s : option string) : bool :=
  match s with
  | None => true
  | Some s => if decide (s = "") then true else false
  end.

(** The state of a first visit: nothing stored, the login card showing. *)
Definition initial (tz now : Z) : App :=
  mkApp ViewAuth StepLogin Form.empty "" "" false "" None false false ""
    (defaultSemesterStart tz now) emptyStorage now.

Definition updateField (k : Form.key) (v : string) (s : App) : App :=
  setForm (Form.update k v (form s)) s.

Definition doLogin (s : App) : App :=
  let s := setErr "" s in
  match getUser (storage s) (trim (Form.collegeId (form s))) with
  | None => setErr NotFoundError s
  | Some u =>
      if falsy (User.password u) then setErr NoPasswordSetError s
      else if decide (User.password u = Some (Form.password (form s))) then
        let s := setUser (Some u) s in
        let s := setView ViewApp s in
        let s := setInfo "" s in
        let s := setErr "" s in
        setStorage (setSession (User.collegeId u) (storage s)) s
      else setErr InvalidCredentialsError s
  end.

Definition startRegister (s : App) : App :=
  let s := setStep StepRegister s in
  let s := setErr "" s in
  setInfo "" s.

(** [code] is the six-digit string drawn with [Math.random()]. *)
Definition sendOTP (code : string) (s : App) : App :=
  let s := setErr "" s in
  let collegeId := Form.collegeId (form s) in
  let email := Form.email (form s) in
  let phone := Form.phone (form s) in
  if decide (collegeId = "" ∨ email = "" ∨ phone = "") then setErr ValidationError s
  else
    let s := setOtpCode code s in
    let s := setOtpSent true s in
    let s := setStep StepVerify s in
    setInfo ("Mock OTP sent to " +:+ email +:+ " & " +:+ phone +:+ ": " +:+ code) s.

Definition verifyOTP (s : App) : App :=
  let s := setErr "" s in
  if decide (Form.otp (form s) = otpCode s) then
    let u := default (User.seed (Form.collegeId (form s)))
               (getUser (storage s) (Form.collegeId (form s))) in
    let u := User.setEmail (Form.email (form s)) u in
    let u := User.setPhone (Form.phone (form s)) u in
    let s := setStorage (upsertUser u (storage s)) s in
    let s := setStep StepSetpass s in
    setInfo "OTP verified. Set your password." s
  else setErr InvalidCodeError s.

(** [a] is what the authenticator does at the enrolment prompt. *)
Definition setPassword (a : Authenticator) (s : App) : App :=
  let s := setErr "" s in
  if (String.length (Form.password (form s)) <? 6)%nat then setErr WeakPasswordError s
  else if decide (Form.password (form s) = Form.confirm (form s)) then
    match getUser (storage s) (Form.collegeId (form s)) with
    | None => setErr UserNotFoundDuringSetup s
    | Some u =>
        let u := User.setPassword (Form.password (form s)) u in
        let s := setStorage (upsertUser u (storage s)) s in
        let s := setInfo "Password set. Optionally register your device biometrics." s in
        let s := setWaStatus "Registering biometrics..." s in
        let '(st, res) := createWebAuthnCredential a (User.collegeId u) (storage s) in
        let s := setStorage st s in
        let s :=
          if ok res then setWaStatus "Biometric/Passkey registered on this device." s
          else setWaStatus ("Biometric registration skipped: " +:+ reason res) s in
        let s := setUser (Some u) s in
        let s := setView ViewApp s in
        setStorage (setSession (User.collegeId u) (storage s)) s
    end
  else setErr MismatchError s.

(** The body of the [try] block of [markAttendance]: the message thrown, or
    the state reached. *)
Definition markAttendanceTry (tz : Z) (a : Authenticator) (s : App) : string + App :=
  if negb (shotBlob s) then inl SelfieRequiredError
  else
    match user s with
    | None => inl "Cannot read properties of null (reading 'collegeId')"
    | Some u =>
        let wa := authenticateWithWebAuthn a in
        if negb (ok wa) then inl BiometricRequiredError
        else
          let day := todayISO (clock s) in
          if negb (isWeekday tz (newDate day)) then inl NonWorkingDayError
          else
            let dates := loadAttendance (storage s) (User.collegeId u) in
            let s :=
              if decide (day ∈ dates) then s
              else setStorage (saveAttendance (User.collegeId u) (dates ++ [day]) (storage s)) s in
            inr (setInfo "Attendance marked successfully for today." s)
    end.

(** [a] is what the authenticator does at the assertion prompt. *)
Definition markAttendance (tz : Z) (a : Authenticator) (s : App) : App :=
  let s := setErr "" s in
  let s := setInfo "" s in
  let s := setMarking true s in
  let s :=
    match markAttendanceTry tz a s with
    | inr s' => s'
    | inl message => setErr message s
    end in
  setMarking false s.

Definition logout (s : App) : App :=
  let s := setStorage (clearSession (storage s)) s in
  let s := setUser None s in
  let s := setView ViewAuth s in
  let s := setStep StepLogin s in
  let s := setForm Form.empty s in
  let s := setInfo "" s in
  setErr "" s.

(** ** The interface as a transition system *)

(** What can happen to the page: a handler fires, or time passes. The date
    picker delivers a date; clearing it, which delivers the empty string, is
    left out. *)
Inductive Event :=
  | UpdateField (k : Form.key) (v : string)
  | DoLogin
  | StartRegister
  | SendOTP (code : string)
  | VerifyOTP
  | SetPassword (a : Authenticator)
  | Capture
  | MarkAttendance (a : Authenticator)
  | SetSemStart (d : Z)
  | Logout
  | Tick (ms : N).

(** The inputs on screen in the authentication view: the login card always
    shows the id and the password, the setup card depends on the step. *)
Definition fieldShown (st : Step) (k : Form.key) : bool :=
  match k, st with
  | Form.CollegeId, _ | Form.Password, _ => true
  | Form.Email, StepRegister | Form.Phone, StepRegister => true
  | Form.Otp, StepVerify => true
  | Form.Confirm, StepSetpass => true
  | _, _ => false
  end.

(** Whether the control that triggers the event is rendered. *)
Definition enabled (s : App) (ev : Event) : bool :=
  match ev, view s with
  | Tick _, _ => true
  | Logout, _ => if user s is Some _ then true else false
  | UpdateField k _, ViewAuth => fieldShown (step s) k
  | DoLogin, ViewAuth | StartRegister, ViewAuth => true
  | SendOTP _, ViewAuth => if step s is StepRegister then true else false
  | VerifyOTP, ViewAuth => if step s is StepVerify then true else false
  | SetPassword _, ViewAuth => if step s is StepSetpass then true else false
  | Capture, ViewApp | MarkAttendance _, ViewApp | SetSemStart _, ViewApp => true
  | _, _ => false
  end.

(** Each asynchronous handler runs to completion as one transition. *)
Definition handle (tz : Z) (ev : Event) (s : App) : App :=
  if enabled s ev then
    match ev with
    | UpdateField k v => updateField k v s
    | DoLogin => doLogin s
    | StartRegister => startRegister s
    | SendOTP code => sendOTP code s
    | VerifyOTP => verifyOTP s
    | SetPassword a => setPassword a s
    | Capture => setShotBlob true s
    | MarkAttendance a => markAttendance tz a s
    | SetSemStart d => setSemStart d s
    | Logout => logout s
    | Tick ms => setClock (clock s + Z.of_N ms) s
    end
  else s.

Definition run (tz : Z) (evs : list Event) (s : App) : App :=
  foldl (λ s ev, handle tz ev s) s evs.

(** The states a first visit at time [now0] can lead to. *)
Inductive reachable (tz now0 : Z) : App → Prop :=
  | reachable_initial : reachable tz now0 (initial tz now0)
  | reachable_handle s ev :
      reachable tz now0 s → reachable tz now0 (handle tz ev s).

(** ** Predicates used in the statements *)

(** Every account is stored under its own id. *)
Definition usersKeyed (st : Storage) : Prop :=
  ∀ id u, users st !! id = Some u → User.collegeId u = id.


(** The days of [start .. end_] accepted by [isWeekday]. *)
Definition weekdaysBetween (tz start end_ : Z) : list Z :=
  filter (λ d, isWeekday tz (newDate d) = true) (seqZ start (end_ - start + 1)).

(** Saturday or Sunday. *)
Definition isWeekend (iso : Z) : Prop := weekdayOf iso = 6 ∨ weekdayOf iso = 0.

(** The two ways the selfie and biometric confirmation can be missing. *)
Definition AuthenticationRequiredError (message : string) : Prop :=
  message = SelfieRequiredError ∨ message = BiometricRequiredError.

(** The selfie has been captured and the authenticator asserts. *)
Definition confirmed (a : Authenticator) (s : App) : Prop :=
  shotBlob s = true ∧ ok (authenticateWithWebAuthn a) = true.

(** A zone at or east of UTC. *)
Definition eastOfUTC (tz : Z) : Prop := 0 ≤ tz < 1440.

(** ** Sample sessions *)

(** The first-time setup of one student, on a device without WebAuthn. *)
Definition enrol (id mail tel pw : string) : list Event :=
  [ StartRegister;
    UpdateField Form.CollegeId id; UpdateField Form.Email mail;
    UpdateField Form.Phone tel; SendOTP "123456";
    UpdateField Form.Otp "123456"; VerifyOTP;
    UpdateField Form.Password pw; UpdateField Form.Confirm pw;
    SetPassword Unsupported ].

(** Monday 2024-01-08, midnight UTC, on a host keeping UTC: student S1 has
    just completed the setup and is looking at the attendance view. *)
Definition mondaySession : App :=
  run 0 (enrol "S1" "s1@college.example" "5550100" "secret1")
    (initial 0 (newDate (ymd 2024 1 8))).

(** The same setup done on Saturday 2024-01-06. *)
Definition saturdaySession : App :=
  run 0 (enrol "S1" "s1@college.example" "5550100" "secret1")
    (initial 0 (newDate (ymd 2024 1 6))).

(** Student S1 has logged out and comes back, typing the id with a space
    on either side. *)
Definition returningSession : App :=
  run 0 [ Logout; UpdateField Form.CollegeId " S1 ";
          UpdateField Form.Password "secret1" ] mondaySession.

(** The setup card is at its last step, but the id typed in the login card
    has since been changed to one that has no account. *)
Definition strayedSetup : App :=
  run 0 [ StartRegister;
          UpdateField Form.CollegeId "S1"; UpdateField Form.Email "s1@college.example";
          UpdateField Form.Phone "5550100"; SendOTP "123456";
          UpdateField Form.Otp "123456"; VerifyOTP;
          UpdateField Form.CollegeId "S2";
          UpdateField Form.Password "secret1"; UpdateField Form.Confirm "secret1" ]
    (initial 0 (newDate (ymd 2024 1 8))).

(** Student S1, enrolled, goes through the verification again with a new
    address and number. *)
Definition reverification : App :=
  run 0 [ Logout; StartRegister;
          UpdateField Form.CollegeId "S1"; UpdateField Form.Email "new@college.example";
          UpdateField Form.Phone "5550199"; SendOTP "654321";
          UpdateField Form.Otp "654321" ] mondaySession.

(** The stray setup, with the id typed back to S1. *)
Definition resumedSetup : App :=
  run 0 [UpdateField Form.CollegeId "S1"] strayedSetup.

(** Full attendance: S1 marks Monday 2024-01-08, the semester starting
    that very day. *)
Definition fullAttendance : App :=
  run 0 [Capture; MarkAttendance Succeeds; SetSemStart (ymd 2024 1 8)] mondaySession.

(** S1 has captured the selfie on Monday 2024-01-08. *)
Definition readyToMark : App := run 0 [Capture] mondaySession.

(** ** Restoring the session on load *)

(** The state hooks as [useState] initialises them when the page loads over
    the storage [st]. *)
Definition fresh (tz now : Z) (st : Storage) : App :=
  mkApp ViewAuth StepLogin Form.empty "" "" false "" None false false ""
    (defaultSemesterStart tz now) st now.

(** The effect run once after the first render: a stored session whose
    account still exists logs the user back in, a dangling one is removed. *)
Definition restoreSession (s : App) : App :=
  match getSession (storage s) with
  | Some sess =>
      if decide (sess = "") then s
      else
        match getUser (storage s) sess with
        | Some u =>
            let s := setUser (Some u) s in
            setView ViewApp s
        | None => setStorage (clearSession (storage s)) s
        end
  | None => s
  end.

Definition mount (tz now : Z) (st : Storage) : App :=
  restoreSession (fresh tz now st).

(** ** Further predicates *)

(** Every stored password has at least six characters. *)
Definition passwordsLong (st : Storage) : Prop :=
  ∀ id u pw, users st !! id = Some u → User.password u = Some pw →
    (6 ≤ String.length pw)%nat.

(** The stored session names the logged-in user, and that user's account is
    in the storage. *)
Definition sessionCoherent (s : App) : Prop :=
  getSession (storage s) = User.collegeId <$> user s
  ∧ (view s = ViewApp → is_Some (user s))
  ∧ ∀ u, user s = Some u → is_Some (getUser (storage s) (User.collegeId u)).

(** While the code is awaited, the address and the number are the ones the
    code was sent to, and every account carries a non-empty address and
    number. *)
Definition contactsFilled (s : App) : Prop :=
  (step s = StepVerify → Form.email (form s) ≠ "" ∧ Form.phone (form s) ≠ "")
  ∧ ∀ id u, users (storage s) !! id = Some u →
      ∃ mail tel, User.email u = Some mail ∧ User.phone u = Some tel
                  ∧ mail ≠ "" ∧ tel ≠ "".

(** An account with its password, as seen by a later state: still there,
    under the same id, with some password if it had one and enrolled if it
    was. *)
Definition accountKept (u u' : User.t) : Prop :=
  User.collegeId u' = User.collegeId u
  ∧ (is_Some (User.password u) → is_Some (User.password u'))
  ∧ (User.webauthn u = true → User.webauthn u' = true).

(** ** The figures on screen

    [workingDays] and [attendanceDates] are wrapped in [useMemo]: React
    computes them at the first render and again only at a render where one
    of the listed dependencies has changed. [workingDays] lists [semStart]
    alone, so the day [todayISO()] returned when the start was last set
    stays in it. [attendanceDates] lists [user] alone, so a day written to
    the ledger reaches it only when [setUser] is called again; the objects
    [setUser] receives come fresh from [JSON.parse], so each such call is a
    change. [percentage] lists the three figures it is computed from and so
    always agrees with them. *)

(** The state hooks with the two remembered values. *)
Record Screen := mkScreen {
  hooks : App;
  workingDaysMemo : Z;
  attendanceDatesMemo : list Z
}.

(** The callbacks of the two [useMemo] calls. *)
Definition computeWorkingDays (tz : Z) (s : App) : Z :=
  workingDaysCount tz (semStart s) (todayISO (clock s)).

Definition computeAttendanceDates (s : App) : list Z :=
  match user s with
  | Some u => loadAttendance (storage s) (User.collegeId u)
  | None => []
  end.

Definition workingDays (r : Screen) : Z := workingDaysMemo r.

Definition attendanceDates (r : Screen) : list Z := attendanceDatesMemo r.

Definition presentDays (r : Screen) : Z := Z.of_nat (length (attendanceDates r)).

Definition absentDays (r : Screen) : Z := Z.max 0 (workingDays r - presentDays r).

Definition percentage (r : Screen) : value :=
  if workingDays r =? 0 then VNum (ofZ 0)
  else
    VStr (toFixed (mulDouble (divDouble (ofZ (presentDays r - absentDays r))
                                        (ofZ (workingDays r)))
                             (ofZ 100)) 2).

Record Stats := mkStats {
  statWorkingDays : Z;
  statPresentDays : Z;
  statAbsentDays : Z;
  statPercentage : value
}.

Definition stats (r : Screen) : Stats :=
  mkStats (workingDays r) (presentDays r) (absentDays r) (percentage r).

(** The first render over the storage [st] and the effect that follows it:
    the working days are counted up to the day of the load, and the ledger
    is read if the effect logs a user back in. *)
Definition load (tz now : Z) (st : Storage) : Screen :=
  let s := fresh tz now st in
  mkScreen (restoreSession s) (computeWorkingDays tz s)
    (computeAttendanceDates (restoreSession s)).

(** Whether the handler of [ev] reaches a [setUser]: [doLogin] and
    [setPassword] do on the path that reports no error, [logout] always. *)
Definition setsUser (s : App) (ev : Event) : bool :=
  enabled s ev &&
  match ev with
  | DoLogin => bool_decide (err (doLogin s) = "")
  | SetPassword a => bool_decide (err (setPassword a s) = "")
  | Logout => true
  | _ => false
  end.

(** A handler runs and the component renders again. *)
Definition act (tz : Z) (ev : Event) (r : Screen) : Screen :=
  let s := hooks r in
  let s' := handle tz ev s in
  mkScreen s'
    (if decide (semStart s' = semStart s) then workingDaysMemo r
     else computeWorkingDays tz s')
    (if setsUser s ev then computeAttendanceDates s' else attendanceDatesMemo r).

(** The page is loaded again: the state hooks and the remembered values
    are lost, the storage stays. *)
Definition reload (tz : Z) (r : Screen) : Screen :=
  load tz (clock (hooks r)) (storage (hooks r)).

Inductive Action :=
  | Do (ev : Event)
  | Reload.

Definition perform (tz : Z) (a : Action) (r : Screen) : Screen :=
  match a with
  | Do ev => act tz ev r
  | Reload => reload tz r
  end.

Definition performAll (tz : Z) (acts : list Action) (r : Screen) : Screen :=
  foldl (λ r a, perform tz a r) r acts.

(** The id an action looks up among the accounts, if it looks one up. *)
Definition lookedUp (s : App) (a : Action) : option string :=
  match a with
  | Do DoLogin => Some (trim (Form.collegeId (form s)))
  | Do VerifyOTP | Do (SetPassword _) => Some (Form.collegeId (form s))
  | Reload => getSession (storage s)
  | Do _ => None
  end.

(** The action looks up no inherited name. *)
Definition ordinary (s : App) (a : Action) : bool :=
  match lookedUp s a with
  | Some id => negb (inheritedName id)
  | None => true
  end.

Fixpoint allOrdinary (tz : Z) (acts : list Action) (r : Screen) : bool :=
  match acts with
  | [] => true
  | a :: acts => ordinary (hooks r) a && allOrdinary tz acts (perform tz a r)
  end.

(** What a screen can become, by actions that look up no inherited name. *)
Inductive leadsTo (tz : Z) (r : Screen) : Screen → Prop :=
  | leadsTo_here : leadsTo tz r r
  | leadsTo_perform r' a :
      leadsTo tz r r' → ordinary (hooks r') a = true →
      leadsTo tz r (perform tz a r').

(** The screens a first visit at time [now0] can lead to. *)
Definition reachableScreen (tz now0 : Z) (r : Screen) : Prop :=
  leadsTo tz (load tz now0 emptyStorage) r.

(** The percentage as the design states it, before rounding. *)
Definition exactPercentage (present absent working : Z) : Q :=
  ((inject_Z (present - absent) / inject_Z working) * 100)%Q.


(** The stored session is the id of the logged-in user, whose account is in
    the storage; with nobody logged in there is no session, or the empty one
    that a load ignores; the attendance view is only shown to a logged-in
    user. *)
Definition sessionLinked (s : App) : Prop :=
  (∀ u, user s = Some u →
     getSession (storage s) = Some (User.collegeId u)
     ∧ is_Some (getUser (storage s) (User.collegeId u)))
  ∧ (user s = None →
     getSession (storage s) = None ∨ getSession (storage s) = Some "")
  ∧ (view s = ViewApp → is_Some (user s)).

(** ** Sample screens *)

(** Monday 2024-01-08 on a host keeping UTC, first visit: S1 completes the
    setup. The semester starts on the first of the month by default. *)
Definition mondayScreen : Screen :=
  performAll 0 (Do <$> enrol "S1" "s1@college.example" "5550100" "secret1")
    (load 0 (newDate (ymd 2024 1 8)) emptyStorage).

(** S1 captures the selfie and marks the day. *)
Definition markedScreen : Screen :=
  performAll 0 [Do Capture; Do (MarkAttendance Succeeds)] mondayScreen.

(** S1 logs out and in again. *)
Definition returnedScreen : Screen :=
  performAll 0 [ Do Logout; Do (UpdateField Form.CollegeId "S1");
                 Do (UpdateField Form.Password "secret1"); Do DoLogin ] markedScreen.

(** Full attendance: the semester is set to start on that Monday. *)
Definition fullAttendanceScreen : Screen :=
  performAll 0 [Do (SetSemStart (ymd 2024 1 8))] returnedScreen.


(** Nothing to attend: the setup is done on Saturday 2024-01-06 and the
    semester set to start that day. *)
Definition emptySemesterScreen : Screen :=
  performAll 0
    ((Do <$> enrol "S1" "s1@college.example" "5550100" "secret1")
       ++ [Do (SetSemStart (ymd 2024 1 6))])
    (load 0 (newDate (ymd 2024 1 6)) emptyStorage).

(** The start of the semester is set to Monday 2024-01-08; S1 marks that
    day and the next, then logs out and in again. The working days on
    screen are still those counted on Monday. *)
Definition staleScreen : Screen :=
  performAll 0
    [ Do (SetSemStart (ymd 2024 1 8)); Do Capture; Do (MarkAttendance Succeeds);
      Do (Tick 86400000); Do (MarkAttendance Succeeds);
      Do Logout; Do (UpdateField Form.CollegeId "S1");
      Do (UpdateField Form.Password "secret1"); Do DoLogin ] mondayScreen.

(** A screen showing 183 days present out of 320. *)
Definition midSemesterScreen : Screen :=
  mkScreen mondaySession 320 (seqZ 0 183).

(** ** The counter version of the app

    The file opens with an earlier, simpler [App]: students register with a
    password, log in, and each click on the marking button adds one to a
    counter, against a fixed number of working days. Its [students] are a
    plain object as well, modelled by a finite map for the ids that are not
    inherited names. *)

Module Simple.

Record Form := mkForm {
  collegeId : string;
  email : string;
  phone : string;
  password : string
}.

(** [{ ...form, attendance: n }] *)
Record Student := mkStudent {
  details : Form;
  attendance : Z
}.

Inductive Page := PageRegister | PageLogin | PageDashboard.

(** The state hooks, the [students] entry of the storage and the alerts
    shown so far, latest last. *)
Record App := mkApp {
  page : Page;
  students : gmap string Student;
  current : option Student;
  form : Form;
  stored : gmap string Student;
  alerts : list string
}.

Definition workingDays : Z := 100.

(** The state on load, over the students found in the storage. *)
Definition initial (found : gmap string Student) : App :=
  mkApp PageRegister found None (mkForm "" "" "" "") found [].

Definition setPage (v : Page) (s : App) : App :=
  mkApp v (students s) (current s) (form s) (stored s) (alerts s).
Definition setCurrent (v : option Student) (s : App) : App :=
  mkApp (page s) (students s) v (form s) (stored s) (alerts s).
Definition setForm (v : Form) (s : App) : App :=
  mkApp (page s) (students s) (current s) v (stored s) (alerts s).
Definition alert (message : string) (s : App) : App :=
  mkApp (page s) (students s) (current s) (form s) (stored s) (alerts s ++ [message]).

Definition saveStudents (updated : gmap string Student) (s : App) : App :=
  mkApp (page s) updated (current s) (form s) updated (alerts s).

Definition register (s : App) : App :=
  if decide (collegeId (form s) = "" ∨ email (form s) = ""
             ∨ phone (form s) = "" ∨ password (form s) = "")
  then alert "Fill all fields" s
  else
    match students s !! collegeId (form s) with
    | Some _ =>
        let s := alert "Already registered! Please login." s in
        setPage PageLogin s
    | None =>
        let updated := <[collegeId (form s) := mkStudent (form s) 0]> (students s) in
        let s := saveStudents updated s in
        let s := alert "Registered successfully. Please login." s in
        setPage PageLogin s
    end.

Definition login (s : App) : App :=
  match students s !! collegeId (form s) with
  | None => alert "Not registered" s
  | Some user =>
      if decide (password (details user) = password (form s)) then
        let s := setCurrent (Some user) s in
        setPage PageDashboard s
      else alert "Wrong password" s
  end.

(** Without a current student, or without that student's record, the
    update throws before any state is set. *)
Definition markAttendance (s : App) : App :=
  match current s with
  | None => s
  | Some c =>
      match students s !! collegeId (details c) with
      | None => s
      | Some st =>
          let marked := mkStudent (details st) (attendance st + 1) in
          let updated := <[collegeId (details c) := marked]> (students s) in
          let s := saveStudents updated s in
          setCurrent (updated !! collegeId (details c)) s
      end
  end.

Definition totalAbsent (s : App) : option Z :=
  match current s with
  | Some c => Some (workingDays - attendance c)
  | None => None
  end.

Definition attendancePercent (s : App) : option string :=
  match current s with
  | Some c =>
      Some (toFixed (numMul (numDiv (ofZ (attendance c)) (ofZ workingDays)) (ofZ 100)) 2)
  | None => None
  end.

(** The dashboard's logout button: back to the login page, nothing else. *)
Definition logout (s : App) : App := setPage PageLogin s.

End Simple.

(** A student registered in the counter version, looking at the dashboard. *)
Definition simpleDashboard : Simple.App :=
  Simple.login (Simple.register
    (Simple.setForm (Simple.mkForm "S1" "s1@college.example" "5550100" "secret1")
       (Simple.initial ∅))).

(** * Properties *)

(** ** Working days *)

Example ymd_epoch : ymd 1970 1 1 = 0 ∧ yearMonth 0 = (1970, 1).
Proof. split; reflexivity. Qed.

Example ymd_leap_day : ymd 2024 3 1 - ymd 2024 2 28 = 2 ∧ ymd 2023 3 1 - ymd 2023 2 28 = 1.
Proof. split; reflexivity. Qed.

(** January 2024 has 23 working days for a host keeping UTC. *)
Example workingDaysCount_january :
  workingDaysCount 0 (ymd 2024 1 1) (ymd 2024 1 31) = 23.
Proof. vm_compute. reflexivity. Qed.

(** East of UTC the first day of the local month prints as the last day of
    the month before. *)
Example defaultSemesterStart_zones :
  defaultSemesterStart 0 (newDate (ymd 2024 1 17)) = ymd 2024 1 1
  ∧ defaultSemesterStart 330 (newDate (ymd 2024 1 17)) = ymd 2023 12 31
  ∧ defaultSemesterStart (-300) (newDate (ymd 2024 1 17)) = ymd 2024 1 1.
Proof. repeat split. Qed.

Example toFixed_samples :
  toFixed (numMul (numDiv (ofZ 1) (ofZ 3)) (ofZ 100)) 2 = "33.33"
  ∧ toFixed (numMul (numDiv (ofZ (-1)) (ofZ 32)) (ofZ 100)) 2 = "-3.13"
  ∧ toFixed (numMul (numDiv (ofZ 0) (ofZ 0)) (ofZ 100)) 2 = "NaN"
  ∧ toFixed (numMul (numDiv (ofZ 5) (ofZ 0)) (ofZ 100)) 2 = "Infinity".
Proof. repeat split. Qed.

Example trim_samples : trim "  S1 " = "S1" ∧ trim "a b" = "a b" ∧ trim "   " = "".
Proof. repeat split. Qed.

Section WorkingDays.
Variable tz : Z.

Lemma newDate_le (a b : Z) : (newDate a <=? newDate b) = (a <=? b).
Proof.
  unfold newDate, msPerDay.
  destruct (Z.leb_spec a b); [apply Z.leb_le | apply Z.leb_gt]; lia.
Qed.

Lemma nextDay_newDate (d : Z) : nextDay (newDate d) = newDate (d + 1).
Proof. unfold nextDay, newDate, msPerDay. lia. Qed.

Lemma weekdaysBetween_empty (start end_ : Z) :
  end_ < start → weekdaysBetween tz start end_ = [].
Proof. intros H. unfold weekdaysBetween. rewrite seqZ_nil by lia. done. Qed.

Lemma weekdaysBetween_first (start end_ : Z) :
  start ≤ end_ →
  weekdaysBetween tz start end_ =
    (if isWeekday tz (newDate start) then [start] else [])
      ++ weekdaysBetween tz (start + 1) end_.
Proof.
  intros H. unfold weekdaysBetween.
  rewrite (seqZ_cons start) by lia.
  replace (Z.pred (end_ - start + 1)) with (end_ - (start + 1) + 1) by lia.
  replace (Z.succ start) with (start + 1) by lia.
  rewrite filter_cons.
  destruct (isWeekday tz (newDate start)); case_decide; done.
Qed.

(** The loop, started on day [start] with [count] in hand, stops with the
    weekdays up to [end_] added, whenever it has a unit of fuel per day. *)
Lemma workingDaysLoop_spec (fuel : nat) :
  ∀ start end_ count,
    (Z.to_nat (end_ - start + 1) ≤ fuel)%nat →
    workingDaysLoop fuel tz (newDate start) (newDate end_) count
    = Some (count + Z.of_nat (length (weekdaysBetween tz start end_))).
Proof.
  induction fuel as [|fuel IH]; intros start end_ count Hfuel.
  - simpl. rewrite newDate_le.
    destruct (Z.leb_spec start end_); [lia|].
    rewrite weekdaysBetween_empty by lia. simpl. f_equal. lia.
  - simpl. rewrite newDate_le.
    destruct (Z.leb_spec start end_) as [Hle|Hgt].
    + rewrite nextDay_newDate, IH by lia.
      rewrite (weekdaysBetween_first start end_ Hle).
      destruct (isWeekday tz (newDate start)); simpl; f_equal; lia.
    + rewrite weekdaysBetween_empty by lia. simpl. f_equal. lia.
Qed.

(** The loop terminates: any fuel from the length of the range on gives the
    value of [workingDaysCount]. *)
Lemma workingDaysRun_enough (fuel : nat) (start end_ : Z) :
  (Z.to_nat (end_ - start + 1) ≤ fuel)%nat →
  workingDaysRun fuel tz start end_ = Some (workingDaysCount tz start end_).
Proof.
  intros H. unfold workingDaysCount, workingDaysRun.
  rewrite !workingDaysLoop_spec by lia. done.
Qed.

Lemma workingDaysCount_weekdays (start end_ : Z) :
  workingDaysCount tz start end_ = Z.of_nat (length (weekdaysBetween tz start end_)).
Proof.
  unfold workingDaysCount, workingDaysRun.
  rewrite workingDaysLoop_spec by lia. simpl. lia.
Qed.

Lemma workingDaysCount_nonneg (start end_ : Z) : 0 ≤ workingDaysCount tz start end_.
Proof. rewrite workingDaysCount_weekdays. lia. Qed.

Lemma workingDaysCount_single (start : Z) :
  workingDaysCount tz start start = if isWeekday tz (newDate start) then 1 else 0.
Proof.
  rewrite workingDaysCount_weekdays, weekdaysBetween_first by lia.
  rewrite weekdaysBetween_empty by lia.
  destruct (isWeekday tz (newDate start)); done.
Qed.

(** In a zone at or east of UTC, midnight UTC of a date falls on that date's
    own local day. *)
Lemma getDay_newDate_east (d : Z) :
  eastOfUTC tz → getDay tz (newDate d) = weekdayOf d.
Proof.
  unfold eastOfUTC, getDay, weekdayOf, localDay, newDate, msPerDay, msPerMinute.
  intros H. f_equal. f_equal.
  symmetry. apply (Z.div_unique _ _ d (tz * 60000)); lia.
Qed.

(** West of UTC it falls on the evening before. *)
Lemma getDay_newDate_west (d : Z) :
  -1440 < tz < 0 → getDay tz (newDate d) = weekdayOf (d - 1).
Proof.
  unfold getDay, weekdayOf, localDay, newDate, msPerDay, msPerMinute.
  intros H. f_equal. f_equal.
  symmetry. apply (Z.div_unique _ _ (d - 1) (86400000 + tz * 60000)); lia.
Qed.

Lemma weekdayOf_range (d : Z) : 0 ≤ weekdayOf d < 7.
Proof. unfold weekdayOf. apply Z.mod_pos_bound. lia. Qed.

Lemma isWeekday_east (d : Z) :
  eastOfUTC tz →
  isWeekday tz (newDate d) = true ↔ ¬ isWeekend d.
Proof.
  intros H. unfold isWeekday, isWeekend. rewrite (getDay_newDate_east d H).
  destruct (Z.eqb_spec (weekdayOf d) 0), (Z.eqb_spec (weekdayOf d) 6); simpl;
    split; intros; try done; try (exfalso; lia); lia.
Qed.

(** Off the slip of [isWeekday], a one-day range counts 1 for Monday to
    Friday and 0 for Saturday and Sunday. *)
Lemma workingDaysCount_single_east (start : Z) :
  eastOfUTC tz →
  (1 ≤ weekdayOf start ≤ 5 → workingDaysCount tz start start = 1)
  ∧ (isWeekend start → workingDaysCount tz start start = 0).
Proof.
  intros H. rewrite workingDaysCount_single.
  pose proof (isWeekday_east start H) as Hw.
  destruct (isWeekday tz (newDate start)); split; intros Hd; try done.
  - destruct Hw as [Hw _]. exfalso. by apply Hw.
  - destruct Hw as [_ Hw]. exfalso.
    assert (true = true → False); [|tauto]. intros _.
    assert (¬ isWeekend start) as Hn by (unfold isWeekend; lia).
    specialize (Hw Hn). done.
Qed.

End WorkingDays.

(** C6. Fails on the code: on a host five hours west of UTC,
    [workingDaysCount] over the single day 2024-01-06, a Saturday, is 1 and
    not 0, because [isWeekday] reads the local weekday of midnight UTC. *)
Lemma workingDaysCount_saturday_west :
  weekdayOf (ymd 2024 1 6) = 6
  ∧ getDay (-300) (newDate (ymd 2024 1 6)) = 5
  ∧ isWeekday (-300) (newDate (ymd 2024 1 6)) = true
  ∧ workingDaysCount (-300) (ymd 2024 1 6) (ymd 2024 1 6) = 1.
Proof. repeat split; vm_compute; reflexivity. Qed.

(** C7. For a fixed start date, the working-day count does not decrease as
    the end date increases. *)
Theorem workingDaysCount_monotone (tz start end1 end2 : Z) :
  end1 ≤ end2 →
  workingDaysCount tz start end1 ≤ workingDaysCount tz start end2.
Proof.
  intros Hle. rewrite !workingDaysCount_weekdays.
  destruct (Z.lt_ge_cases end1 start) as [Hlt|Hge].
  - rewrite weekdaysBetween_empty by done. simpl. lia.
  - unfold weekdaysBetween.
    replace (end2 - start + 1) with ((end1 - start + 1) + (end2 - end1)) by lia.
    rewrite (seqZ_app start (end1 - start + 1) (end2 - end1)) by lia.
    rewrite filter_app, length_app. lia.
Qed.

Lemma workingDaysCount_monotone_witness :
  ymd 2024 1 5 ≤ ymd 2024 1 9
  ∧ workingDaysCount 0 (ymd 2024 1 1) (ymd 2024 1 5)
    ≤ workingDaysCount 0 (ymd 2024 1 1) (ymd 2024 1 9).
Proof.
  split; [vm_compute; discriminate|].
  apply (workingDaysCount_monotone 0 (ymd 2024 1 1) (ymd 2024 1 5) (ymd 2024 1 9)).
  vm_compute; discriminate.
Defined.


(** ** Double precision *)

Lemma pow2_pos (e : Z) : (0 < 2 ^ e)%Q.
Proof. apply Qpower_0_lt. reflexivity. Qed.

Lemma pow2_succ (e : Z) : (2 ^ (e + 1) == 2 * 2 ^ e)%Q.
Proof. rewrite Qpower_plus by discriminate. rewrite Qpower_1_r. ring. Qed.

Lemma pow2_pred (e : Z) : (2 ^ (e - 1) == 2 ^ e / 2)%Q.
Proof.
  rewrite Qpower_minus by discriminate. rewrite Qpower_1_r. reflexivity.
Qed.

Lemma pow2_inject (a : Z) : 0 ≤ a → (inject_Z (2 ^ a) == 2 ^ a)%Q.
Proof. intros Ha. by rewrite Zpower_Qpower. Qed.

Lemma pow2_le (a b : Z) : a ≤ b → (2 ^ a <= 2 ^ b)%Q.
Proof. intros H. apply Qpower_le_compat_l; [done|]. discriminate. Qed.

Lemma pow2_lt (a b : Z) : a < b → (2 ^ a < 2 ^ b)%Q.
Proof. intros H. apply Qpower_lt_compat_l; [done|]. reflexivity. Qed.

Lemma pow2_lt_inv (a b : Z) : (2 ^ a < 2 ^ b)%Q → a < b.
Proof. intros H. apply (Qpower_lt_compat_l_inv 2); [done|]. reflexivity. Qed.

Lemma Qdiv_lt_cross (a b c d : Q) :
  (0 < b)%Q → (0 < d)%Q → (a * d < c * b)%Q → (a / b < c / d)%Q.
Proof.
  intros Hb Hd H. apply Qlt_shift_div_r; [exact Hb|].
  assert (c / d * b == c * b / d)%Q as -> by (field; lra).
  by apply Qlt_shift_div_l.
Qed.

(** [floorLog2] brackets a positive rational between two powers of 2. *)
Lemma floorLog2_spec (q : Q) :
  (0 < q)%Q → (2 ^ floorLog2 q <= q)%Q ∧ (q < 2 ^ (floorLog2 q + 1))%Q.
Proof.
  intros Hq. destruct q as [n d]. unfold floorLog2. cbn [Qnum Qden].
  assert (0 < n) as Hn by (unfold Qlt in Hq; cbn in Hq; lia).
  destruct (Z.log2_spec n Hn) as [Hn1 Hn2].
  destruct (Z.log2_spec (Z.pos d) (Pos2Z.is_pos d)) as [Hd1 Hd2].
  pose proof (Z.log2_nonneg n) as Ha. pose proof (Z.log2_nonneg (Z.pos d)) as Hb.
  set (a := Z.log2 n) in *. set (b := Z.log2 (Z.pos d)) in *.
  assert (n # d == inject_Z n / inject_Z (Z.pos d))%Q as Hnd by apply Qmake_Qdiv.
  assert (0 < inject_Z (Z.pos d))%Q as Hdpos by (rewrite <- (Zlt_Qlt 0); lia).
  rewrite Zle_Qle in Hn1, Hd1. rewrite Zlt_Qlt in Hn2, Hd2.
  rewrite Z.pow_succ_r, inject_Z_mult, pow2_inject in Hn2, Hd2 by lia.
  rewrite pow2_inject in Hn1, Hd1 by lia.
  change (inject_Z 2) with 2%Q in Hn2, Hd2.
  pose proof (pow2_pos a) as Hpa. pose proof (pow2_pos b) as Hpb.
  (* the exponent a - b is off by at most one *)
  assert (n # d < 2 ^ (a - b + 1))%Q as Hup.
  { rewrite Hnd, pow2_succ, Qpower_minus by discriminate.
    assert (2 * (2 ^ a / 2 ^ b) == 2 * 2 ^ a / 2 ^ b)%Q as -> by (field; lra).
    apply Qdiv_lt_cross; [exact Hdpos|exact Hpb|]. nra. }
  assert (2 ^ (a - b - 1) < n # d)%Q as Hlow.
  { rewrite Hnd, pow2_pred, Qpower_minus by discriminate.
    assert (2 ^ a / 2 ^ b / 2 == 2 ^ a / (2 * 2 ^ b))%Q as -> by (field; lra).
    apply Qdiv_lt_cross; [lra|exact Hdpos|]. nra. }
  destruct (Qle_bool (2 ^ (a - b)) (n # d)) eqn:E.
  - apply Qle_bool_iff in E. split; [exact E|exact Hup].
  - split; [apply Qlt_le_weak; exact Hlow|].
    replace (a - b - 1 + 1) with (a - b) by lia.
    apply Qnot_le_lt. intros H. apply Qle_bool_iff in H. congruence.
Qed.

Lemma roundHalfEven_close (m : Q) : (Qabs (inject_Z (roundHalfEven m) - m) <= 1 # 2)%Q.
Proof.
  unfold roundHalfEven.
  pose proof (Qfloor_le m) as Hlo. pose proof (Qlt_floor m) as Hhi.
  rewrite inject_Z_plus in Hhi. change (inject_Z 1) with 1%Q in Hhi.
  apply Qabs_Qle_condition.
  destruct (Qcompare_spec (m - inject_Z (Qfloor m)) (1 # 2)) as [E|E|E].
  - destruct (Z.even (Qfloor m)); [|rewrite inject_Z_plus; change (inject_Z 1) with 1%Q];
      split; lra.
  - split; lra.
  - rewrite inject_Z_plus. change (inject_Z 1) with 1%Q. split; lra.
Qed.

Lemma roundHalfEven_nonneg (m : Q) : (0 <= m)%Q → 0 ≤ roundHalfEven m.
Proof.
  intros Hm. unfold roundHalfEven.
  assert (0 ≤ Qfloor m) as Hf by (change 0 with (Qfloor 0); by apply Qfloor_resp_le).
  destruct (_ ?= _)%Q; [destruct (Z.even _)|..]; lia.
Qed.

Lemma isNegative_true (q : Q) : isNegative q = true ↔ (q < 0)%Q.
Proof.
  unfold isNegative. rewrite negb_true_iff. split.
  - intros E. apply Qnot_le_lt. intros H. apply Qle_bool_iff in H. congruence.
  - intros H. destruct (Qle_bool 0 q) eqn:E; [|done].
    apply Qle_bool_iff in E. lra.
Qed.

Lemma isNegative_false (q : Q) : isNegative q = false ↔ (0 <= q)%Q.
Proof.
  unfold isNegative. rewrite negb_false_iff. apply Qle_bool_iff.
Qed.

(** In the normal range, far from overflow, [roundDouble] returns a finite
    double of the same sign within half a unit in the last place. *)
Lemma roundDouble_normal (x : Q) :
  (2 ^ (-1000) <= Qabs x)%Q → (Qabs x <= 2 ^ 1000)%Q →
  ∃ r, roundDouble x = Fin r
       ∧ (Qabs (r - x) <= 2 ^ (-53) * Qabs x)%Q
       ∧ ((0 < x)%Q → (0 < r)%Q)
       ∧ ((x < 0)%Q → (r < 0)%Q).
Proof.
  intros Hlow Hhigh. unfold roundDouble.
  pose proof (Qred_correct x) as Hred.
  set (x' := Qred x) in *.
  pose proof (pow2_pos (-1000)) as Hp.
  assert (0 < Qabs x')%Q as Ha by (rewrite Hred; lra).
  assert (Qeq_bool x' 0 = false) as ->.
  { destruct (Qeq_bool x' 0) eqn:E; [|done]. apply Qeq_bool_iff in E.
    rewrite E in Ha. change (Qabs 0) with 0%Q in Ha. lra. }
  destruct (floorLog2_spec (Qabs x') Ha) as [He1 He2].
  set (e := floorLog2 (Qabs x')) in *.
  assert (-1000 ≤ e) as Hemin.
  { assert (-1000 < e + 1); [|lia]. apply pow2_lt_inv.
    apply Qle_lt_trans with (Qabs x'); [by rewrite Hred|done]. }
  assert (e ≤ 1000) as Hemax.
  { assert (e < 1000 + 1); [|lia]. apply pow2_lt_inv.
    apply Qle_lt_trans with (Qabs x'); [done|].
    apply Qle_lt_trans with (2 ^ 1000)%Q; [by rewrite Hred|]. by apply pow2_lt. }
  rewrite Z.max_l by lia.
  assert (2 ^ (e - 52) == 2 ^ e * (2 * 2 ^ (-53)))%Q as Hulp.
  { replace (e - 52) with (e + (-53 + 1)) by lia.
    rewrite Qpower_plus by discriminate. by rewrite (pow2_succ (-53)). }
  pose proof (pow2_pos (e - 52)) as Hu. pose proof (pow2_pos e) as Hpe.
  pose proof (pow2_pos (-53)) as Hc.
  set (U := (2 ^ (e - 52))%Q) in *.
  pose proof (roundHalfEven_close (Qabs x' / U)) as Hclose.
  apply Qabs_Qle_condition in Hclose.
  set (n := inject_Z (roundHalfEven (Qabs x' / U))) in *.
  assert (Qabs x' == Qabs x' / U * U)%Q as Hm by (field; lra).
  set (m := (Qabs x' / U)%Q) in *.
  set (a := Qabs x') in *. set (c := (2 ^ (-53))%Q) in *.
  assert (c < 1)%Q as Hc1.
  { unfold c. change 1%Q with (2 ^ 0)%Q. by apply pow2_lt. }
  assert (- (c * a) <= n * U - a)%Q as Hlo by nra.
  assert (n * U - a <= c * a)%Q as Hhi by nra.
  assert (n * U < 2 ^ 1024)%Q as Hfin.
  { apply Qle_lt_trans with (2 * 2 ^ 1000)%Q.
    - assert (a <= 2 ^ 1000)%Q by (unfold a; by rewrite Hred). nra.
    - rewrite <- pow2_succ. by apply pow2_lt. }
  assert (Qle_bool (2 ^ 1024) (n * U) = false) as ->.
  { destruct (Qle_bool (2 ^ 1024) (n * U)) eqn:E; [|done].
    apply Qle_bool_iff in E. lra. }
  assert (Qabs x == a)%Q as Hax by (unfold a; by rewrite Hred).
  destruct (isNegative x') eqn:Hneg.
  - apply isNegative_true in Hneg.
    assert (a == - x')%Q as Hav by (unfold a; apply Qabs_neg; lra).
    exists (- (n * U))%Q. split; [done|]. rewrite Hax.
    split; [apply Qabs_Qle_condition; rewrite <- Hred; split; nra|].
    split; intros Hx; rewrite <- Hred in Hx; nra.
  - apply isNegative_false in Hneg.
    assert (a == x')%Q as Hav by (unfold a; by apply Qabs_pos).
    exists (n * U)%Q. split; [done|]. rewrite Hax.
    split; [apply Qabs_Qle_condition; rewrite <- Hred; split; nra|].
    split; intros Hx; rewrite <- Hred in Hx; nra.
Qed.

Lemma roundDouble_Qeq (x y : Q) : (x == y)%Q → roundDouble x = roundDouble y.
Proof. intros H. unfold roundDouble. by rewrite (Qred_complete x y H). Qed.

Lemma roundDouble_zero (x : Q) : (x == 0)%Q → roundDouble x = Fin 0.
Proof. intros H. by rewrite (roundDouble_Qeq x 0 H). Qed.

(** On every count of working days up to 60, with the days present
    anywhere from none to twice as many, and on some larger counts, the
    rounding defined here gives the double the floating-point unit gives. *)
Example doublePercent_primitive :
  forallb (λ w, forallb (λ d, samePercent d w) (seqZ (- w) (3 * w + 1))) (seqZ 1 60)
  = true
  ∧ forallb (λ dw, samePercent dw.1 dw.2)
      [ (46, 320); (23, 160); (1, 3); (-7, 1000003); (4294967295, 4294967294);
        (-4294967295, 7); (1, 4294967295); (123456789, 365) ]
    = true.
Proof. split; by vm_compute. Qed.

(** ** Printing and reading back *)

Lemma length_append (a b : string) :
  String.length (a +:+ b) = (String.length a + String.length b)%nat.
Proof. induction a as [|c a IH]; simpl; [done|]. by f_equal. Qed.

Lemma substring_all (s : string) : substring 0 (String.length s) s = s.
Proof. induction s as [|c s IH]; simpl; [done|]. by f_equal. Qed.

Lemma substring_prefix (a b : string) : substring 0 (String.length a) (a +:+ b) = a.
Proof.
  induction a as [|c a IH]; simpl; [by destruct b|]. by f_equal.
Qed.

Lemma substring_skip (a b : string) (i n : nat) :
  substring (String.length a + i) n (a +:+ b) = substring i n b.
Proof. induction a as [|c a IH]; simpl; done. Qed.

Lemma substring_split (s : string) (n : nat) :
  (n ≤ String.length s)%nat →
  substring 0 n s +:+ substring n (String.length s - n) s = s
  ∧ String.length (substring 0 n s) = n.
Proof.
  revert n. induction s as [|c s IH]; intros n Hn; simpl in *.
  - assert (n = O) as -> by lia. done.
  - destruct n as [|n]; simpl.
    + rewrite substring_all. done.
    + destruct (IH n ltac:(lia)) as [IH1 IH2]. split; [|by f_equal].
      change (String c (substring 0 n s) +:+ substring n (String.length s - n) s)
        with (String c (substring 0 n s +:+ substring n (String.length s - n) s)).
      by f_equal.
Qed.

Lemma length_substring (s : string) (n m : nat) :
  (n + m ≤ String.length s)%nat → String.length (substring n m s) = m.
Proof.
  revert n m. induction s as [|c s IH]; intros n m H; simpl in *.
  - assert (m = O) as -> by lia. by destruct n.
  - destruct n as [|n].
    + destruct m as [|m]; simpl; [done|]. f_equal. apply IH. lia.
    + apply IH. lia.
Qed.

Lemma allDigits_append (a b : string) :
  allDigits (a +:+ b) = allDigits a && allDigits b.
Proof.
  induction a as [|c a IH]; simpl; [done|]. by rewrite IH, andb_assoc.
Qed.

Lemma allDigits_zeros (k : nat) : allDigits (zeros k) = true.
Proof. induction k as [|k IH]; simpl; [done|]. exact IH. Qed.

Lemma length_zeros (k : nat) : String.length (zeros k) = k.
Proof. induction k as [|k IH]; simpl; [done|]. by f_equal. Qed.

Lemma allDigits_uint (d : Decimal.uint) : allDigits (NilEmpty.string_of_uint d) = true.
Proof. induction d; simpl; [done|..]; exact IHd. Qed.

Lemma digitsValue_zeros (k : nat) (s : string) :
  digitsValue (zeros k +:+ s) = digitsValue s.
Proof.
  induction k as [|k IH]; [done|]. rewrite <- IH. unfold digitsValue. simpl.
  destruct (NilEmpty.uint_of_string (zeros k +:+ s)); simpl; done.
Qed.

(** The numeral of a non-negative integer: digits only, at least one, no
    superfluous zero, and it denotes the integer. *)
Lemma digits_spec (n : Z) :
  0 ≤ n →
  allDigits (digits n) = true
  ∧ (1 ≤ String.length (digits n))%nat
  ∧ digitsValue (digits n) = Some n
  ∧ (∀ rest, digits n = String "0" rest → rest = EmptyString).
Proof.
  intros Hn. unfold digits.
  set (d := N.to_uint (Z.to_N n)).
  assert (d ≠ Decimal.Nil) as Hd.
  { unfold d. destruct (Z.to_N n); cbn; [done|]. apply Unsigned.to_uint_nonnil. }
  assert (NilZero.string_of_uint d = NilEmpty.string_of_uint d) as ->
    by (by destruct d).
  split; [apply allDigits_uint|]. split; [by destruct d; cbn; try lia|].
  split.
  - unfold digitsValue. rewrite NilEmpty.usu. unfold d.
    rewrite DecimalN.Unsigned.of_to. f_equal. lia.
  - intros rest Hrest.
    assert (Decimal.unorm d = d) as Hnorm.
    { unfold d. rewrite <- DecimalN.Unsigned.to_of.
      by rewrite DecimalN.Unsigned.of_to. }
    destruct d as [|d'| | | | | | | | |]; try discriminate.
    cbn in Hrest. injection Hrest as <-.
    unfold Decimal.unorm in Hnorm. rewrite DecimalFacts.nzhead_D0 in Hnorm.
    destruct (Decimal.nzhead d') eqn:E; try discriminate.
    + by injection Hnorm as <-.
    + by apply DecimalFacts.nzhead_nonzero in E.
Qed.

(** The reader gives back the hundredths that [fixedString] printed. *)
Lemma readUnsigned2_fixedString (n : Z) :
  0 ≤ n →
  readUnsigned2 (fixedString n 2) = Some (inject_Z n / 100)%Q
  ∧ ∃ a rest, fixedString n 2 = String a rest ∧ isDigit a = true.
Proof.
  intros Hn. destruct (digits_spec n Hn) as (Hall & Hlen & Hval & Hcanon).
  unfold fixedString.
  remember (digits n) as m eqn:Em0. remember (String.length m) as k eqn:Ek.
  set (m' := if (k <=? 2)%nat then zeros (2 + 1 - k) +:+ m else m).
  assert (allDigits m' = true ∧ (3 ≤ String.length m')%nat
          ∧ digitsValue m' = Some n
          ∧ ∃ a rest, m' = String a rest
              ∧ (Ascii.eqb a "0" = true → String.length m' = 3%nat))
    as (Hall' & Hlen' & Hval' & a & rest & Hm' & Hzero).
  { unfold m'. destruct (Nat.leb_spec k 2) as [Hk|Hk].
    - split; [by rewrite allDigits_append, allDigits_zeros|].
      split; [rewrite length_append, length_zeros; lia|].
      split; [by rewrite digitsValue_zeros|].
      destruct (2 + 1 - k)%nat as [|j] eqn:Ej; [lia|].
      exists "0"%char, (zeros j +:+ m). split; [done|]. intros _.
      change (String.length (zeros (S j) +:+ m) = 3%nat).
      rewrite length_append, length_zeros. lia.
    - split; [done|]. split; [lia|]. split; [done|].
      destruct m as [|a rest]; [simpl in Ek; lia|].
      exists a, rest. split; [done|]. intros Ha. apply Ascii.eqb_eq in Ha. subst a.
      rewrite (Hcanon rest eq_refl) in Ek. simpl in Ek. lia. }
  set (k' := String.length m') in *.
  assert (k' - 2 ≤ String.length m')%nat as Hle by (fold k'; lia).
  destruct (substring_split m' (k' - 2) Hle) as [Hsplit HlenA].
  fold k' in Hsplit. replace (k' - (k' - 2))%nat with 2%nat in Hsplit by lia.
  assert (String.length (substring (k' - 2) 2 m') = 2%nat) as HlenB
    by (apply length_substring; fold k'; lia).
  set (A := substring 0 (k' - 2) m') in *. set (B := substring (k' - 2) 2 m') in *.
  assert (allDigits A = true ∧ allDigits B = true) as [HA HB].
  { rewrite <- Hsplit, allDigits_append in Hall'. by apply andb_true_iff. }
  assert (∃ rest', A = String a rest'
            ∧ (Ascii.eqb a "0" = true → rest' = EmptyString)) as (restA & HA' & HzeroA).
  { unfold A. rewrite Hm'. destruct (k' - 2)%nat as [|j] eqn:Ej; [lia|].
    simpl. eexists. split; [done|]. intros Ha.
    assert (j = O) as -> by (specialize (Hzero Ha); lia). by destruct rest. }
  split.
  - assert (substring 0 (String.length A) (A +:+ "." +:+ B) = A) as Hw
      by apply substring_prefix.
    assert (substring (String.length A) 1 (A +:+ "." +:+ B) = ".") as Hp.
    { rewrite <- (Nat.add_0_r (String.length A)), substring_skip.
      simpl. by destruct B. }
    assert (substring (String.length A + 1) 2 (A +:+ "." +:+ B) = B) as Hc.
    { rewrite substring_skip. change (substring 0 2 B = B).
      rewrite <- HlenB at 1. apply substring_all. }
    assert (canonicalInteger A = true) as Hcan.
    { rewrite HA'. unfold canonicalInteger. rewrite <- HA', HA. simpl.
      destruct (Ascii.eqb a "0") eqn:Ea; [|done]. by rewrite (HzeroA eq_refl). }
    unfold readUnsigned2.
    rewrite !length_append, HlenB. simpl String.length.
    replace (String.length A + (1 + 2) - 3)%nat with (String.length A) by lia.
    replace (String.length A + (1 + 2) - 2)%nat with (String.length A + 1)%nat by lia.
    rewrite Hw, Hp, Hc, Hcan, HB, Hsplit, Hval'.
    destruct (4 <=? String.length A + (1 + 2))%nat eqn:E; [done|].
    apply Nat.leb_gt in E. lia.
  - exists a. eexists. split; [by rewrite HA'|].
    rewrite HA' in HA. simpl in HA. by apply andb_true_iff in HA as [? _].
Qed.

Lemma digit_not_minus (a : ascii) : isDigit a = true → Ascii.eqb a "-" = false.
Proof.
  intros H. destruct (Ascii.eqb a "-") eqn:E; [|done].
  apply Ascii.eqb_eq in E. subst a. discriminate.
Qed.

(** Reading what [toFixed(2)] printed of a finite number gives the
    hundredths nearest to its magnitude, with its sign. *)
Lemma readFixed2_toFixed (q : Q) :
  readFixed2 (toFixed (Fin q) 2)
  = Some (if isNegative q then - (inject_Z (nearestScaled (Qabs q) 2) / 100)
          else inject_Z (nearestScaled (Qabs q) 2) / 100)%Q.
Proof.
  assert (0 ≤ nearestScaled (Qabs q) 2) as Hn.
  { unfold nearestScaled. change 0 with (Qfloor 0). apply Qfloor_resp_le.
    pose proof (Qabs_nonneg q).
    change (inject_Z (10 ^ Z.of_nat 2)) with 100%Q. lra. }
  destruct (readUnsigned2_fixedString _ Hn) as (Hread & a & rest & Hform & Hdigit).
  unfold toFixed. destruct (isNegative q).
  - change ("-" +:+ fixedString (nearestScaled (Qabs q) 2) 2)
      with (String "-" (fixedString (nearestScaled (Qabs q) 2) 2)).
    unfold readFixed2. rewrite Ascii.eqb_refl, Hread. done.
  - change ("" +:+ fixedString (nearestScaled (Qabs q) 2) 2)
      with (fixedString (nearestScaled (Qabs q) 2) 2).
    unfold readFixed2. rewrite Hform, (digit_not_minus a Hdigit), <- Hform. exact Hread.
Qed.

(** ** The percentage in double precision *)

Lemma inject_Z_nonzero (w : Z) : w ≠ 0 → Qeq_bool (inject_Z w) 0 = false.
Proof.
  intros Hw. destruct (Qeq_bool (inject_Z w) 0) eqn:E; [|done].
  apply Qeq_bool_iff in E. exfalso. apply Hw.
  apply inject_Z_injective. exact E.
Qed.

(** A nonnegative number close enough to [100 * D / w] is printed as the
    hundredths nearest to [100 * D / w] itself: the distance allowed is less
    than the gap between such a quotient and the nearest rounding boundary. *)
Lemma hundredths_close (r x : Q) (w D : Z) :
  0 < w → (0 <= r)%Q → (x * inject_Z w == inject_Z D)%Q →
  (Qabs (r - x * 100) * (200 * inject_Z w) < 1)%Q →
  (Qabs (inject_Z (nearestScaled r 2) / 100 - x * 100) <= 1 # 200)%Q.
Proof.
  intros Hw Hr Hx Hclose.
  unfold nearestScaled. change (inject_Z (10 ^ Z.of_nat 2)) with 100%Q.
  set (y := (r * 100 + (1 # 2))%Q).
  pose proof (Qfloor_le y) as Hlo.
  pose proof (Qlt_floor y) as Hhi.
  rewrite inject_Z_plus in Hhi. change (inject_Z 1) with 1%Q in Hhi.
  set (n := Qfloor y) in *. unfold y in *.
  assert (0 < inject_Z w)%Q as Hw' by (change 0%Q with (inject_Z 0); by rewrite <- Zlt_Qlt).
  assert (- (1) < (r - x * 100) * (200 * inject_Z w) < 1)%Q as [Hc1 Hc2].
  { destruct (Qlt_le_dec (r - x * 100) 0) as [Hneg|Hpos].
    - rewrite Qabs_neg in Hclose by lra. split; [lra|]. nra.
    - rewrite Qabs_pos in Hclose by lra. split; [nra|lra]. }
  assert (inject_Z (2 * n * w - 20000 * D)
          == 2 * inject_Z n * inject_Z w - 20000 * (x * inject_Z w))%Q as E.
  { unfold Z.sub. rewrite inject_Z_plus, inject_Z_opp, !inject_Z_mult, Hx.
    change (inject_Z 2) with 2%Q. change (inject_Z 20000) with 20000%Q. ring. }
  assert (inject_Z (2 * n * w - 20000 * D) < inject_Z (w + 1))%Q as H1.
  { rewrite E, inject_Z_plus. change (inject_Z 1) with 1%Q. nra. }
  assert (inject_Z (- w - 1) < inject_Z (2 * n * w - 20000 * D))%Q as H2.
  { rewrite E. unfold Z.sub. rewrite inject_Z_plus, !inject_Z_opp.
    change (inject_Z 1) with 1%Q. nra. }
  rewrite <- Zlt_Qlt in H1, H2.
  assert (inject_Z (2 * n * w - 20000 * D) <= inject_Z w)%Q as H3
    by (rewrite <- Zle_Qle; lia).
  assert (inject_Z (- w) <= inject_Z (2 * n * w - 20000 * D))%Q as H4
    by (rewrite <- Zle_Qle; lia).
  rewrite E in H3. rewrite E, inject_Z_opp in H4.
  apply Qabs_Qle_condition. unfold Qdiv. change (/ 100)%Q with (1 # 100)%Q.
  split.
  - apply Qnot_lt_le. intros Hlt.
    assert (inject_Z n * (1 # 100) - x * 100 + (1 # 200) < 0)%Q as Hlt' by lra.
    nra.
  - apply Qnot_lt_le. intros Hlt.
    assert (0 < inject_Z n * (1 # 100) - x * 100 - (1 # 200))%Q as Hlt' by lra.
    nra.
Qed.

Lemma Qmult_le_left (x y z : Q) : (x <= y)%Q → (0 <= z)%Q → (z * x <= z * y)%Q.
Proof.
  intros Hxy Hz. rewrite (Qmult_comm z x), (Qmult_comm z y).
  by apply Qmult_le_compat_r.
Qed.

(** Dividing and multiplying in double precision loses less than the
    rounding to hundredths can see. *)
Lemma percent_double (d w : Z) :
  0 < w < 2 ^ 32 → - 2 ^ 32 < d < 2 ^ 32 → d ≠ 0 →
  ∃ r, mulDouble (divDouble (ofZ d) (ofZ w)) (ofZ 100) = Fin r
       ∧ (Qabs (r - inject_Z d / inject_Z w * 100) * (200 * inject_Z w) < 1)%Q
       ∧ (0 < d → (0 < r)%Q) ∧ (d < 0 → (r < 0)%Q).
Proof.
  intros Hw Hd Hd0.
  assert (0 < inject_Z w)%Q as Hw' by (change 0%Q with (inject_Z 0); rewrite <- Zlt_Qlt; lia).
  assert (inject_Z w < inject_Z (2 ^ 32))%Q as Hw'' by (rewrite <- Zlt_Qlt; lia).
  assert (Qabs (inject_Z d) < inject_Z (2 ^ 32))%Q as Hd'.
  { change (Qabs (inject_Z d)) with (inject_Z (Z.abs d)). rewrite <- Zlt_Qlt. lia. }
  assert (1 <= Qabs (inject_Z d))%Q as Hd''.
  { change (Qabs (inject_Z d)) with (inject_Z (Z.abs d)).
    change 1%Q with (inject_Z 1). rewrite <- Zle_Qle. lia. }
  set (x := (inject_Z d / inject_Z w)%Q).
  assert (x * inject_Z w == inject_Z d)%Q as Hx by (unfold x; field; lra).
  assert (Qabs x * inject_Z w == Qabs (inject_Z d))%Q as Hax.
  { rewrite <- Hx, Qabs_Qmult, (Qabs_pos (inject_Z w)) by lra. reflexivity. }
  change (inject_Z (2 ^ 32)) with 4294967296%Q in *.
  pose proof (Qabs_nonneg x) as Hx0.
  set (ax := Qabs x) in *. set (ad := Qabs (inject_Z d)) in *.
  assert ((1 # 4294967296) <= ax)%Q as Hxlo.
  { apply Qnot_lt_le. intros Hlt.
    assert (ax * inject_Z w < (1 # 4294967296) * 4294967296)%Q; [|lra].
    apply Qle_lt_trans with (ax * 4294967296)%Q.
    - apply Qmult_le_left; lra.
    - apply Qmult_lt_compat_r; lra. }
  assert (ax <= 4294967296)%Q as Hxhi.
  { apply Qnot_lt_le. intros Hlt.
    assert (inject_Z w < 1)%Q as Hw1; [|].
    { apply Qnot_le_lt. intros Hle.
      assert (4294967296 * 1 < ax * inject_Z w)%Q; [|lra].
      apply Qlt_le_trans with (ax * 1)%Q; [lra|].
      apply Qmult_le_left; lra. }
    change 1%Q with (inject_Z 1) in Hw1. rewrite <- Zlt_Qlt in Hw1. lia. }
  unfold ax, ad in *. clear ax ad.
  assert (2 ^ (-1000) <= 1 # 4294967296)%Q as Hlo by by vm_compute.
  assert (1099511627776 <= 2 ^ 1000)%Q as Hhi by by vm_compute.
  destruct (roundDouble_normal x) as (r1 & Hr1 & Hc1 & Hp1 & Hn1).
  { apply Qle_trans with (1 # 4294967296)%Q; [exact Hlo|exact Hxlo]. }
  { apply Qle_trans with 1099511627776%Q; [lra|exact Hhi]. }
  change (2 ^ (-53))%Q with (1 # 9007199254740992)%Q in Hc1.
  assert (Qabs r1 <= 2 * Qabs x)%Q as Hr1hi.
  { pose proof (Qabs_triangle (r1 - x) x) as Ht.
    assert (r1 - x + x == r1)%Q as E by ring. rewrite E in Ht. lra. }
  assert ((1 # 2) * Qabs x <= Qabs r1)%Q as Hr1lo.
  { pose proof (Qabs_triangle (x - r1) r1) as Ht.
    assert (x - r1 + r1 == x)%Q as E by ring. rewrite E in Ht.
    assert (Qabs (x - r1) == Qabs (r1 - x))%Q as E'.
    { rewrite <- Qabs_opp. apply Qabs_wd. ring. }
    rewrite E' in Ht. lra. }
  destruct (roundDouble_normal (r1 * 100)) as (r2 & Hr2 & Hc2 & Hp2 & Hn2).
  { rewrite Qabs_Qmult. change (Qabs 100) with 100%Q.
    apply Qle_trans with (1 # 4294967296)%Q; [exact Hlo|lra]. }
  { rewrite Qabs_Qmult. change (Qabs 100) with 100%Q.
    apply Qle_trans with 1099511627776%Q; [|exact Hhi].
    apply Qle_trans with (2 * Qabs x * 100)%Q; [|lra].
    apply Qmult_le_compat_r; [exact Hr1hi|done]. }
  change (2 ^ (-53))%Q with (1 # 9007199254740992)%Q in Hc2.
  rewrite Qabs_Qmult in Hc2. change (Qabs 100) with 100%Q in Hc2.
  exists r2. split; [|split; [|split]].
  - unfold divDouble, mulDouble, numDiv, ofZ.
    rewrite inject_Z_nonzero by lia. fold x. rewrite Hr1. simpl. exact Hr2.
  - assert (Qabs (r2 - x * 100) <= (1 # 10000000000000) * Qabs x)%Q as Hc.
    { pose proof (Qabs_triangle (r2 - r1 * 100) ((r1 - x) * 100)) as Ht.
      assert (r2 - r1 * 100 + (r1 - x) * 100 == r2 - x * 100)%Q as E by ring.
      rewrite E, (Qabs_Qmult (r1 - x)) in Ht. change (Qabs 100) with 100%Q in Ht.
      pose proof (Qabs_nonneg x). lra. }
    pose proof (Qabs_nonneg (r2 - x * 100)). pose proof (Qabs_nonneg x). nra.
  - intros Hpos. apply Hp2.
    assert (0 < r1)%Q; [|lra]. apply Hp1.
    assert (0 < inject_Z d)%Q by (change 0%Q with (inject_Z 0); by rewrite <- Zlt_Qlt).
    apply Qnot_le_lt. intros Hle. nra.
  - intros Hneg. apply Hn2.
    assert (r1 < 0)%Q; [|lra]. apply Hn1.
    assert (inject_Z d < 0)%Q by (change 0%Q with (inject_Z 0); by rewrite <- Zlt_Qlt).
    apply Qnot_le_lt. intros Hle. nra.
Qed.

(** The printed percentage reads back to within half a hundredth of the
    exact one. *)
Lemma percent_printed (d w : Z) :
  0 < w < 2 ^ 32 → - 2 ^ 32 < d < 2 ^ 32 →
  ∃ v, readFixed2 (toFixed (mulDouble (divDouble (ofZ d) (ofZ w)) (ofZ 100)) 2) = Some v
       ∧ (Qabs (v - inject_Z d / inject_Z w * 100) <= 1 # 200)%Q.
Proof.
  intros Hw Hd.
  assert (0 < inject_Z w)%Q as Hw' by (change 0%Q with (inject_Z 0); rewrite <- Zlt_Qlt; lia).
  destruct (decide (d = 0)) as [->|Hd0].
  { exists (0 # 100)%Q. split.
    - unfold divDouble, numDiv, ofZ. rewrite inject_Z_nonzero by lia.
      rewrite roundDouble_zero by (field; lra). by vm_compute.
    - assert ((0 # 100) - inject_Z 0 / inject_Z w * 100 == 0)%Q as -> by (field; lra).
      by vm_compute. }
  destruct (percent_double d w Hw Hd Hd0) as (r & -> & Hclose & Hpos & Hneg).
  rewrite readFixed2_toFixed. eexists. split; [done|].
  set (x := (inject_Z d / inject_Z w)%Q) in *.
  assert (x * inject_Z w == inject_Z d)%Q as Hx by (unfold x; field; lra).
  destruct (Z.lt_total d 0) as [Hlt|[?|Hgt]]; [|done|].
  - specialize (Hneg Hlt).
    assert (isNegative r = true) as -> by by apply isNegative_true.
    assert (nearestScaled (Qabs r) 2 = nearestScaled (- r) 2) as ->.
    { unfold nearestScaled. apply Qfloor_comp. rewrite Qabs_neg by lra. reflexivity. }
    assert (∀ n : Q, - n - x * 100 == - (n - (- x) * 100))%Q as E by (intros; ring).
    rewrite E, Qabs_opp.
    apply hundredths_close with (w := w) (D := - d); [lia|lra| |].
    + rewrite inject_Z_opp, <- Hx. ring.
    + assert (- r - - x * 100 == - (r - x * 100))%Q as -> by ring.
      by rewrite Qabs_opp.
  - specialize (Hpos Hgt).
    assert (isNegative r = false) as -> by (apply isNegative_false; lra).
    assert (nearestScaled (Qabs r) 2 = nearestScaled r 2) as ->.
    { unfold nearestScaled. apply Qfloor_comp. rewrite Qabs_pos by lra. reflexivity. }
    apply hundredths_close with (w := w) (D := d); [lia|lra|done|done].
Qed.

(** ** The attendance figures *)

Lemma toFixed_Qeq (q q' : Q) : (q == q')%Q → toFixed (Fin q) 2 = toFixed (Fin q') 2.
Proof.
  intros Hq. unfold toFixed, isNegative, nearestScaled.
  rewrite (Qleb_comp 0%Q 0%Q (Qeq_refl 0%Q) q q' Hq).
  f_equal. f_equal. apply Qfloor_comp. by rewrite Hq.
Qed.

Lemma inject_Z_neq0 (w : Z) : w ≠ 0 → ¬ (inject_Z w == 0)%Q.
Proof. intros Hw E. apply Hw. apply inject_Z_injective. exact E. Qed.

(** With working days to divide by, the percentage is the printed string. *)
Lemma percentage_string (r : Screen) :
  workingDays r ≠ 0 →
  percentage r
  = VStr (toFixed (mulDouble (divDouble (ofZ (presentDays r - absentDays r))
                                        (ofZ (workingDays r)))
                             (ofZ 100)) 2).
Proof.
  intros Hw. unfold percentage.
  by destruct (Z.eqb_spec (workingDays r) 0).
Qed.

(** The quotient of two integers in double precision depends on their
    ratio alone. *)
Lemma divDouble_ratio (d w : Z) (q : Q) :
  w ≠ 0 → (inject_Z d / inject_Z w == q)%Q →
  divDouble (ofZ d) (ofZ w) = roundDouble q.
Proof.
  intros Hw Hq. unfold divDouble, numDiv, ofZ.
  rewrite inject_Z_nonzero by done. by apply roundDouble_Qeq.
Qed.

(** C1. The figures on screen: the days absent are the working days less
    the days present, clamped at 0; with no working day the percentage is
    the number 0 and no quotient is formed; otherwise it is a string that
    reads as a decimal with two digits after the point, within half a
    hundredth of [(presentDays - absentDays) / workingDays * 100]. The
    quotient and the product are those of double precision; the counts are
    below 2^32, as an array's length is. *)
Theorem stats_figures (r : Screen) :
  let w := statWorkingDays (stats r) in
  let p := statPresentDays (stats r) in
  let a := statAbsentDays (stats r) in
  p = Z.of_nat (length (attendanceDates r))
  ∧ a = Z.max 0 (w - p)
  ∧ (w = 0 → statPercentage (stats r) = VNum (ofZ 0))
  ∧ (0 < w < 2 ^ 32 → p < 2 ^ 32 →
     ∃ str v, statPercentage (stats r) = VStr str
       ∧ readFixed2 str = Some v
       ∧ (Qabs (v - exactPercentage p a w) <= 1 # 200)%Q).
Proof.
  cbn. split; [done|]. split; [done|]. split.
  - intros Hw. unfold percentage. by rewrite Hw.
  - intros Hw Hp. rewrite percentage_string by lia.
    assert (0 ≤ presentDays r) as Hp0 by (unfold presentDays; lia).
    destruct (percent_printed (presentDays r - absentDays r) (workingDays r))
      as (v & Hread & Hclose); [done|unfold absentDays; lia|].
    eexists _, v. split; [done|]. split; [exact Hread|exact Hclose].
Qed.

Lemma stats_figures_witness :
  ∃ str v, statPercentage (stats mondayScreen) = VStr str
    ∧ readFixed2 str = Some v
    ∧ (Qabs (v - exactPercentage (statPresentDays (stats mondayScreen))
                   (statAbsentDays (stats mondayScreen))
                   (statWorkingDays (stats mondayScreen))) <= 1 # 200)%Q.
Proof.
  assert (0 < statWorkingDays (stats mondayScreen) < 2 ^ 32) as Hw
    by (vm_compute; split; reflexivity).
  assert (statPresentDays (stats mondayScreen) < 2 ^ 32) as Hp
    by (vm_compute; reflexivity).
  exact (proj2 (proj2 (proj2 (stats_figures mondayScreen))) Hw Hp).
Defined.

(** Where the exact percentage lies midway between two hundredths, the
    double may fall on either side: 46 / 320 * 100 is 14.375 and is shown as
    14.37, the product in double precision being just below. The string
    reads back as 14.37, half a hundredth from the exact value. *)
Example percentage_midway :
  presentDays midSemesterScreen = 183
  ∧ absentDays midSemesterScreen = 137
  ∧ workingDays midSemesterScreen = 320
  ∧ (exactPercentage 183 137 320 == 14375 # 1000)%Q
  ∧ percentage midSemesterScreen = VStr "14.37"
  ∧ readFixed2 "14.37" = Some (1437 # 100)%Q.
Proof. repeat split. Qed.

(** C2, as the code has it. When every working day is attended and there is
    at least one, the percentage reads 100.00. *)
Theorem percentage_full_attendance (r : Screen) :
  presentDays r = workingDays r →
  workingDays r ≠ 0 →
  percentage r = VStr "100.00".
Proof.
  intros Hp Hw. rewrite percentage_string by done.
  unfold absentDays. rewrite Hp, Z.sub_diag. change (Z.max 0 0) with 0.
  rewrite Z.sub_0_r.
  rewrite (divDouble_ratio _ _ 1) by (done || (field; by apply inject_Z_neq0)).
  by vm_compute.
Qed.

Lemma percentage_full_attendance_witness :
  presentDays fullAttendanceScreen = workingDays fullAttendanceScreen
  ∧ workingDays fullAttendanceScreen ≠ 0
  ∧ percentage fullAttendanceScreen = VStr "100.00".
Proof.
  assert (presentDays fullAttendanceScreen = workingDays fullAttendanceScreen) as Hp
    by (vm_compute; reflexivity).
  assert (workingDays fullAttendanceScreen ≠ 0) as Hw by (vm_compute; discriminate).
  exact (conj Hp (conj Hw (percentage_full_attendance fullAttendanceScreen Hp Hw))).
Defined.

(** C2 as stated fails: a student with an empty ledger whose semester
    starts today, a Saturday, has as many days present as there are
    working days, and the percentage is the number 0, not 100.00. *)
Lemma percentage_full_attendance_zero_days :
  user (hooks emptySemesterScreen) ≠ None
  ∧ presentDays emptySemesterScreen = workingDays emptySemesterScreen
  ∧ percentage emptySemesterScreen = VNum (ofZ 0)
  ∧ percentage emptySemesterScreen ≠ VStr "100.00".
Proof. repeat split; vm_compute; discriminate. Qed.

(** ** Accounts and the session *)

Lemma falsy_false (o : option string) :
  falsy o = false ↔ ∃ pw, o = Some pw ∧ pw ≠ "".
Proof.
  destruct o as [pw|]; simpl.
  - destruct (decide (pw = "")) as [->|Hne]; split.
    + done.
    + intros (pw & [= <-] & Hne). done.
    + intros _. by exists pw.
    + done.
  - split; [done|]. intros (pw & [=] & _).
Qed.




Lemma usersKeyed_lookup (st : Storage) (id : string) (u : User.t) :
  usersKeyed st → getUser st id = Some u → User.collegeId u = id.
Proof. intros Hk Hu. by apply Hk. Qed.

(** C9, as the code has it. For an id that is not an inherited name,
    [setPassword] rejects a password of fewer than six characters, then one
    that differs from its confirmation, then an id that has no account, each
    time leaving the storage, the user and the view as they were. Otherwise
    the password is stored on the account and the session is opened under
    its id, whatever the authenticator does at the enrolment; only the
    enrolled flag depends on it. *)
Theorem setPassword_outcomes (a : Authenticator) (s : App) :
  let id := Form.collegeId (form s) in
  let pw := Form.password (form s) in
  let s' := setPassword a s in
  inheritedName id = false →
  ((String.length pw < 6)%nat →
     err s' = WeakPasswordError
     ∧ storage s' = storage s ∧ user s' = user s ∧ view s' = view s)
  ∧ ((6 ≤ String.length pw)%nat → pw ≠ Form.confirm (form s) →
     err s' = MismatchError
     ∧ storage s' = storage s ∧ user s' = user s ∧ view s' = view s)
  ∧ ((6 ≤ String.length pw)%nat → pw = Form.confirm (form s) →
     getUser (storage s) id = None →
     err s' = UserNotFoundDuringSetup
     ∧ storage s' = storage s ∧ user s' = user s ∧ view s' = view s)
  ∧ (∀ u, (6 ≤ String.length pw)%nat → pw = Form.confirm (form s) →
     getUser (storage s) id = Some u → usersKeyed (storage s) →
     err s' = ""
     ∧ users (storage s')
       = <[id := User.mk id (User.email u) (User.phone u) (Some pw)
                   (if a is Succeeds then true else User.webauthn u)]>
           (users (storage s))
     ∧ attendance (storage s') = attendance (storage s)
     ∧ getSession (storage s') = Some id
     ∧ user s' = Some (User.setPassword pw u)
     ∧ view s' = ViewApp).
Proof.
  intros id pw s' _. subst id pw s'.
  destruct s as [v st f i e os oc us mk sb ws sem sto ck].
  unfold setPassword; cbn -[Nat.ltb String.length]. split; [|split; [|split]].
  - intros Hlen. apply Nat.ltb_lt in Hlen. rewrite Hlen. done.
  - intros Hlen Hne. apply Nat.ltb_ge in Hlen. rewrite Hlen.
    case_decide; done.
  - intros Hlen Heq Hnone. apply Nat.ltb_ge in Hlen. rewrite Hlen.
    case_decide; [|done]. rewrite Hnone. done.
  - intros u Hlen Heq Hu Hkeyed. apply Nat.ltb_ge in Hlen. rewrite Hlen.
    case_decide; [|done]. rewrite Hu.
    pose proof (usersKeyed_lookup _ _ _ Hkeyed Hu) as Hid.
    destruct u as [cid em ph pw0 wa]; cbn in Hid; subst cid.
    destruct a; cbn; unfold getUser, upsertUser, saveUsers, loadUsers; cbn;
      try done.
    rewrite lookup_insert_eq. cbn. rewrite insert_insert_eq. done.
Qed.

Lemma setPassword_outcomes_witness :
  ∃ u,
    getUser (storage (setPassword (Throws "NotAllowedError") resumedSetup)) "S1" = Some u
    ∧ User.password u = Some "secret1"
    ∧ getSession (storage (setPassword (Throws "NotAllowedError") resumedSetup)) = Some "S1"
    ∧ view (setPassword (Throws "NotAllowedError") resumedSetup) = ViewApp.
Proof.
  assert (getUser (storage resumedSetup) (Form.collegeId (form resumedSetup))
          = Some (User.mk "S1" (Some "s1@college.example") (Some "5550100") None false))
    as Hu by (vm_compute; reflexivity).
  assert (usersKeyed (storage resumedSetup)) as Hk.
  { intros id u. change (users (storage resumedSetup))
      with ({[ "S1" := User.mk "S1" (Some "s1@college.example") (Some "5550100")
                         None false ]} : gmap string User.t).
    intros [<- <-]%lookup_singleton_Some. done. }
  destruct (setPassword_outcomes (Throws "NotAllowedError") resumedSetup eq_refl)
    as (_ & _ & _ & Hok).
  destruct (Hok _ ltac:(vm_compute; lia) eq_refl Hu Hk) as (_ & Hus & _ & Hs & _ & Hv).
  eexists. split; [|split; [|split; [exact Hs|exact Hv]]].
  - unfold getUser, loadUsers. rewrite Hus. apply lookup_insert_eq.
  - done.
Defined.

(** C9 as stated fails: the password is long enough and confirmed, but the
    id in the form has no account, so nothing is stored and no session is
    opened. *)
Lemma setPassword_without_account :
  enabled strayedSetup (SetPassword Succeeds) = true
  ∧ inheritedName (Form.collegeId (form strayedSetup)) = false
  ∧ (6 ≤ String.length (Form.password (form strayedSetup)))%nat
  ∧ Form.password (form strayedSetup) = Form.confirm (form strayedSetup)
  ∧ err (setPassword Succeeds strayedSetup) = UserNotFoundDuringSetup
  ∧ getUser (storage (setPassword Succeeds strayedSetup))
      (Form.collegeId (form strayedSetup)) = None
  ∧ storage (setPassword Succeeds strayedSetup) = storage strayedSetup
  ∧ getSession (storage (setPassword Succeeds strayedSetup)) = None.
Proof. repeat split. vm_compute. lia. Qed.

(** C10. A successful verification for an id that already has an account
    rewrites that account with the address and number of the form and with
    its password and enrolled flag as they were; the other accounts, the
    session and the ledgers are untouched. *)
Theorem verifyOTP_keeps_password (s : App) (u : User.t) :
  usersKeyed (storage s) →
  getUser (storage s) (Form.collegeId (form s)) = Some u →
  Form.otp (form s) = otpCode s →
  getUser (storage (verifyOTP s)) (Form.collegeId (form s))
    = Some (User.mk (Form.collegeId (form s)) (Some (Form.email (form s)))
              (Some (Form.phone (form s))) (User.password u) (User.webauthn u))
  ∧ (∀ id, id ≠ Form.collegeId (form s) →
       getUser (storage (verifyOTP s)) id = getUser (storage s) id)
  ∧ getSession (storage (verifyOTP s)) = getSession (storage s)
  ∧ attendance (storage (verifyOTP s)) = attendance (storage s)
  ∧ err (verifyOTP s) = "".
Proof.
  intros Hkeyed Hu Hotp.
  pose proof (usersKeyed_lookup _ _ _ Hkeyed Hu) as Hid.
  destruct s as [v st f i e os oc us mk sb ws sem sto ck].
  unfold verifyOTP; cbn in *. rewrite Hu.
  case_decide; [|done]. cbn.
  destruct u as [cid em ph pw0 wa]; cbn in *; subst cid.
  unfold getUser, upsertUser, saveUsers, loadUsers; cbn.
  split; [apply lookup_insert_eq|]. split; [|done].
  intros id Hne. by rewrite lookup_insert_ne.
Qed.

Lemma verifyOTP_keeps_password_witness :
  getUser (storage (verifyOTP reverification)) "S1"
  = Some (User.mk "S1" (Some "new@college.example") (Some "5550199")
            (Some "secret1") false).
Proof.
  assert (getUser (storage reverification) (Form.collegeId (form reverification))
          = Some (User.mk "S1" (Some "s1@college.example") (Some "5550100")
                    (Some "secret1") false)) as Hu by (vm_compute; reflexivity).
  assert (usersKeyed (storage reverification)) as Hk.
  { intros id u. change (users (storage reverification))
      with ({[ "S1" := User.mk "S1" (Some "s1@college.example") (Some "5550100")
                         (Some "secret1") false ]} : gmap string User.t).
    intros [<- <-]%lookup_singleton_Some. done. }
  exact (proj1 (verifyOTP_keeps_password reverification _ Hk Hu eq_refl)).
Defined.

(** ** Marking attendance *)

Lemma loadAttendance_save (st : Storage) (id : string) (dates : list Z) :
  loadAttendance (saveAttendance id dates st) id = dates.
Proof. unfold loadAttendance, saveAttendance. cbn. by rewrite lookup_insert_eq. Qed.

Lemma loadAttendance_save_ne (st : Storage) (id id' : string) (dates : list Z) :
  id ≠ id' →
  loadAttendance (saveAttendance id dates st) id' = loadAttendance st id'.
Proof.
  intros Hne. unfold loadAttendance, saveAttendance. cbn.
  by rewrite lookup_insert_ne.
Qed.

Lemma not_confirmed (a : Authenticator) (s : App) :
  ¬ confirmed a s ↔ shotBlob s = false ∨ ok (authenticateWithWebAuthn a) = false.
Proof.
  unfold confirmed.
  destruct (shotBlob s), (ok (authenticateWithWebAuthn a)); intuition congruence.
Qed.

(** What [markAttendance] does, in terms of the test [isWeekday] it runs. *)
Lemma markAttendance_cases (tz : Z) (a : Authenticator) (s : App) (u : User.t) :
  user s = Some u →
  (¬ confirmed a s →
     AuthenticationRequiredError (err (markAttendance tz a s))
     ∧ storage (markAttendance tz a s) = storage s)
  ∧ (confirmed a s → isWeekday tz (newDate (todayISO (clock s))) = false →
     err (markAttendance tz a s) = NonWorkingDayError
     ∧ storage (markAttendance tz a s) = storage s)
  ∧ (confirmed a s → isWeekday tz (newDate (todayISO (clock s))) = true →
     err (markAttendance tz a s) = ""
     ∧ storage (markAttendance tz a s)
       = (if decide (todayISO (clock s) ∈ loadAttendance (storage s) (User.collegeId u))
          then storage s
          else saveAttendance (User.collegeId u)
                 (loadAttendance (storage s) (User.collegeId u) ++ [todayISO (clock s)])
                 (storage s))).
Proof.
  intros Hu. rewrite not_confirmed. unfold confirmed.
  destruct s as [v st f i e os oc us mk sb ws sem sto ck].
  cbn in Hu. subst us.
  unfold markAttendance, markAttendanceTry; cbn.
  split; [|split].
  - intros [->| Hok].
    + split; [by left|done].
    + destruct sb; cbn; [|split; [by left|done]].
      rewrite Hok. cbn. split; [by right|done].
  - intros [-> ->] ->. done.
  - intros [-> ->] ->. cbn. case_decide; done.
Qed.

(** C3, as the code has it, off the slip of [isWeekday]: on a host at or
    east of UTC, for a logged-in user, [markAttendance] first requires the
    selfie and the biometric assertion, whatever the day; with both, it
    refuses Saturday and Sunday; otherwise it appends today's date to that
    user's ledger unless it is there already, and touches no other ledger. *)
Theorem markAttendance_outcomes (tz : Z) (a : Authenticator) (s : App) (u : User.t) :
  eastOfUTC tz →
  user s = Some u →
  (¬ confirmed a s →
     AuthenticationRequiredError (err (markAttendance tz a s))
     ∧ storage (markAttendance tz a s) = storage s)
  ∧ (confirmed a s → isWeekend (todayISO (clock s)) →
     err (markAttendance tz a s) = NonWorkingDayError
     ∧ storage (markAttendance tz a s) = storage s)
  ∧ (confirmed a s → ¬ isWeekend (todayISO (clock s)) →
     err (markAttendance tz a s) = ""
     ∧ loadAttendance (storage (markAttendance tz a s)) (User.collegeId u)
       = (if decide (todayISO (clock s) ∈ loadAttendance (storage s) (User.collegeId u))
          then loadAttendance (storage s) (User.collegeId u)
          else loadAttendance (storage s) (User.collegeId u) ++ [todayISO (clock s)])
     ∧ (∀ id, id ≠ User.collegeId u →
          loadAttendance (storage (markAttendance tz a s)) id
          = loadAttendance (storage s) id)
     ∧ users (storage (markAttendance tz a s)) = users (storage s)
     ∧ getSession (storage (markAttendance tz a s)) = getSession (storage s)).
Proof.
  intros Htz Hu.
  destruct (markAttendance_cases tz a s u Hu) as (Hauth & Hweekend & Hmark).
  pose proof (isWeekday_east tz (todayISO (clock s)) Htz) as Hday.
  split; [exact Hauth|]. split.
  - intros Hc Hw. apply Hweekend; [done|].
    destruct (isWeekday tz (newDate (todayISO (clock s)))); [|done].
    exfalso. by apply Hday.
  - intros Hc Hw. destruct (Hmark Hc) as [-> ->]; [by apply Hday|].
    split; [done|]. case_decide; [done|].
    rewrite loadAttendance_save. split; [done|]. split; [|done].
    intros id Hne. by apply loadAttendance_save_ne.
Qed.

Lemma markAttendance_outcomes_witness :
  err (markAttendance 0 Succeeds readyToMark) = ""
  ∧ loadAttendance (storage (markAttendance 0 Succeeds readyToMark)) "S1"
    = [ymd 2024 1 8].
Proof.
  assert (eastOfUTC 0) as Htz by (unfold eastOfUTC; lia).
  assert (user readyToMark
          = Some (User.setPassword "secret1"
                    (User.mk "S1" (Some "s1@college.example") (Some "5550100") None false)))
    as Hu by (vm_compute; reflexivity).
  assert (confirmed Succeeds readyToMark) as Hc by (split; vm_compute; reflexivity).
  assert (¬ isWeekend (todayISO (clock readyToMark))) as Hd
    by (unfold isWeekend; vm_compute; intros [|]; discriminate).
  destruct (markAttendance_outcomes 0 Succeeds readyToMark _ Htz Hu) as (_ & _ & Hok).
  destruct (Hok Hc Hd) as (He & Hl & _).
  split; [exact He|]. etrans; [exact Hl|]. vm_compute. reflexivity.
Defined.

(** C3 as stated fails: on a Saturday, without a selfie, the failure
    reported is the missing selfie, not the weekend. *)
Lemma markAttendance_saturday_no_selfie :
  enabled saturdaySession (MarkAttendance Succeeds) = true
  ∧ user saturdaySession ≠ None
  ∧ isWeekend (todayISO (clock saturdaySession))
  ∧ err (markAttendance 0 Succeeds saturdaySession) = SelfieRequiredError
  ∧ err (markAttendance 0 Succeeds saturdaySession) ≠ NonWorkingDayError.
Proof.
  split; [vm_compute; reflexivity|].
  split; [vm_compute; discriminate|]. split; [left; vm_compute; reflexivity|].
  split; vm_compute; [reflexivity|discriminate].
Qed.

Lemma markAttendance_user (tz : Z) (a : Authenticator) (s : App) :
  user (markAttendance tz a s) = user s
  ∧ shotBlob (markAttendance tz a s) = shotBlob s
  ∧ clock (markAttendance tz a s) = clock s
  ∧ semStart (markAttendance tz a s) = semStart s
  ∧ users (storage (markAttendance tz a s)) = users (storage s).
Proof.
  destruct s as [v st f i e os oc us mk sb ws sem sto ck].
  unfold markAttendance, markAttendanceTry; cbn.
  destruct sb; cbn; [|done]. destruct us as [u|]; cbn; [|done].
  destruct (ok (authenticateWithWebAuthn a)); cbn; [|done].
  destruct (isWeekday tz (newDate (todayISO ck))); cbn; [|done].
  case_decide; done.
Qed.

(** C4. Marking a second time on the same day, with the same answer from
    the authenticator, leaves the storage, and so every ledger, as the first
    marking left it. *)
Theorem markAttendance_idempotent (tz : Z) (a : Authenticator) (s : App) (later : Z) :
  todayISO later = todayISO (clock s) →
  storage (markAttendance tz a (setClock later (markAttendance tz a s)))
  = storage (markAttendance tz a s).
Proof.
  intros Hday. destruct s as [v st f i e os oc us mk sb ws sem sto ck].
  cbn in Hday.
  unfold markAttendance, markAttendanceTry; cbn.
  destruct sb; cbn; [|done]. destruct us as [u|]; cbn; [|done].
  destruct (ok (authenticateWithWebAuthn a)) eqn:Hok; cbn; rewrite ?Hok; cbn; [|done].
  rewrite Hday.
  destruct (isWeekday tz (newDate (todayISO ck))) eqn:Hw; cbn; rewrite ?Hok, ?Hday, ?Hw; cbn;
    [|done].
  case_decide as Hin; cbn; rewrite ?Hok; cbn; rewrite ?Hday, ?Hw; cbn.
  - case_decide; done.
  - rewrite loadAttendance_save. case_decide as Hin'; [done|].
    exfalso. apply Hin'. apply elem_of_app. right. by apply list_elem_of_singleton.
Qed.

Lemma markAttendance_idempotent_witness :
  todayISO (clock readyToMark + 3600000) = todayISO (clock readyToMark)
  ∧ loadAttendance
      (storage (markAttendance 0 Succeeds
                  (setClock (clock readyToMark + 3600000)
                     (markAttendance 0 Succeeds readyToMark)))) "S1"
    = [ymd 2024 1 8].
Proof.
  assert (todayISO (clock readyToMark + 3600000) = todayISO (clock readyToMark)) as Hd
    by (vm_compute; reflexivity).
  split; [exact Hd|].
  rewrite (markAttendance_idempotent 0 Succeeds readyToMark _ Hd).
  vm_compute. reflexivity.
Defined.

(** ** Reachable states *)

Lemma reachable_run (tz now0 : Z) (evs : list Event) :
  ∀ s, reachable tz now0 s → reachable tz now0 (run tz evs s).
Proof.
  induction evs as [|ev evs IH]; intros s Hs; [done|].
  apply IH. by constructor.
Qed.

Lemma usersKeyed_upsert (u : User.t) (st : Storage) :
  usersKeyed st → usersKeyed (upsertUser u st).
Proof.
  intros Hk id u'. unfold upsertUser, saveUsers, loadUsers; cbn.
  intros [[<- <-] | [_ Hu]]%lookup_insert_Some; [done|]. by apply Hk.
Qed.

Lemma usersKeyed_users (st st' : Storage) :
  users st' = users st → usersKeyed st → usersKeyed st'.
Proof. unfold usersKeyed. by intros ->. Qed.

Lemma usersKeyed_createWebAuthnCredential (a : Authenticator) (id : string) (st : Storage) :
  usersKeyed st → usersKeyed (createWebAuthnCredential a id st).1.
Proof.
  intros Hk. destruct a; cbn; try done.
  destruct (getUser st id); cbn; [|done]. by apply usersKeyed_upsert.
Qed.

(** Every handler keeps the accounts stored under their own ids. *)
Lemma handle_usersKeyed (tz : Z) (ev : Event) (s : App) :
  usersKeyed (storage s) → usersKeyed (storage (handle tz ev s)).
Proof.
  intros Hk. unfold handle. destruct (enabled s ev); [|done].
  destruct ev; try done.
  - unfold doLogin; cbn.
    destruct (getUser _ _); [|done]. destruct (falsy _); [done|].
    case_decide; done.
  - unfold sendOTP; cbn. case_decide; done.
  - unfold verifyOTP; cbn. case_decide; [|done]. cbn. by apply usersKeyed_upsert.
  - unfold setPassword; cbn -[Nat.ltb String.length].
    destruct (_ <? _)%nat; [done|]. case_decide; [|done].
    destruct (getUser _ _) as [u|]; [|done].
    pose proof (usersKeyed_createWebAuthnCredential a (User.collegeId u)
                  (upsertUser (User.setPassword (Form.password (form s)) u) (storage s))
                  (usersKeyed_upsert _ _ Hk)) as Hk'.
    cbn in *. destruct (createWebAuthnCredential _ _ _) as [st res]; cbn in *.
    destruct (ok res); done.
  - eapply usersKeyed_users; [|exact Hk]. apply markAttendance_user.
Qed.

Lemma reachable_usersKeyed (tz now0 : Z) (s : App) :
  reachable tz now0 s → usersKeyed (storage s).
Proof.
  induction 1 as [|s ev _ IH]; [|by apply handle_usersKeyed].
  intros id u. cbn. by rewrite lookup_empty.
Qed.





Lemma attendance_createWebAuthnCredential (a : Authenticator) (id : string) (st : Storage) :
  attendance (createWebAuthnCredential a id st).1 = attendance st.
Proof. destruct a; cbn; try done. by destruct (getUser st id). Qed.




(** ** The screens that can be reached *)

Lemma leadsTo_trans (tz : Z) (r r' r'' : Screen) :
  leadsTo tz r r' → leadsTo tz r' r'' → leadsTo tz r r''.
Proof.
  intros H1 H2. induction H2 as [|r'' a _ IH Ho]; [done|]. by constructor.
Qed.

Lemma leadsTo_performAll (tz : Z) (acts : list Action) (r0 r : Screen) :
  leadsTo tz r0 r → allOrdinary tz acts r = true →
  leadsTo tz r0 (performAll tz acts r).
Proof.
  revert r. induction acts as [|a acts IH]; intros r Hr Hall; [done|].
  cbn in Hall. apply andb_true_iff in Hall as [Ho Hall].
  apply (IH (perform tz a r)); [by constructor|done].
Qed.



(** The effect run on load changes nothing but the session, the user and
    the view. *)
Lemma restoreSession_frame (s : App) :
  users (storage (restoreSession s)) = users (storage s)
  ∧ attendance (storage (restoreSession s)) = attendance (storage s)
  ∧ clock (restoreSession s) = clock s
  ∧ semStart (restoreSession s) = semStart s.
Proof.
  unfold restoreSession. destruct (getSession (storage s)) as [sess|]; [|done].
  case_decide; [done|]. destruct (getUser (storage s) sess); done.
Qed.






(** The count kept from an earlier day can fall behind the days present:
    two days are shown as attended against the one working day counted on
    Monday, while the count from the start to today is two. *)
Example presentDays_exceeds_stale_workingDays :
  reachableScreen 0 (newDate (ymd 2024 1 8)) staleScreen
  ∧ presentDays staleScreen = 2
  ∧ workingDays staleScreen = 1
  ∧ computeWorkingDays 0 (hooks staleScreen) = 2.
Proof.
  split.
  - unfold staleScreen, mondayScreen.
    do 2 (apply leadsTo_performAll; [|by vm_compute]). constructor.
  - split; [by vm_compute|]. split; by vm_compute.
Qed.



(** * Further properties of the code *)

(** ** Working days, at any offset *)

(** The count lies between 0 and the number of days of the range; an empty
    range, its end before its start, counts 0. *)
Theorem workingDaysCount_bounds (tz start end_ : Z) :
  0 ≤ workingDaysCount tz start end_ ≤ Z.max 0 (end_ - start + 1).
Proof.
  rewrite workingDaysCount_weekdays. split; [lia|].
  unfold weekdaysBetween.
  pose proof (length_filter (λ d, isWeekday tz (newDate d) = true)
                (seqZ start (end_ - start + 1))) as Hlen.
  rewrite length_seqZ in Hlen. lia.
Qed.

(** On a host whose zone keeps one offset from UTC all year, the loop runs
    once per day of the range: with that much fuel, or more, it stops by its
    own condition and returns the count. (Where the clocks change, a step
    of the loop is a day of 23 or 25 hours, which the fixed offset [tz] does
    not describe.) *)
Theorem workingDaysRun_terminates (tz : Z) (fuel : nat) (start end_ : Z) :
  (Z.to_nat (end_ - start + 1) ≤ fuel)%nat →
  workingDaysRun fuel tz start end_ = Some (workingDaysCount tz start end_)
  ∧ workingDaysRun fuel tz start end_
    = Some (Z.of_nat (length (weekdaysBetween tz start end_))).
Proof.
  intros Hfuel. rewrite workingDaysRun_enough by done.
  split; [done|]. by rewrite workingDaysCount_weekdays.
Qed.

Lemma workingDaysRun_terminates_witness :
  workingDaysRun 40 0 (ymd 2024 1 1) (ymd 2024 1 31) = Some 23.
Proof.
  assert (Z.to_nat (ymd 2024 1 31 - ymd 2024 1 1 + 1) ≤ 40)%nat as Hfuel
    by (vm_compute; lia).
  exact (proj1 (workingDaysRun_terminates 0 40 (ymd 2024 1 1) (ymd 2024 1 31) Hfuel)).
Defined.

Lemma weekdaysBetween_split (tz start mid end_ : Z) :
  start ≤ mid + 1 → mid ≤ end_ →
  weekdaysBetween tz start end_
  = weekdaysBetween tz start mid ++ weekdaysBetween tz (mid + 1) end_.
Proof.
  intros H1 H2. unfold weekdaysBetween.
  replace (end_ - start + 1) with ((mid - start + 1) + (end_ - (mid + 1) + 1)) by lia.
  rewrite (seqZ_app start (mid - start + 1) (end_ - (mid + 1) + 1)) by lia.
  rewrite filter_app. do 3 f_equal; lia.
Qed.

(** On a host whose zone keeps one offset from UTC all year, counting over
    a range that is not empty is counting over its two parts. *)
Theorem workingDaysCount_split (tz start mid end_ : Z) :
  start ≤ mid + 1 → mid ≤ end_ →
  workingDaysCount tz start end_
  = workingDaysCount tz start mid + workingDaysCount tz (mid + 1) end_.
Proof.
  intros H1 H2. rewrite !workingDaysCount_weekdays.
  rewrite (weekdaysBetween_split tz start mid end_ H1 H2), length_app. lia.
Qed.

Lemma workingDaysCount_split_witness :
  workingDaysCount 0 (ymd 2024 1 1) (ymd 2024 1 31)
  = workingDaysCount 0 (ymd 2024 1 1) (ymd 2024 1 10)
    + workingDaysCount 0 (ymd 2024 1 10 + 1) (ymd 2024 1 31).
Proof.
  apply (workingDaysCount_split 0 (ymd 2024 1 1) (ymd 2024 1 10) (ymd 2024 1 31));
    vm_compute; discriminate.
Defined.

Lemma localDay_shift (tz d i : Z) :
  localDay tz (newDate (d + i)) = localDay tz (newDate d) + i.
Proof.
  unfold localDay, newDate.
  replace ((d + i) * msPerDay + tz * msPerMinute)
    with (d * msPerDay + tz * msPerMinute + i * msPerDay) by lia.
  apply Z.div_add. unfold msPerDay. lia.
Qed.

Lemma getDay_shift (tz d i : Z) :
  getDay tz (newDate (d + i)) = (getDay tz (newDate d) + i) mod 7.
Proof.
  unfold getDay. rewrite localDay_shift.
  rewrite Zplus_mod_idemp_l. f_equal. lia.
Qed.

Lemma getDay_range (tz t : Z) : 0 ≤ getDay tz t < 7.
Proof. unfold getDay. apply Z.mod_pos_bound. lia. Qed.

(** Any seven consecutive days hold five accepted ones, whatever the zone. *)
Lemma weekdaysBetween_week (tz d : Z) :
  length (weekdaysBetween tz d (d + 6)) = 5%nat.
Proof.
  unfold weekdaysBetween.
  replace (d + 6 - d + 1) with 7 by lia.
  replace d with (d + 0) at 1 by lia.
  rewrite <- (fmap_add_seqZ d 0 7).
  change (seqZ 0 7) with [0; 1; 2; 3; 4; 5; 6].
  cbn [fmap list_fmap].
  rewrite !filter_cons, filter_nil.
  unfold isWeekday. rewrite !getDay_shift.
  pose proof (getDay_range tz (newDate d)) as Hr.
  set (g := getDay tz (newDate d)) in *.
  assert (g = 0 ∨ g = 1 ∨ g = 2 ∨ g = 3 ∨ g = 4 ∨ g = 5 ∨ g = 6) as Hg by lia.
  destruct Hg as [-> | [-> | [-> | [-> | [-> | [-> | ->]]]]]]; reflexivity.
Qed.

(** On a host whose zone keeps one offset from UTC all year, whatever that
    offset: a week more adds five working days to a range that starts no
    later than the day after its end. *)
Theorem workingDaysCount_week (tz start end_ : Z) :
  start ≤ end_ + 1 →
  workingDaysCount tz start (end_ + 7) = workingDaysCount tz start end_ + 5.
Proof.
  intros Hle. rewrite !workingDaysCount_weekdays.
  rewrite (weekdaysBetween_split tz start end_ (end_ + 7)) by lia.
  rewrite length_app.
  replace (end_ + 7) with (end_ + 1 + 6) by lia.
  rewrite weekdaysBetween_week. lia.
Qed.

Lemma workingDaysCount_week_witness :
  workingDaysCount (-300) (ymd 2024 1 3) (ymd 2024 1 20 + 7)
  = workingDaysCount (-300) (ymd 2024 1 3) (ymd 2024 1 20) + 5.
Proof.
  apply (workingDaysCount_week (-300) (ymd 2024 1 3) (ymd 2024 1 20)).
  vm_compute; discriminate.
Defined.

(** Which dates [isWeekday] accepts: at or east of UTC the dates that fall
    on Monday to Friday, west of UTC the dates whose eve does. *)
Theorem isWeekday_by_zone (tz d : Z) :
  (eastOfUTC tz → (isWeekday tz (newDate d) = true ↔ ¬ isWeekend d))
  ∧ (-1440 < tz < 0 → (isWeekday tz (newDate d) = true ↔ ¬ isWeekend (d - 1))).
Proof.
  split; [apply isWeekday_east|].
  intros Htz. unfold isWeekday, isWeekend. rewrite (getDay_newDate_west tz d Htz).
  destruct (Z.eqb_spec (weekdayOf (d - 1)) 0), (Z.eqb_spec (weekdayOf (d - 1)) 6);
    simpl; split; intros; try done; try (exfalso; lia); lia.
Qed.

Lemma isWeekday_by_zone_witness :
  (isWeekday 330 (newDate (ymd 2024 1 8)) = true ↔ ¬ isWeekend (ymd 2024 1 8))
  ∧ (isWeekday (-300) (newDate (ymd 2024 1 8)) = true ↔ ¬ isWeekend (ymd 2024 1 8 - 1)).
Proof.
  split.
  - apply (proj1 (isWeekday_by_zone 330 (ymd 2024 1 8))). unfold eastOfUTC. lia.
  - apply (proj2 (isWeekday_by_zone (-300) (ymd 2024 1 8))). lia.
Defined.

(** ** The default start of the semester *)



(** ** Enrolment of the authenticator *)

(** For an id that is not an inherited name, [createWebAuthnCredential]
    reports success only when the authenticator grants a credential and the
    account exists; it then sets the enrolled flag of that account and
    nothing else. In every other case the storage is left as it was. *)
Theorem createWebAuthnCredential_effect (a : Authenticator) (id : string) (st : Storage) :
  usersKeyed st →
  inheritedName id = false →
  (ok (createWebAuthnCredential a id st).2 = true
     ↔ a = Succeeds ∧ is_Some (getUser st id))
  ∧ (ok (createWebAuthnCredential a id st).2 = false →
       (createWebAuthnCredential a id st).1 = st)
  ∧ (∀ u, ok (createWebAuthnCredential a id st).2 = true → getUser st id = Some u →
       getUser (createWebAuthnCredential a id st).1 id
       = Some (User.mk id (User.email u) (User.phone u) (User.password u) true))
  ∧ (∀ id', id' ≠ id →
       getUser (createWebAuthnCredential a id st).1 id' = getUser st id')
  ∧ getSession (createWebAuthnCredential a id st).1 = getSession st
  ∧ attendance (createWebAuthnCredential a id st).1 = attendance st.
Proof.
  intros Hk _. unfold createWebAuthnCredential.
  destruct a; cbn; try (repeat split; try done; intros [? ?]; done).
  destruct (getUser st id) as [u|] eqn:Hu; cbn.
  - pose proof (usersKeyed_lookup _ _ _ Hk Hu) as Hid.
    destruct u as [cid em ph pw wa]; cbn in *; subst cid.
    unfold getUser, upsertUser, saveUsers, loadUsers; cbn.
    split; [split; [eauto|done]|]. split; [done|].
    split; [intros u _ [= <-]; apply lookup_insert_eq|].
    split; [|done]. intros id' Hne. by rewrite lookup_insert_ne.
  - split; [split; [done|intros [_ [? ?]]; done]|].
    repeat split; done.
Qed.

Lemma createWebAuthnCredential_effect_witness :
  getUser (createWebAuthnCredential Succeeds "S1" (storage mondaySession)).1 "S1"
  = Some (User.mk "S1" (Some "s1@college.example") (Some "5550100")
            (Some "secret1") true).
Proof.
  assert (usersKeyed (storage mondaySession)) as Hk.
  { intros id u. change (users (storage mondaySession))
      with ({[ "S1" := User.mk "S1" (Some "s1@college.example") (Some "5550100")
                         (Some "secret1") false ]} : gmap string User.t).
    intros [<- <-]%lookup_singleton_Some. done. }
  destruct (createWebAuthnCredential_effect Succeeds "S1" (storage mondaySession) Hk
              eq_refl) as (_ & _ & Hset & _).
  apply (Hset (User.mk "S1" (Some "s1@college.example") (Some "5550100")
                 (Some "secret1") false)); vm_compute; reflexivity.
Defined.

(** ** Registration *)

(** [sendOTP] refuses to go on while the id, the address or the number is
    empty, changing only the error shown; otherwise it remembers the code,
    moves to the verification step and shows the code with the address and
    the number. Either way nothing is written to the storage. *)
Theorem sendOTP_outcomes (code : string) (s : App) :
  (Form.collegeId (form s) = "" ∨ Form.email (form s) = "" ∨ Form.phone (form s) = "" →
     sendOTP code s = setErr ValidationError s)
  ∧ (Form.collegeId (form s) ≠ "" → Form.email (form s) ≠ "" → Form.phone (form s) ≠ "" →
     err (sendOTP code s) = ""
     ∧ otpCode (sendOTP code s) = code
     ∧ otpSent (sendOTP code s) = true
     ∧ step (sendOTP code s) = StepVerify
     ∧ info (sendOTP code s)
       = "Mock OTP sent to " +:+ Form.email (form s) +:+ " & "
           +:+ Form.phone (form s) +:+ ": " +:+ code)
  ∧ storage (sendOTP code s) = storage s
  ∧ form (sendOTP code s) = form s
  ∧ user (sendOTP code s) = user s
  ∧ view (sendOTP code s) = view s.
Proof.
  destruct s as [v st f i e os oc us mk sb ws sem sto ck].
  unfold sendOTP; cbn. split; [|split].
  - intros H. case_decide; [done|tauto].
  - intros H1 H2 H3. case_decide; [|done]. tauto.
  - case_decide; done.
Qed.

Lemma sendOTP_outcomes_witness :
  sendOTP "123456" (initial 0 0) = setErr ValidationError (initial 0 0).
Proof.
  apply (proj1 (sendOTP_outcomes "123456" (initial 0 0))). left. reflexivity.
Defined.

(** A wrong code is refused and changes only the error shown: no account is
    created or updated and the step stays where it was. *)
Theorem verifyOTP_wrong_code (s : App) :
  Form.otp (form s) ≠ otpCode s →
  verifyOTP s = setErr InvalidCodeError s.
Proof.
  intros Hne. destruct s as [v st f i e os oc us mk sb ws sem sto ck].
  unfold verifyOTP; cbn in *. case_decide; [done|]. done.
Qed.

Lemma verifyOTP_wrong_code_witness :
  verifyOTP (updateField Form.Otp "000000" reverification)
  = setErr InvalidCodeError (updateField Form.Otp "000000" reverification).
Proof.
  apply (verifyOTP_wrong_code (updateField Form.Otp "000000" reverification)).
  vm_compute. discriminate.
Defined.

(** A right code for an id without an account, and that is not an inherited
    name, creates one holding the address and the number of the form,
    without password or enrolment, and moves to the password step. *)
Theorem verifyOTP_creates_account (s : App) :
  Form.otp (form s) = otpCode s →
  inheritedName (Form.collegeId (form s)) = false →
  getUser (storage s) (Form.collegeId (form s)) = None →
  getUser (storage (verifyOTP s)) (Form.collegeId (form s))
    = Some (User.mk (Form.collegeId (form s)) (Some (Form.email (form s)))
              (Some (Form.phone (form s))) None false)
  ∧ (∀ id, id ≠ Form.collegeId (form s) →
       getUser (storage (verifyOTP s)) id = getUser (storage s) id)
  ∧ step (verifyOTP s) = StepSetpass
  ∧ err (verifyOTP s) = ""
  ∧ user (verifyOTP s) = user s
  ∧ getSession (storage (verifyOTP s)) = getSession (storage s).
Proof.
  intros Hotp _ Hnone. destruct s as [v st f i e os oc us mk sb ws sem sto ck].
  unfold verifyOTP; cbn in *. rewrite Hnone.
  case_decide; [|done]. cbn.
  unfold getUser, upsertUser, saveUsers, loadUsers; cbn.
  split; [apply lookup_insert_eq|]. split; [|done].
  intros id Hne. by rewrite lookup_insert_ne.
Qed.

Lemma verifyOTP_creates_account_witness :
  getUser (storage (verifyOTP
     (run 0 [ StartRegister; UpdateField Form.CollegeId "S9";
              UpdateField Form.Email "s9@college.example";
              UpdateField Form.Phone "5550109"; SendOTP "111111";
              UpdateField Form.Otp "111111" ] (initial 0 0)))) "S9"
  = Some (User.mk "S9" (Some "s9@college.example") (Some "5550109") None false).
Proof.
  apply (verifyOTP_creates_account
     (run 0 [ StartRegister; UpdateField Form.CollegeId "S9";
              UpdateField Form.Email "s9@college.example";
              UpdateField Form.Phone "5550109"; SendOTP "111111";
              UpdateField Form.Otp "111111" ] (initial 0 0)));
    vm_compute; reflexivity.
Defined.

(** ** Logging in *)

Lemma trimEnd_idempotent (s : string) : trimEnd (trimEnd s) = trimEnd s.
Proof.
  induction s as [|a s IH]; [done|]. cbn -[isWhiteSpace].
  destruct (trimEnd s) as [|b r] eqn:E.
  - destruct (isWhiteSpace a) eqn:Ha; [done|]. cbn -[isWhiteSpace]. by rewrite Ha.
  - change (trimEnd (String a (String b r))) with
      (match trimEnd (String b r) with
       | EmptyString => if isWhiteSpace a then EmptyString else String a EmptyString
       | String c r' => String a (String c r')
       end).
    by rewrite IH.
Qed.

Lemma trimStart_trimEnd (s : string) :
  trimStart (trimEnd (trimStart s)) = trimEnd (trimStart s).
Proof.
  induction s as [|a s IH]; [done|]. cbn -[isWhiteSpace].
  destruct (isWhiteSpace a) eqn:Ha; [exact IH|]. cbn -[isWhiteSpace].
  destruct (trimEnd s); cbn -[isWhiteSpace]; rewrite ?Ha; cbn -[isWhiteSpace];
    by rewrite ?Ha.
Qed.

Lemma trim_idempotent (s : string) : trim (trim s) = trim s.
Proof. unfold trim. by rewrite trimStart_trimEnd, trimEnd_idempotent. Qed.

(** White space around the id typed makes no difference to a login: the
    message, the storage, the user and the view are those of a login with
    the trimmed id. *)
Theorem doLogin_ignores_padding (id : string) (s : App) :
  err (doLogin (updateField Form.CollegeId id s))
    = err (doLogin (updateField Form.CollegeId (trim id) s))
  ∧ storage (doLogin (updateField Form.CollegeId id s))
    = storage (doLogin (updateField Form.CollegeId (trim id) s))
  ∧ user (doLogin (updateField Form.CollegeId id s))
    = user (doLogin (updateField Form.CollegeId (trim id) s))
  ∧ view (doLogin (updateField Form.CollegeId id s))
    = view (doLogin (updateField Form.CollegeId (trim id) s)).
Proof.
  destruct s as [v st f i e os oc us mk sb ws sem sto ck].
  unfold doLogin, updateField; cbn -[trim]. rewrite trim_idempotent.
  destruct (getUser sto (trim id)) as [u|]; [|done].
  destruct (falsy (User.password u)); [done|].
  case_decide; done.
Qed.

(** A failed login, whatever its reason, changes only the error shown. *)
Theorem doLogin_failure_frame (s : App) :
  err (doLogin s) ≠ "" → doLogin s = setErr (err (doLogin s)) s.
Proof.
  destruct s as [v st f i e os oc us mk sb ws sem sto ck].
  unfold doLogin; cbn.
  destruct (getUser sto _) as [u|]; [|done].
  destruct (falsy (User.password u)); [done|].
  case_decide; done.
Qed.

Lemma doLogin_failure_frame_witness :
  doLogin (updateField Form.Password "wrong" returningSession)
  = setErr InvalidCredentialsError (updateField Form.Password "wrong" returningSession).
Proof.
  apply (doLogin_failure_frame (updateField Form.Password "wrong" returningSession)).
  vm_compute. discriminate.
Defined.

(** [doLogin] on a state whose trimmed id has an account with a password. *)
Lemma doLogin_with_account (s : App) (u : User.t) (pw : string) :
  getUser (storage s) (trim (Form.collegeId (form s))) = Some u →
  User.password u = Some pw → pw ≠ "" →
  (pw = Form.password (form s) →
     err (doLogin s) = ""
     ∧ getSession (storage (doLogin s)) = Some (User.collegeId u)
     ∧ view (doLogin s) = ViewApp)
  ∧ (pw ≠ Form.password (form s) →
     err (doLogin s) = InvalidCredentialsError
     ∧ storage (doLogin s) = storage s
     ∧ view (doLogin s) = view s).
Proof.
  intros Hu Hpw Hne. destruct s as [v st f i e os oc us mk sb ws sem sto ck].
  unfold doLogin; cbn -[trim] in *. rewrite Hu.
  assert (falsy (User.password u) = false) as -> by (apply falsy_false; eauto).
  rewrite Hpw. split; intros Ha; case_decide as E; try done.
  - exfalso. apply E. by rewrite Ha.
  - exfalso. apply Ha. by injection E.
Qed.

Lemma doLogin_without_account (s : App) :
  getUser (storage s) (trim (Form.collegeId (form s))) = None →
  err (doLogin s) = NotFoundError.
Proof.
  intros Hu. destruct s as [v st f i e os oc us mk sb ws sem sto ck].
  unfold doLogin; cbn -[trim] in *. by rewrite Hu.
Qed.

(** The accounts after a verification followed by a password set-up. *)
Lemma setup_users (a : Authenticator) (s : App) :
  usersKeyed (storage s) →
  Form.otp (form s) = otpCode s →
  (6 ≤ String.length (Form.password (form s)))%nat →
  Form.password (form s) = Form.confirm (form s) →
  ∃ mail tel wa,
    users (storage (setPassword a (verifyOTP s)))
    = <[Form.collegeId (form s) :=
          User.mk (Form.collegeId (form s)) mail tel (Some (Form.password (form s))) wa]>
        (users (storage s))
    ∧ err (setPassword a (verifyOTP s)) = ""
    ∧ view (setPassword a (verifyOTP s)) = ViewApp
    ∧ getSession (storage (setPassword a (verifyOTP s))) = Some (Form.collegeId (form s)).
Proof.
  intros Hk Hotp Hlen Hconf.
  destruct s as [v st f i e os oc us mk sb ws sem sto ck]. cbn in *.
  unfold setPassword, verifyOTP; cbn -[Nat.ltb String.length].
  case_decide; [|done]. cbn -[Nat.ltb String.length].
  apply Nat.ltb_ge in Hlen. rewrite Hlen.
  case_decide; [|done].
  unfold getUser at 1. unfold upsertUser at 1. unfold saveUsers, loadUsers.
  cbn -[Nat.ltb String.length].
  assert (User.collegeId (default (User.seed (Form.collegeId f))
                            (getUser sto (Form.collegeId f))) = Form.collegeId f) as Hid.
  { destruct (getUser sto (Form.collegeId f)) as [u|] eqn:Hu; cbn; [|done].
    by apply (usersKeyed_lookup sto). }
  destruct (default _ _) as [cid em ph pw0 wa0]; cbn in Hid; subst cid.
  cbn -[Nat.ltb String.length]. rewrite lookup_insert_eq. cbn -[Nat.ltb String.length].
  destruct a; cbn; unfold getUser, upsertUser, saveUsers, loadUsers; cbn;
    rewrite ?lookup_insert_eq; cbn; rewrite ?insert_insert_eq; eauto 10.
Qed.

(** Set up, log out, log in: with an id free of surrounding white space
    that is not an inherited name, the password just set opens the session
    under that id and any other is refused as invalid credentials, whatever
    the authenticator did at the enrolment. *)
Theorem setup_then_login (a : Authenticator) (s : App) (attempt : string) :
  usersKeyed (storage s) →
  inheritedName (Form.collegeId (form s)) = false →
  Form.otp (form s) = otpCode s →
  (6 ≤ String.length (Form.password (form s)))%nat →
  Form.password (form s) = Form.confirm (form s) →
  trim (Form.collegeId (form s)) = Form.collegeId (form s) →
  (attempt = Form.password (form s) →
     err (doLogin (updateField Form.Password attempt
            (updateField Form.CollegeId (Form.collegeId (form s))
               (logout (setPassword a (verifyOTP s)))))) = ""
     ∧ getSession (storage (doLogin (updateField Form.Password attempt
            (updateField Form.CollegeId (Form.collegeId (form s))
               (logout (setPassword a (verifyOTP s)))))))
       = Some (Form.collegeId (form s))
     ∧ view (doLogin (updateField Form.Password attempt
            (updateField Form.CollegeId (Form.collegeId (form s))
               (logout (setPassword a (verifyOTP s)))))) = ViewApp)
  ∧ (attempt ≠ Form.password (form s) →
     err (doLogin (updateField Form.Password attempt
            (updateField Form.CollegeId (Form.collegeId (form s))
               (logout (setPassword a (verifyOTP s)))))) = InvalidCredentialsError
     ∧ getSession (storage (doLogin (updateField Form.Password attempt
            (updateField Form.CollegeId (Form.collegeId (form s))
               (logout (setPassword a (verifyOTP s))))))) = None
     ∧ view (doLogin (updateField Form.Password attempt
            (updateField Form.CollegeId (Form.collegeId (form s))
               (logout (setPassword a (verifyOTP s)))))) = ViewAuth).
Proof.
  intros Hk _ Hotp Hlen Hconf Htrim.
  destruct (setup_users a s Hk Hotp Hlen Hconf) as (mail & tel & wa & Hus & _).
  set (id := Form.collegeId (form s)) in *.
  set (pw := Form.password (form s)) in *.
  set (s1 := setPassword a (verifyOTP s)) in *.
  set (s2 := updateField Form.Password attempt
               (updateField Form.CollegeId id (logout s1))).
  assert (pw ≠ "") as Hpw by (intros E; rewrite E in Hlen; cbn in Hlen; lia).
  assert (getUser (storage s2) (trim (Form.collegeId (form s2)))
          = Some (User.mk id mail tel (Some pw) wa)) as Hu.
  { change (Form.collegeId (form s2)) with id. rewrite Htrim.
    change (storage s2) with (clearSession (storage s1)).
    unfold getUser, loadUsers. cbn. rewrite Hus. apply lookup_insert_eq. }
  destruct (doLogin_with_account s2 _ pw Hu eq_refl Hpw) as [Hok Hbad].
  change (Form.password (form s2)) with attempt in Hok, Hbad.
  split; intros Ha.
  - by apply Hok.
  - destruct Hbad as (He & Hst & Hv); [done|].
    split; [done|]. rewrite Hst, Hv. done.
Qed.

Lemma setup_then_login_witness :
  getSession (storage (doLogin (updateField Form.Password "secret1"
      (updateField Form.CollegeId (Form.collegeId (form resumedSetup))
         (logout (setPassword (Throws "NotAllowedError") (verifyOTP resumedSetup)))))))
  = Some "S1".
Proof.
  assert (usersKeyed (storage resumedSetup)) as Hk.
  { intros id u. change (users (storage resumedSetup))
      with ({[ "S1" := User.mk "S1" (Some "s1@college.example") (Some "5550100")
                         None false ]} : gmap string User.t).
    intros [<- <-]%lookup_singleton_Some. done. }
  destruct (setup_then_login (Throws "NotAllowedError") resumedSetup "secret1" Hk
              eq_refl eq_refl ltac:(vm_compute; lia) eq_refl eq_refl) as [Hok _].
  exact (proj1 (proj2 (Hok eq_refl))).
Defined.

(** An id registered with white space around it cannot log in: the set-up
    stores the account under the id as typed, the login looks under the
    trimmed id and, no account being there, reports that none was found.
    Neither the id as typed nor the trimmed one is an inherited name. *)
Theorem padded_id_cannot_login (a : Authenticator) (s : App) (attempt : string) :
  usersKeyed (storage s) →
  inheritedName (Form.collegeId (form s)) = false →
  inheritedName (trim (Form.collegeId (form s))) = false →
  Form.otp (form s) = otpCode s →
  (6 ≤ String.length (Form.password (form s)))%nat →
  Form.password (form s) = Form.confirm (form s) →
  trim (Form.collegeId (form s)) ≠ Form.collegeId (form s) →
  getUser (storage s) (trim (Form.collegeId (form s))) = None →
  is_Some (getUser (storage (setPassword a (verifyOTP s))) (Form.collegeId (form s)))
  ∧ err (doLogin (updateField Form.Password attempt
           (updateField Form.CollegeId (Form.collegeId (form s))
              (logout (setPassword a (verifyOTP s)))))) = NotFoundError.
Proof.
  intros Hk _ _ Hotp Hlen Hconf Htrim Hnone.
  destruct (setup_users a s Hk Hotp Hlen Hconf) as (mail & tel & wa & Hus & _).
  set (id := Form.collegeId (form s)) in *.
  set (s1 := setPassword a (verifyOTP s)) in *.
  set (s2 := updateField Form.Password attempt
               (updateField Form.CollegeId id (logout s1))).
  split.
  - unfold getUser, loadUsers. rewrite Hus, lookup_insert_eq. eauto.
  - apply doLogin_without_account.
    change (Form.collegeId (form s2)) with id.
    change (storage s2) with (clearSession (storage s1)).
    unfold getUser, loadUsers. cbn. rewrite Hus.
    rewrite lookup_insert_ne by done. exact Hnone.
Qed.

Lemma padded_id_cannot_login_witness :
  err (doLogin (updateField Form.Password "secret1"
         (updateField Form.CollegeId " S7"
            (logout (setPassword Succeeds
               (verifyOTP (run 0 [UpdateField Form.CollegeId " S7"] resumedSetup)))))))
  = NotFoundError.
Proof.
  assert (usersKeyed (storage (run 0 [UpdateField Form.CollegeId " S7"] resumedSetup)))
    as Hk.
  { intros id u. change (users (storage (run 0 [UpdateField Form.CollegeId " S7"]
                                           resumedSetup)))
      with ({[ "S1" := User.mk "S1" (Some "s1@college.example") (Some "5550100")
                         None false ]} : gmap string User.t).
    intros [<- <-]%lookup_singleton_Some. done. }
  refine (proj2 (padded_id_cannot_login Succeeds
            (run 0 [UpdateField Form.CollegeId " S7"] resumedSetup) "secret1" Hk
            eq_refl eq_refl eq_refl ltac:(vm_compute; lia) eq_refl _ _)).
  - vm_compute. discriminate.
  - vm_compute. reflexivity.
Defined.



(** ** What every reachable state satisfies *)



Lemma markAttendance_frame (tz : Z) (a : Authenticator) (s : App) :
  view (markAttendance tz a s) = view s
  ∧ step (markAttendance tz a s) = step s
  ∧ form (markAttendance tz a s) = form s
  ∧ getSession (storage (markAttendance tz a s)) = getSession (storage s).
Proof.
  destruct s as [v st f i e os oc us mk sb ws sem sto ck].
  unfold markAttendance, markAttendanceTry; cbn.
  destruct sb; cbn; [|done]. destruct us as [u|]; cbn; [|done].
  destruct (ok (authenticateWithWebAuthn a)); cbn; [|done].
  destruct (isWeekday tz (newDate (todayISO ck))); cbn; [|done].
  case_decide; done.
Qed.

Lemma getUser_createWebAuthnCredential (a : Authenticator) (id id' : string)
    (st : Storage) :
  usersKeyed st →
  is_Some (getUser st id') →
  is_Some (getUser (createWebAuthnCredential a id st).1 id').
Proof.
  intros Hk Hsome. destruct a; cbn; try done.
  destruct (getUser st id) as [u|] eqn:Hu; cbn; [|done].
  pose proof (usersKeyed_lookup _ _ _ Hk Hu) as Hid.
  unfold getUser, upsertUser, saveUsers, loadUsers; cbn. rewrite Hid.
  destruct (decide (id = id')) as [->|Hne].
  - rewrite lookup_insert_eq. eauto.
  - by rewrite lookup_insert_ne.
Qed.

Lemma session_createWebAuthnCredential (a : Authenticator) (id : string) (st : Storage) :
  getSession (createWebAuthnCredential a id st).1 = getSession st.
Proof. destruct a; cbn; try done. by destruct (getUser st id). Qed.

(** Each handler keeps the session, the user and the view in step. *)
Lemma handle_sessionCoherent (tz : Z) (ev : Event) (s : App) :
  usersKeyed (storage s) → sessionCoherent s → sessionCoherent (handle tz ev s).
Proof.
  intros Hk (Hsess & Hview & Hacc). unfold handle.
  destruct (enabled s ev); [|done].
  destruct ev; try done.
  - (* doLogin *)
    destruct s as [v st f i e os oc us mk sb ws sem sto ck].
    unfold sessionCoherent, doLogin in *; cbn -[trim] in *.
    destruct (getUser sto (trim (Form.collegeId f))) as [u|] eqn:Hu; [|done].
    destruct (falsy (User.password u)); [done|].
    case_decide; [|done]. cbn.
    split; [done|]. split; [eauto|].
    intros u' [= <-]. pose proof (usersKeyed_lookup _ _ _ Hk Hu) as Hid.
    rewrite Hid. exists u. exact Hu.
  - (* sendOTP *)
    unfold sessionCoherent, sendOTP in *; cbn. case_decide; done.
  - (* verifyOTP *)
    destruct s as [v st f i e os oc us mk sb ws sem sto ck].
    unfold sessionCoherent, verifyOTP in *; cbn in *.
    case_decide; [|done]. cbn.
    split; [done|]. split; [done|].
    intros u Hu. specialize (Hacc u Hu).
    unfold getUser, upsertUser, saveUsers, loadUsers in *; cbn in *.
    match goal with |- is_Some (<[?k:=_]> _ !! _) =>
      destruct (decide (k = User.collegeId u)) as [->|Hne] end.
    + rewrite lookup_insert_eq. eauto.
    + by rewrite lookup_insert_ne.
  - (* setPassword *)
    destruct s as [v st f i e os oc us mk sb ws sem sto ck].
    unfold sessionCoherent, setPassword in *; cbn -[Nat.ltb String.length] in *.
    destruct (_ <? _)%nat; [done|]. case_decide; [|done].
    destruct (getUser sto (Form.collegeId f)) as [u|] eqn:Hu; [|done].
    pose proof (usersKeyed_upsert (User.setPassword (Form.password f) u) sto Hk) as Hk'.
    pose proof (getUser_createWebAuthnCredential a (User.collegeId u) (User.collegeId u)
                  _ Hk') as Hsome.
    cbn in Hsome.
    destruct (createWebAuthnCredential a (User.collegeId u)
                (upsertUser (User.setPassword (Form.password f) u) sto))
      as [st' res] eqn:Hc; cbn in *.
    assert (is_Some (getUser st' (User.collegeId u))) as Hex.
    { apply Hsome. unfold getUser, upsertUser, saveUsers, loadUsers; cbn.
      rewrite lookup_insert_eq. eauto. }
    destruct (ok res); cbn; (split; [done|]; split; [eauto|]);
      intros u' [= <-]; cbn; exact Hex.
  - (* markAttendance *)
    destruct (markAttendance_user tz a s) as (Hu & _ & _ & _ & Hus).
    destruct (markAttendance_frame tz a s) as (Hv & _ & _ & Hs).
    unfold sessionCoherent. rewrite Hu, Hv, Hs. split; [done|]. split; [done|].
    intros u Hu'. unfold getUser, loadUsers. rewrite Hus. by apply Hacc.
Qed.

Lemma reachable_sessionCoherent (tz now0 : Z) (s : App) :
  reachable tz now0 s → sessionCoherent s.
Proof.
  induction 1 as [|s ev Hr IH].
  - split; [done|]. split; done.
  - apply handle_sessionCoherent; [|done]. by eapply reachable_usersKeyed.
Qed.

(** Each handler keeps the session, the user and the view linked. *)
Lemma handle_sessionLinked (tz : Z) (ev : Event) (s : App) :
  usersKeyed (storage s) → sessionLinked s → sessionLinked (handle tz ev s).
Proof.
  intros Hk (Huser & Hnone & Hview). unfold handle.
  destruct (enabled s ev); [|done].
  destruct ev; try done.
  - (* doLogin *)
    destruct s as [v st f i e os oc us mk sb ws sem sto ck].
    unfold sessionLinked, doLogin in *; cbn -[trim] in *.
    destruct (getUser sto (trim (Form.collegeId f))) as [u|] eqn:Hu; [|done].
    destruct (falsy (User.password u)); [done|].
    case_decide; [|done]. cbn.
    split; [|split; [done|eauto]].
    intros u' [= <-]. split; [done|].
    rewrite (usersKeyed_lookup _ _ _ Hk Hu). eauto.
  - (* sendOTP *)
    unfold sessionLinked, sendOTP in *; cbn. case_decide; done.
  - (* verifyOTP *)
    destruct s as [v st f i e os oc us mk sb ws sem sto ck].
    unfold sessionLinked, verifyOTP in *; cbn in *.
    case_decide; [|done]. cbn.
    split; [|done].
    intros u Hu. destruct (Huser u Hu) as [Hs Hacc]. split; [done|].
    unfold getUser, upsertUser, saveUsers, loadUsers in *; cbn in *.
    match goal with |- is_Some (<[?k:=_]> _ !! _) =>
      destruct (decide (k = User.collegeId u)) as [->|Hne] end.
    + rewrite lookup_insert_eq. eauto.
    + by rewrite lookup_insert_ne.
  - (* setPassword *)
    destruct s as [v st f i e os oc us mk sb ws sem sto ck].
    unfold sessionLinked, setPassword in *; cbn -[Nat.ltb String.length] in *.
    destruct (_ <? _)%nat; [done|]. case_decide; [|done].
    destruct (getUser sto (Form.collegeId f)) as [u|] eqn:Hu; [|done].
    pose proof (usersKeyed_upsert (User.setPassword (Form.password f) u) sto Hk) as Hk'.
    pose proof (getUser_createWebAuthnCredential a (User.collegeId u) (User.collegeId u)
                  _ Hk') as Hsome.
    cbn in Hsome.
    destruct (createWebAuthnCredential a (User.collegeId u)
                (upsertUser (User.setPassword (Form.password f) u) sto))
      as [st' res] eqn:Hc; cbn in *.
    assert (is_Some (getUser st' (User.collegeId u))) as Hex.
    { apply Hsome. unfold getUser, upsertUser, saveUsers, loadUsers; cbn.
      rewrite lookup_insert_eq. eauto. }
    destruct (ok res); cbn;
      (split; [intros u' [= <-]; cbn; split; [done|exact Hex]|split; [done|eauto]]).
  - (* markAttendance *)
    destruct (markAttendance_user tz a s) as (Hu & _ & _ & _ & Hus).
    destruct (markAttendance_frame tz a s) as (Hv & _ & _ & Hs).
    unfold sessionLinked. rewrite Hu, Hv, Hs. split; [|done].
    intros u Hu'. destruct (Huser u Hu') as [Hs' Hacc]. split; [done|].
    unfold getUser, loadUsers. rewrite Hus. exact Hacc.
  - (* logout *)
    split; [done|]. split; [by left|done].
Qed.

(** A load links them again, whatever session it finds. *)
Lemma mount_sessionLinked (tz now : Z) (st : Storage) :
  usersKeyed st → sessionLinked (mount tz now st).
Proof.
  intros Hk. unfold mount, restoreSession, fresh; cbn.
  destruct (getSession st) as [sess|] eqn:Hs; cbn.
  - case_decide as He; cbn.
    + subst sess. split; [done|]. split; [by right|done].
    + destruct (getUser st sess) as [u|] eqn:Hu; cbn.
      * pose proof (usersKeyed_lookup _ _ _ Hk Hu) as Hid.
        split; [|split; [done|eauto]].
        intros u' [= <-]. rewrite Hid. split; [done|eauto].
      * split; [done|]. split; [by left|done].
  - split; [done|]. split; [by left|done].
Qed.

(** Over actions and reloads the accounts stay under their own ids and the
    session stays linked to the user. *)
Lemma leadsTo_sessionLinked (tz : Z) (r r' : Screen) :
  leadsTo tz r r' →
  usersKeyed (storage (hooks r)) → sessionLinked (hooks r) →
  usersKeyed (storage (hooks r')) ∧ sessionLinked (hooks r').
Proof.
  intros Hl Hk Hs. induction Hl as [|r' a _ [IHk IHs] _]; [done|].
  destruct a as [ev|]; cbn.
  - split; [by apply handle_usersKeyed|by apply handle_sessionLinked].
  - assert (usersKeyed (storage (hooks r'))
            → usersKeyed (storage (restoreSession
                 (fresh tz (clock (hooks r')) (storage (hooks r')))))) as Hk'.
    { eapply usersKeyed_users.
      apply (restoreSession_frame (fresh tz (clock (hooks r')) (storage (hooks r')))). }
    split; [by apply Hk'|]. by apply mount_sessionLinked.
Qed.

(** On every screen reached by actions and reloads that look up no
    inherited name: the stored session is the id of the logged-in user,
    whose account is in the storage; with nobody logged in there is no
    session, or the empty one; and the attendance view is only shown to a
    logged-in user. *)
Theorem reachable_session (tz now0 : Z) (r : Screen) :
  reachableScreen tz now0 r →
  (∀ u, user (hooks r) = Some u →
     getSession (storage (hooks r)) = Some (User.collegeId u)
     ∧ is_Some (getUser (storage (hooks r)) (User.collegeId u)))
  ∧ (user (hooks r) = None →
     getSession (storage (hooks r)) = None ∨ getSession (storage (hooks r)) = Some "")
  ∧ (view (hooks r) = ViewApp → is_Some (user (hooks r))).
Proof.
  intros Hr. apply (leadsTo_sessionLinked tz _ _ Hr).
  - intros id u. cbn. by rewrite lookup_empty.
  - split; [done|]. split; [by left|done].
Qed.

Lemma reachable_session_witness :
  getSession (storage (hooks (reload 0 markedScreen))) = Some "S1".
Proof.
  refine (proj1 (proj1 (reachable_session 0 (newDate (ymd 2024 1 8))
                          (reload 0 markedScreen) _)
                   (User.mk "S1" (Some "s1@college.example") (Some "5550100")
                      (Some "secret1") false) eq_refl)).
  apply (leadsTo_perform 0 _ markedScreen Reload); [|by vm_compute].
  unfold markedScreen, mondayScreen.
  do 2 (apply leadsTo_performAll; [|by vm_compute]). constructor.
Defined.

Lemma passwordsLong_upsert (u : User.t) (st : Storage) :
  (∀ pw, User.password u = Some pw → (6 ≤ String.length pw)%nat) →
  passwordsLong st → passwordsLong (upsertUser u st).
Proof.
  intros Hu Hl id u' pw. unfold upsertUser, saveUsers, loadUsers; cbn.
  intros [[_ <-] | [_ Hu']]%lookup_insert_Some; [apply Hu|]. by apply (Hl id).
Qed.

Lemma passwordsLong_getUser (st : Storage) (id : string) (u : User.t) (pw : string) :
  passwordsLong st → getUser st id = Some u → User.password u = Some pw →
  (6 ≤ String.length pw)%nat.
Proof. intros Hl Hu. by apply (Hl id). Qed.

Lemma passwordsLong_createWebAuthnCredential (a : Authenticator) (id : string)
    (st : Storage) :
  passwordsLong st → passwordsLong (createWebAuthnCredential a id st).1.
Proof.
  intros Hl. destruct a; cbn; try done.
  destruct (getUser st id) as [u|] eqn:Hu; cbn; [|done].
  apply passwordsLong_upsert; [|done]. cbn. intros pw.
  by apply (passwordsLong_getUser st id).
Qed.

Lemma handle_passwordsLong (tz : Z) (ev : Event) (s : App) :
  passwordsLong (storage s) → passwordsLong (storage (handle tz ev s)).
Proof.
  intros Hl. unfold handle. destruct (enabled s ev); [|done].
  destruct ev; try done.
  - unfold doLogin; cbn.
    destruct (getUser _ _); [|done]. destruct (falsy _); [done|].
    case_decide; done.
  - unfold sendOTP; cbn. case_decide; done.
  - unfold verifyOTP; cbn. case_decide; [|done]. cbn.
    apply passwordsLong_upsert; [|done]. cbn. intros pw.
    destruct (getUser (storage s) (Form.collegeId (form s))) as [u|] eqn:Hu; cbn; [|done].
    by apply (passwordsLong_getUser (storage s) (Form.collegeId (form s))).
  - unfold setPassword; cbn -[Nat.ltb String.length].
    destruct (Nat.ltb_spec (String.length (Form.password (form s))) 6) as [|Hlen];
      [done|].
    case_decide; [|done].
    destruct (getUser _ _) as [u|]; [|done].
    pose proof (passwordsLong_createWebAuthnCredential a (User.collegeId u)
                  (upsertUser (User.setPassword (Form.password (form s)) u) (storage s)))
      as Hl'.
    cbn in *. destruct (createWebAuthnCredential _ _ _) as [st res]; cbn in *.
    assert (passwordsLong st) as Hst.
    { apply Hl'. apply passwordsLong_upsert; [|done]. cbn. by intros pw [= <-]. }
    destruct (ok res); exact Hst.
  - intros id u pw. rewrite (proj2 (proj2 (proj2 (proj2 (markAttendance_user tz a s))))).
    apply Hl.
Qed.

(** In every reachable state a stored password has at least six
    characters; in particular an account never has the empty password, so a
    login reports a missing password only for an account without one. *)
Theorem reachable_passwords (tz now0 : Z) (s : App) (id : string) (u : User.t) :
  reachable tz now0 s →
  getUser (storage s) id = Some u →
  (∀ pw, User.password u = Some pw → (6 ≤ String.length pw)%nat)
  ∧ (falsy (User.password u) = true ↔ User.password u = None).
Proof.
  intros Hr Hu.
  assert (passwordsLong (storage s)) as Hl.
  { clear Hu. induction Hr as [|s ev _ IH]; [|by apply handle_passwordsLong].
    intros id' u' pw'. cbn. by rewrite lookup_empty. }
  assert (∀ pw, User.password u = Some pw → (6 ≤ String.length pw)%nat) as Hpw
    by (intros pw; by apply (passwordsLong_getUser (storage s) id)).
  split; [done|]. destruct (User.password u) as [pw|]; cbn; [|done].
  specialize (Hpw pw eq_refl).
  destruct (decide (pw = "")) as [->|_]; [cbn in Hpw; lia|]. done.
Qed.

Lemma reachable_passwords_witness : (6 ≤ String.length "secret1")%nat.
Proof.
  refine (proj1 (reachable_passwords 0 (newDate (ymd 2024 1 8)) fullAttendance "S1"
            (User.mk "S1" (Some "s1@college.example") (Some "5550100")
               (Some "secret1") false) _ _) "secret1" eq_refl).
  - unfold fullAttendance, mondaySession. do 2 apply reachable_run. constructor.
  - vm_compute. reflexivity.
Defined.

Lemma contacts_upsert (u : User.t) (st : Storage) :
  (∃ mail tel, User.email u = Some mail ∧ User.phone u = Some tel
               ∧ mail ≠ "" ∧ tel ≠ "") →
  (∀ id u', users st !! id = Some u' →
     ∃ mail tel, User.email u' = Some mail ∧ User.phone u' = Some tel
                 ∧ mail ≠ "" ∧ tel ≠ "") →
  ∀ id u', users (upsertUser u st) !! id = Some u' →
    ∃ mail tel, User.email u' = Some mail ∧ User.phone u' = Some tel
                ∧ mail ≠ "" ∧ tel ≠ "".
Proof.
  intros Hu Hall id u'. unfold upsertUser, saveUsers, loadUsers; cbn.
  intros [[_ <-] | [_ Hu']]%lookup_insert_Some; [done|]. by apply (Hall id).
Qed.

Lemma contacts_createWebAuthnCredential (a : Authenticator) (id : string) (st : Storage) :
  (∀ id u', users st !! id = Some u' →
     ∃ mail tel, User.email u' = Some mail ∧ User.phone u' = Some tel
                 ∧ mail ≠ "" ∧ tel ≠ "") →
  ∀ id' u', users (createWebAuthnCredential a id st).1 !! id' = Some u' →
    ∃ mail tel, User.email u' = Some mail ∧ User.phone u' = Some tel
                ∧ mail ≠ "" ∧ tel ≠ "".
Proof.
  intros Hall. destruct a; cbn; try done.
  destruct (getUser st id) as [u|] eqn:Hu; cbn; [|done].
  apply (contacts_upsert (User.setWebauthn true u) st); [|done]. cbn.
  by apply (Hall id).
Qed.

Lemma handle_contactsFilled (tz : Z) (ev : Event) (s : App) :
  contactsFilled s → contactsFilled (handle tz ev s).
Proof.
  intros [Hstep Hall]. unfold handle.
  destruct (enabled s ev) eqn:Hen; [|done].
  destruct s as [v st f i e os oc us mk sb ws sem sto ck].
  unfold contactsFilled in *. cbn in Hstep, Hall.
  destruct ev; cbn in Hen |- *.
  - (* updateField *)
    split; [|done]. intros ->. destruct v; [|done].
    destruct f as [fc fe fp fo fw fn]; destruct k; cbn in *; try done; by apply Hstep.
  - (* doLogin *)
    unfold doLogin; cbn -[trim].
    destruct (getUser sto _) as [u|]; [|done]. destruct (falsy _); [done|].
    case_decide; done.
  - done.
  - (* sendOTP *)
    unfold sendOTP; cbn. case_decide as Hv; [done|]. cbn.
    split; [|done]. intros _. split; intros E; apply Hv; tauto.
  - (* verifyOTP *)
    destruct v; [|done]. destruct st; try done.
    destruct (Hstep eq_refl) as [Hmail Htel].
    unfold verifyOTP; cbn. case_decide; [|done]. cbn. split; [done|].
    intros id u' Hl. refine (contacts_upsert _ sto _ Hall id u' Hl). cbn.
    by exists (Form.email f), (Form.phone f).
  - (* setPassword *)
    destruct v; [|done]. destruct st; try done.
    unfold setPassword; cbn -[Nat.ltb String.length].
    destruct (_ <? _)%nat; [done|]. case_decide; [|done].
    destruct (getUser sto (Form.collegeId f)) as [u|] eqn:Hu; [|done].
    pose proof (contacts_createWebAuthnCredential a (User.collegeId u)
                  (upsertUser (User.setPassword (Form.password f) u) sto)) as Hc.
    cbn in Hc.
    destruct (createWebAuthnCredential a (User.collegeId u)
                (upsertUser (User.setPassword (Form.password f) u) sto)) as [st' res];
      cbn in *.
    assert (∀ id u', users st' !! id = Some u' →
              ∃ mail tel, User.email u' = Some mail ∧ User.phone u' = Some tel
                          ∧ mail ≠ "" ∧ tel ≠ "") as Hst'.
    { apply Hc. intros id u' Hl. refine (contacts_upsert _ sto _ Hall id u' Hl). cbn.
      by apply (Hall (Form.collegeId f)). }
    destruct (ok res); cbn; (split; [done|exact Hst']).
  - done.
  - (* markAttendance *)
    unfold markAttendance, markAttendanceTry; cbn.
    destruct sb; cbn; [|done]. destruct us as [u|]; cbn; [|done].
    destruct (ok (authenticateWithWebAuthn a)); cbn; [|done].
    destruct (isWeekday tz (newDate (todayISO ck))); cbn; [|done].
    case_decide; done.
  - done.
  - done.
  - done.
Qed.

(** In every reachable state each account carries a non-empty address and
    a non-empty number: the verification can only be reached through
    [sendOTP]'s check, and neither field can be edited while the code is
    awaited. *)
Theorem reachable_contacts (tz now0 : Z) (s : App) (id : string) (u : User.t) :
  reachable tz now0 s →
  getUser (storage s) id = Some u →
  ∃ mail tel, User.email u = Some mail ∧ User.phone u = Some tel
              ∧ mail ≠ "" ∧ tel ≠ "".
Proof.
  intros Hr Hu.
  assert (contactsFilled s) as [_ Hall].
  { clear Hu. induction Hr as [|s ev _ IH]; [|by apply handle_contactsFilled].
    split; [done|]. intros id' u'. cbn. by rewrite lookup_empty. }
  by apply (Hall id).
Qed.

Lemma reachable_contacts_witness :
  ∃ mail tel, Some "s1@college.example" = Some mail ∧ Some "5550100" = Some tel
              ∧ mail ≠ "" ∧ tel ≠ "".
Proof.
  refine (reachable_contacts 0 (newDate (ymd 2024 1 8)) fullAttendance "S1"
            (User.mk "S1" (Some "s1@college.example") (Some "5550100")
               (Some "secret1") false) _ _).
  - unfold fullAttendance, mondaySession. do 2 apply reachable_run. constructor.
  - vm_compute. reflexivity.
Defined.

(** ** What no handler undoes *)

Lemma handle_attendance_grows (tz : Z) (ev : Event) (s : App) (id : string) :
  loadAttendance (storage s) id `prefix_of` loadAttendance (storage (handle tz ev s)) id.
Proof.
  unfold handle. destruct (enabled s ev); [|done].
  destruct ev; try done.
  - unfold doLogin; cbn.
    destruct (getUser _ _); [|done]. destruct (falsy _); [done|].
    case_decide; done.
  - unfold sendOTP; cbn. case_decide; done.
  - unfold verifyOTP; cbn. case_decide; done.
  - unfold setPassword; cbn -[Nat.ltb String.length].
    destruct (_ <? _)%nat; [done|]. case_decide; [|done].
    destruct (getUser _ _) as [u|]; [|done].
    pose proof (attendance_createWebAuthnCredential a (User.collegeId u)
                  (upsertUser (User.setPassword (Form.password (form s)) u) (storage s)))
      as Ha.
    cbn in *. destruct (createWebAuthnCredential _ _ _) as [st res]; cbn in *.
    unfold loadAttendance. destruct (ok res); cbn; by rewrite Ha.
  - destruct s as [v st f i e os oc us mk sb ws sem sto ck].
    unfold markAttendance, markAttendanceTry; cbn.
    destruct sb; cbn; [|done]. destruct us as [u|]; cbn; [|done].
    destruct (ok (authenticateWithWebAuthn a)); cbn; [|done].
    destruct (isWeekday tz (newDate (todayISO ck))); cbn; [|done].
    case_decide; cbn; [done|].
    destruct (decide (User.collegeId u = id)) as [<-|Hne].
    + rewrite loadAttendance_save. by apply prefix_app_r.
    + by rewrite loadAttendance_save_ne.
Qed.

(** Attendance is never erased or reordered: whatever happens next, each
    ledger keeps the dates it has, in their order, and new dates only come
    after them. *)
Theorem run_attendance_grows (tz : Z) (evs : list Event) (s : App) (id : string) :
  loadAttendance (storage s) id `prefix_of` loadAttendance (storage (run tz evs s)) id.
Proof.
  revert s. induction evs as [|ev evs IH]; intros s; [done|].
  cbn. etrans; [apply (handle_attendance_grows tz ev)|apply IH].
Qed.


Lemma accountKept_refl (u : User.t) : accountKept u u.
Proof. by repeat split. Qed.

Lemma accountKept_trans (u u' u'' : User.t) :
  accountKept u u' → accountKept u' u'' → accountKept u u''.
Proof.
  intros (Hc & Hp & Hw) (Hc' & Hp' & Hw'). split; [congruence|]. split; eauto.
Qed.

Lemma createWebAuthnCredential_keeps (a : Authenticator) (id id' : string)
    (st : Storage) (u : User.t) :
  usersKeyed st → getUser st id' = Some u →
  ∃ u', getUser (createWebAuthnCredential a id st).1 id' = Some u' ∧ accountKept u u'.
Proof.
  intros Hk Hu.
  destruct a; cbn; try (exists u; split; [done|apply accountKept_refl]).
  destruct (getUser st id) as [u0|] eqn:Hu0; cbn;
    [|exists u; split; [done|apply accountKept_refl]].
  pose proof (usersKeyed_lookup _ _ _ Hk Hu0) as Hid.
  unfold getUser, upsertUser, saveUsers, loadUsers in *; cbn. rewrite Hid.
  destruct (decide (id = id')) as [->|Hne].
  - rewrite lookup_insert_eq. eexists. split; [done|].
    assert (u0 = u) as -> by congruence. by repeat split.
  - rewrite lookup_insert_ne by done. exists u. split; [done|apply accountKept_refl].
Qed.

Lemma handle_keeps_accounts (tz : Z) (ev : Event) (s : App) (id : string) (u : User.t) :
  usersKeyed (storage s) → getUser (storage s) id = Some u →
  ∃ u', getUser (storage (handle tz ev s)) id = Some u' ∧ accountKept u u'.
Proof.
  intros Hk Hu. unfold handle.
  destruct (enabled s ev); [|exists u; split; [done|apply accountKept_refl]].
  destruct ev; try (exists u; split; [done|apply accountKept_refl]).
  - (* doLogin *)
    exists u. split; [|apply accountKept_refl].
    unfold doLogin; cbn.
    destruct (getUser (storage s) (trim _)); [|done]. destruct (falsy _); [done|].
    case_decide; done.
  - (* sendOTP *)
    exists u. split; [|apply accountKept_refl].
    unfold sendOTP; cbn. case_decide; done.
  - (* verifyOTP *)
    destruct s as [v st f i e os oc us mk sb ws sem sto ck]; cbn in *.
    unfold verifyOTP; cbn. case_decide; [|exists u; split; [done|apply accountKept_refl]].
    cbn. unfold upsertUser, saveUsers, loadUsers; cbn.
    destruct (getUser sto (Form.collegeId f)) as [u0|] eqn:Hu0; cbn.
    + pose proof (usersKeyed_lookup _ _ _ Hk Hu0) as Hid. rewrite Hid.
      unfold getUser, loadUsers; cbn.
      destruct (decide (Form.collegeId f = id)) as [E|Hne].
      * rewrite E, lookup_insert_eq. eexists. split; [done|].
        assert (u0 = u) as -> by (rewrite E in Hu0; congruence). by repeat split.
      * rewrite lookup_insert_ne by done. exists u. split; [done|apply accountKept_refl].
    + unfold getUser, loadUsers; cbn.
      destruct (decide (Form.collegeId f = id)) as [E|Hne]; [congruence|].
      rewrite lookup_insert_ne by done. exists u. split; [done|apply accountKept_refl].
  - (* setPassword *)
    destruct s as [v st f i e os oc us mk sb ws sem sto ck]; cbn in *.
    unfold setPassword; cbn -[Nat.ltb String.length].
    destruct (_ <? _)%nat; [exists u; split; [done|apply accountKept_refl]|].
    case_decide; [|exists u; split; [done|apply accountKept_refl]].
    destruct (getUser sto (Form.collegeId f)) as [u0|] eqn:Hu0;
      [|exists u; split; [done|apply accountKept_refl]].
    pose proof (usersKeyed_lookup _ _ _ Hk Hu0) as Hid.
    assert (∃ u1, getUser (upsertUser (User.setPassword (Form.password f) u0) sto) id
                  = Some u1 ∧ accountKept u u1) as (u1 & Hu1 & Hkept1).
    { unfold getUser, upsertUser, saveUsers, loadUsers; cbn. rewrite Hid.
      destruct (decide (Form.collegeId f = id)) as [E|Hne].
      - rewrite E, lookup_insert_eq. eexists. split; [done|].
        assert (u0 = u) as -> by (rewrite E in Hu0; congruence).
        split; [done|]. split; [cbn; eauto|done].
      - rewrite lookup_insert_ne by done. exists u. split; [done|apply accountKept_refl]. }
    destruct (createWebAuthnCredential_keeps a (User.collegeId u0) id _ u1
                (usersKeyed_upsert _ _ Hk) Hu1) as (u2 & Hu2 & Hkept2).
    cbn in Hu2.
    destruct (createWebAuthnCredential a (User.collegeId u0)
                (upsertUser (User.setPassword (Form.password f) u0) sto)) as [st' res];
      cbn in *.
    exists u2. split; [|by eapply accountKept_trans].
    destruct (ok res); exact Hu2.
  - (* markAttendance *)
    exists u. split; [|apply accountKept_refl].
    unfold getUser, loadUsers.
    rewrite (proj2 (proj2 (proj2 (proj2 (markAttendance_user tz a s))))). exact Hu.
Qed.

(** Accounts are never removed: whatever is done after, handlers and
    reloads that look up no inherited name, an account stays under its id,
    keeps a password if it had one (a new set-up may replace it) and stays
    enrolled if it was. *)
Theorem run_keeps_accounts (tz : Z) (r r' : Screen) (id : string) (u : User.t) :
  leadsTo tz r r' →
  usersKeyed (storage (hooks r)) →
  getUser (storage (hooks r)) id = Some u →
  ∃ u', getUser (storage (hooks r')) id = Some u'
        ∧ User.collegeId u' = User.collegeId u
        ∧ (is_Some (User.password u) → is_Some (User.password u'))
        ∧ (User.webauthn u = true → User.webauthn u' = true).
Proof.
  intros Hl Hk Hu.
  change (∃ u', getUser (storage (hooks r')) id = Some u' ∧ accountKept u u').
  assert (usersKeyed (storage (hooks r'))
          ∧ ∃ u', getUser (storage (hooks r')) id = Some u' ∧ accountKept u u')
    as [_ H]; [|exact H].
  induction Hl as [|r' a _ [IHk (u1 & Hu1 & Hkept1)] _].
  - split; [done|]. exists u. split; [done|apply accountKept_refl].
  - destruct a as [ev|]; cbn.
    + split; [by apply handle_usersKeyed|].
      destruct (handle_keeps_accounts tz ev (hooks r') id u1 IHk Hu1)
        as (u2 & Hu2 & Hkept2).
      exists u2. split; [exact Hu2|by eapply accountKept_trans].
    + destruct (restoreSession_frame (fresh tz (clock (hooks r')) (storage (hooks r'))))
        as (Hus & _).
      split; [by eapply usersKeyed_users|].
      exists u1. split; [|done]. unfold getUser, loadUsers. rewrite Hus. exact Hu1.
Qed.

Lemma run_keeps_accounts_witness :
  ∃ u', getUser (storage (hooks (performAll 0 [Do Logout; Reload; Do StartRegister]
                                   mondayScreen))) "S1" = Some u'
        ∧ User.collegeId u' = "S1"
        ∧ is_Some (User.password u').
Proof.
  destruct (run_keeps_accounts 0 mondayScreen
              (performAll 0 [Do Logout; Reload; Do StartRegister] mondayScreen) "S1"
              (User.mk "S1" (Some "s1@college.example") (Some "5550100")
                 (Some "secret1") false)) as (u' & Hu' & Hid & Hpw & _).
  - apply leadsTo_performAll; [constructor|by vm_compute].
  - intros id u. change (users (storage (hooks mondayScreen)))
      with ({[ "S1" := User.mk "S1" (Some "s1@college.example") (Some "5550100")
                         (Some "secret1") false ]} : gmap string User.t).
    intros [<- <-]%lookup_singleton_Some. done.
  - vm_compute. reflexivity.
  - exists u'. split; [exact Hu'|]. split; [exact Hid|]. apply Hpw. by eexists.
Defined.

(** ** Reloading the page *)

(** Reloading a screen reached by actions and reloads that look up no
    inherited name keeps the storage as it is. A logged-in user whose id is
    not empty, and not an inherited name, comes back to the attendance view
    under the account as stored, and the days shown are the stored ledger,
    with the days marked since the figures were last read; the working days
    are counted afresh, from the default start. A logged-out visitor, and a
    user whose id is empty, get the login view. *)
Theorem reload_restores (tz now0 : Z) (r : Screen) :
  reachableScreen tz now0 r →
  storage (hooks (reload tz r)) = storage (hooks r)
  ∧ workingDays (reload tz r)
    = workingDaysCount tz (defaultSemesterStart tz (clock (hooks r)))
        (todayISO (clock (hooks r)))
  ∧ (∀ u, user (hooks r) = Some u → User.collegeId u ≠ "" →
       inheritedName (User.collegeId u) = false →
       user (hooks (reload tz r)) = getUser (storage (hooks r)) (User.collegeId u)
       ∧ is_Some (user (hooks (reload tz r)))
       ∧ view (hooks (reload tz r)) = ViewApp
       ∧ attendanceDates (reload tz r)
         = loadAttendance (storage (hooks r)) (User.collegeId u))
  ∧ (user (hooks r) = None ∨ (∃ u, user (hooks r) = Some u ∧ User.collegeId u = "") →
       user (hooks (reload tz r)) = None
       ∧ view (hooks (reload tz r)) = ViewAuth
       ∧ attendanceDates (reload tz r) = []).
Proof.
  intros Hr.
  assert (usersKeyed (storage (hooks r)) ∧ sessionLinked (hooks r))
    as [Hk (Huser & Hnone & _)].
  { apply (leadsTo_sessionLinked tz _ _ Hr).
    - intros id u. cbn. by rewrite lookup_empty.
    - split; [done|]. split; [by left|done]. }
  unfold reload, load, attendanceDates, workingDays, computeAttendanceDates,
    restoreSession, fresh; cbn.
  destruct (user (hooks r)) as [u|] eqn:Hu.
  - destruct (Huser u eq_refl) as [Hs [u' Hu']]. rewrite Hs.
    pose proof (usersKeyed_lookup _ _ _ Hk Hu') as Hid.
    case_decide as He; cbn.
    + split; [done|]. split; [done|]. split; [intros ? [= <-]; done|]. done.
    + rewrite Hu'. cbn. split; [done|]. split; [done|]. split.
      * intros ? [= <-] _ _. split; [done|]. split; [eauto|]. split; [done|].
        by rewrite Hid.
      * intros [|(? & [= <-] & ?)]; done.
  - destruct (Hnone eq_refl) as [Hs|Hs]; rewrite Hs; cbn.
    + split; [done|]. split; [done|]. split; done.
    + split; [done|]. split; [done|]. split; done.
Qed.

Lemma reload_restores_witness :
  attendanceDates markedScreen = []
  ∧ view (hooks (reload 0 markedScreen)) = ViewApp
  ∧ attendanceDates (reload 0 markedScreen) = [ymd 2024 1 8].
Proof.
  assert (reachableScreen 0 (newDate (ymd 2024 1 8)) markedScreen) as Hr.
  { unfold markedScreen, mondayScreen.
    do 2 (apply leadsTo_performAll; [|by vm_compute]). constructor. }
  destruct (reload_restores 0 _ markedScreen Hr) as (_ & _ & Hin & _).
  destruct (Hin (User.mk "S1" (Some "s1@college.example") (Some "5550100")
                   (Some "secret1") false) eq_refl ltac:(discriminate) eq_refl)
    as (_ & _ & Hv & Ha).
  split; [reflexivity|]. split; [exact Hv|]. etrans; [exact Ha|]. vm_compute. reflexivity.
Defined.

(** A session left in the storage without its account, under an id that is
    not an inherited name, is removed on load and the login view is shown;
    the accounts and ledgers are kept. *)
Theorem mount_dangling_session (tz now : Z) (st : Storage) (id : string) :
  getSession st = Some id → id ≠ "" → inheritedName id = false →
  getUser st id = None →
  getSession (storage (mount tz now st)) = None
  ∧ users (storage (mount tz now st)) = users st
  ∧ attendance (storage (mount tz now st)) = attendance st
  ∧ user (mount tz now st) = None
  ∧ view (mount tz now st) = ViewAuth.
Proof.
  intros Hs Hne _ Hu. unfold mount, restoreSession, fresh; cbn.
  rewrite Hs. case_decide; [done|]. rewrite Hu. done.
Qed.

Lemma mount_dangling_session_witness :
  getSession (storage (mount 0 0 (setSession "S1" emptyStorage))) = None.
Proof.
  apply (mount_dangling_session 0 0 (setSession "S1" emptyStorage) "S1");
    [reflexivity|discriminate|reflexivity|reflexivity].
Defined.

(** ** Marking, from a reachable state *)

(** Where the marking button is shown, [markAttendance] ends in one of four
    ways: marked, selfie missing, biometric refused, weekend. The user is
    never missing there, so the handler's [catch] never sees another
    error. *)
Theorem markAttendance_errors (tz now0 : Z) (a : Authenticator) (s : App) :
  reachable tz now0 s →
  enabled s (MarkAttendance a) = true →
  err (markAttendance tz a s) = ""
  ∨ err (markAttendance tz a s) = SelfieRequiredError
  ∨ err (markAttendance tz a s) = BiometricRequiredError
  ∨ err (markAttendance tz a s) = NonWorkingDayError.
Proof.
  intros Hr Hen. destruct (reachable_sessionCoherent _ _ _ Hr) as (_ & Hview & _).
  destruct s as [v st f i e os oc us mk sb ws sem sto ck]. cbn in *.
  destruct v; [done|]. destruct (Hview eq_refl) as [u ->].
  unfold markAttendance, markAttendanceTry; cbn.
  destruct sb; cbn; [|tauto].
  destruct (ok (authenticateWithWebAuthn a)); cbn; [|tauto].
  destruct (isWeekday tz (newDate (todayISO ck))); cbn; [|tauto].
  case_decide; cbn; tauto.
Qed.

Lemma markAttendance_errors_witness :
  err (markAttendance 0 ReturnsNull readyToMark) = ""
  ∨ err (markAttendance 0 ReturnsNull readyToMark) = SelfieRequiredError
  ∨ err (markAttendance 0 ReturnsNull readyToMark) = BiometricRequiredError
  ∨ err (markAttendance 0 ReturnsNull readyToMark) = NonWorkingDayError.
Proof.
  apply (markAttendance_errors 0 (newDate (ymd 2024 1 8)) ReturnsNull readyToMark).
  - unfold readyToMark, mondaySession. do 2 apply reachable_run. constructor.
  - vm_compute. reflexivity.
Defined.

(** Marking does not move the figures on screen: the days present, the days
    absent, the working days and the percentage stay as they were, also
    when the day has just been added to the ledger. They follow at the next
    login or load. *)
Theorem markAttendance_presentDays (tz : Z) (a : Authenticator) (r : Screen) :
  attendanceDates (act tz (MarkAttendance a) r) = attendanceDates r
  ∧ presentDays (act tz (MarkAttendance a) r) = presentDays r
  ∧ workingDays (act tz (MarkAttendance a) r) = workingDays r
  ∧ absentDays (act tz (MarkAttendance a) r) = absentDays r
  ∧ percentage (act tz (MarkAttendance a) r) = percentage r.
Proof.
  assert (attendanceDates (act tz (MarkAttendance a) r) = attendanceDates r) as Hd.
  { unfold act, attendanceDates, setsUser; cbn. by rewrite andb_false_r. }
  assert (workingDays (act tz (MarkAttendance a) r) = workingDays r) as Hw.
  { assert (semStart (handle tz (MarkAttendance a) (hooks r)) = semStart (hooks r))
      as Hsem.
    { unfold handle. destruct (enabled _ _); [|done]. apply markAttendance_user. }
    unfold act, workingDays; cbn -[handle]. rewrite Hsem. by case_decide. }
  assert (presentDays (act tz (MarkAttendance a) r) = presentDays r) as Hp
    by (unfold presentDays; by rewrite Hd).
  assert (absentDays (act tz (MarkAttendance a) r) = absentDays r) as Ha
    by (unfold absentDays; by rewrite Hw, Hp).
  split; [done|]. split; [done|]. split; [done|]. split; [done|].
  unfold percentage. by rewrite Hw, Hp, Ha.
Qed.

(** The day S1 marks is in the ledger and not yet on screen. *)
Example markAttendance_not_shown :
  loadAttendance (storage (hooks markedScreen)) "S1" = [ymd 2024 1 8]
  ∧ presentDays markedScreen = 0
  ∧ percentage markedScreen = VStr "-100.00"
  ∧ presentDays returnedScreen = 1.
Proof. repeat split. Qed.

(** ** The percentage at its landmarks *)

(** The formula counts every absence twice: with working days and no day
    attended the percentage reads -100.00, and with exactly half of the
    working days attended it reads 0.00. *)
Theorem percentage_landmarks (r : Screen) :
  0 < workingDays r →
  (presentDays r = 0 → percentage r = VStr "-100.00")
  ∧ (2 * presentDays r = workingDays r → percentage r = VStr "0.00").
Proof.
  intros Hw. rewrite percentage_string by lia. unfold absentDays.
  assert (workingDays r ≠ 0) as Hw0 by lia.
  pose proof (inject_Z_neq0 _ Hw0) as Hq.
  split; intros Hp; f_equal.
  - rewrite Hp, Z.sub_0_r, Z.max_r by lia.
    rewrite (divDouble_ratio _ _ (-1)); [by vm_compute|done|].
    rewrite Z.sub_0_l, inject_Z_opp. field. exact Hq.
  - rewrite Z.max_r by lia.
    replace (presentDays r - (workingDays r - presentDays r)) with 0 by lia.
    rewrite (divDouble_ratio _ _ 0); [by vm_compute|done|].
    change (inject_Z 0) with 0%Q. field. exact Hq.
Qed.

Lemma percentage_landmarks_witness :
  percentage mondayScreen = VStr "-100.00".
Proof.
  refine (proj1 (percentage_landmarks mondayScreen _) _).
  - vm_compute. reflexivity.
  - vm_compute. reflexivity.
Defined.

(** ** The counter version *)

(** For an id that is not an inherited name, [register] asks for all four
    fields, never overwrites a student already registered, and otherwise
    stores the form with a counter at 0, in the state and in the storage
    alike; each time it says what it did. *)
Theorem simple_register_outcomes (s : Simple.App) :
  inheritedName (Simple.collegeId (Simple.form s)) = false →
  (Simple.collegeId (Simple.form s) = "" ∨ Simple.email (Simple.form s) = ""
   ∨ Simple.phone (Simple.form s) = "" ∨ Simple.password (Simple.form s) = "" →
     Simple.register s = Simple.alert "Fill all fields" s)
  ∧ (Simple.collegeId (Simple.form s) ≠ "" → Simple.email (Simple.form s) ≠ "" →
     Simple.phone (Simple.form s) ≠ "" → Simple.password (Simple.form s) ≠ "" →
     (is_Some (Simple.students s !! Simple.collegeId (Simple.form s)) →
        Simple.students (Simple.register s) = Simple.students s
        ∧ Simple.stored (Simple.register s) = Simple.stored s
        ∧ Simple.page (Simple.register s) = Simple.PageLogin
        ∧ Simple.alerts (Simple.register s)
          = Simple.alerts s ++ ["Already registered! Please login."])
     ∧ (Simple.students s !! Simple.collegeId (Simple.form s) = None →
        Simple.students (Simple.register s)
          = <[Simple.collegeId (Simple.form s) := Simple.mkStudent (Simple.form s) 0]>
              (Simple.students s)
        ∧ Simple.stored (Simple.register s) = Simple.students (Simple.register s)
        ∧ Simple.page (Simple.register s) = Simple.PageLogin
        ∧ Simple.alerts (Simple.register s)
          = Simple.alerts s ++ ["Registered successfully. Please login."])).
Proof.
  intros _. destruct s as [pg sts cur f sto al]. unfold Simple.register; cbn. split.
  - intros H. case_decide; [done|tauto].
  - intros H1 H2 H3 H4. case_decide; [tauto|]. split.
    + intros [st ->]. done.
    + intros ->. done.
Qed.

Lemma simple_register_outcomes_witness :
  Simple.register (Simple.initial ∅) = Simple.alert "Fill all fields" (Simple.initial ∅).
Proof.
  apply (proj1 (simple_register_outcomes (Simple.initial ∅) eq_refl)). left. reflexivity.
Defined.

(** Register under an id that is not an inherited name, then log in with
    the same form: the dashboard opens on the new student, counter at 0.
    With another password typed, the login is refused and the page stays
    where it was. *)
Theorem simple_register_then_login (s : Simple.App) (attempt : string) :
  inheritedName (Simple.collegeId (Simple.form s)) = false →
  Simple.collegeId (Simple.form s) ≠ "" → Simple.email (Simple.form s) ≠ "" →
  Simple.phone (Simple.form s) ≠ "" → Simple.password (Simple.form s) ≠ "" →
  Simple.students s !! Simple.collegeId (Simple.form s) = None →
  Simple.current (Simple.login (Simple.register s))
    = Some (Simple.mkStudent (Simple.form s) 0)
  ∧ Simple.page (Simple.login (Simple.register s)) = Simple.PageDashboard
  ∧ (attempt ≠ Simple.password (Simple.form s) →
     Simple.login
       (Simple.setForm
          (Simple.mkForm (Simple.collegeId (Simple.form s)) (Simple.email (Simple.form s))
             (Simple.phone (Simple.form s)) attempt)
          (Simple.register s))
     = Simple.alert "Wrong password"
         (Simple.setForm
            (Simple.mkForm (Simple.collegeId (Simple.form s)) (Simple.email (Simple.form s))
               (Simple.phone (Simple.form s)) attempt)
            (Simple.register s))).
Proof.
  intros _ H1 H2 H3 H4 Hnew. destruct s as [pg sts cur f sto al]. cbn in *.
  unfold Simple.register; cbn. case_decide; [tauto|]. rewrite Hnew.
  unfold Simple.login; cbn. rewrite lookup_insert_eq. cbn.
  case_decide; [|done]. split; [done|]. split; [done|].
  intros Hne. case_decide as E; [|done]. exfalso. by apply Hne.
Qed.

Lemma simple_register_then_login_witness :
  Simple.page simpleDashboard = Simple.PageDashboard.
Proof.
  refine (proj1 (proj2 (simple_register_then_login
            (Simple.setForm (Simple.mkForm "S1" "s1@college.example" "5550100" "secret1")
               (Simple.initial ∅)) "other" _ _ _ _ _ _))); cbn; try discriminate;
    [reflexivity|].
  apply lookup_empty.
Defined.

Lemma simple_markAttendance_step (s : Simple.App) (st : Simple.Student) :
  Simple.current s = Some st →
  Simple.students s !! Simple.collegeId (Simple.details st) = Some st →
  Simple.current (Simple.markAttendance s)
    = Some (Simple.mkStudent (Simple.details st) (Simple.attendance st + 1))
  ∧ Simple.students (Simple.markAttendance s)
    = <[Simple.collegeId (Simple.details st) :=
          Simple.mkStudent (Simple.details st) (Simple.attendance st + 1)]>
        (Simple.students s)
  ∧ Simple.stored (Simple.markAttendance s) = Simple.students (Simple.markAttendance s).
Proof.
  intros Hc Hs. destruct s as [pg sts cur f sto al]. cbn in *. subst cur.
  unfold Simple.markAttendance; cbn. rewrite Hs. cbn.
  rewrite lookup_insert_eq. done.
Qed.

(** Every click counts: [n] clicks on the marking button add [n] to the
    current student's counter, in the state and in the storage, whatever the
    day and however often. The absences shown are 100 minus the counter,
    negative past 100 clicks, and the percentage shown is the counter itself
    with two decimals. *)
Theorem simple_markAttendance_counts (n : nat) (s : Simple.App) (st : Simple.Student) :
  Simple.current s = Some st →
  Simple.students s !! Simple.collegeId (Simple.details st) = Some st →
  Simple.current (Nat.iter n Simple.markAttendance s)
    = Some (Simple.mkStudent (Simple.details st) (Simple.attendance st + Z.of_nat n))
  ∧ Simple.students (Nat.iter n Simple.markAttendance s)
    = <[Simple.collegeId (Simple.details st) :=
          Simple.mkStudent (Simple.details st) (Simple.attendance st + Z.of_nat n)]>
        (Simple.students s)
  ∧ (n ≠ O → Simple.stored (Nat.iter n Simple.markAttendance s)
             = Simple.students (Nat.iter n Simple.markAttendance s))
  ∧ Simple.totalAbsent (Nat.iter n Simple.markAttendance s)
    = Some (100 - Simple.attendance st - Z.of_nat n)
  ∧ Simple.attendancePercent (Nat.iter n Simple.markAttendance s)
    = Some (toFixed (ofZ (Simple.attendance st + Z.of_nat n)) 2).
Proof.
  intros Hc Hs.
  assert (Simple.current (Nat.iter n Simple.markAttendance s)
            = Some (Simple.mkStudent (Simple.details st) (Simple.attendance st + Z.of_nat n))
          ∧ Simple.students (Nat.iter n Simple.markAttendance s)
            = <[Simple.collegeId (Simple.details st) :=
                  Simple.mkStudent (Simple.details st)
                    (Simple.attendance st + Z.of_nat n)]> (Simple.students s)
          ∧ (n ≠ O → Simple.stored (Nat.iter n Simple.markAttendance s)
                     = Simple.students (Nat.iter n Simple.markAttendance s)))
    as (Hcur & Hsts & Hsto).
  { induction n as [|n IH].
    - cbn. rewrite Z.add_0_r. destruct st as [d a]; cbn in *.
      split; [done|]. split; [|done]. symmetry. by apply insert_id.
    - destruct IH as (IHc & IHs & _).
      set (s' := Nat.iter n Simple.markAttendance s) in *.
      change (Nat.iter (S n) Simple.markAttendance s) with (Simple.markAttendance s').
      destruct (simple_markAttendance_step s' _ IHc) as (Hc' & Hs' & Hsto').
      { cbn. rewrite IHs. apply lookup_insert_eq. }
      cbn in Hc', Hs'. rewrite Hc', Hs', IHs, insert_insert_eq.
      replace (Simple.attendance st + Z.of_nat n + 1)
        with (Simple.attendance st + Z.of_nat (S n)) by lia.
      split; [done|]. split; [done|]. intros _. rewrite Hsto', Hs', IHs.
      rewrite insert_insert_eq.
      by replace (Simple.attendance st + Z.of_nat n + 1)
        with (Simple.attendance st + Z.of_nat (S n)) by lia. }
  split; [done|]. split; [done|]. split; [done|].
  unfold Simple.totalAbsent, Simple.attendancePercent. rewrite Hcur. cbn.
  split; [f_equal; unfold Simple.workingDays; lia|].
  f_equal. unfold Simple.workingDays, numDiv, ofZ. cbn [Qeq_bool]. 
  change (Qeq_bool (inject_Z 100) 0) with false. cbn [numMul].
  apply toFixed_Qeq. field.
Qed.

Lemma simple_markAttendance_counts_witness :
  Simple.totalAbsent (Nat.iter 101 Simple.markAttendance simpleDashboard) = Some (-1)
  ∧ Simple.attendancePercent (Nat.iter 101 Simple.markAttendance simpleDashboard)
    = Some "101.00".
Proof.
  destruct (simple_markAttendance_counts 101 simpleDashboard
              (Simple.mkStudent
                 (Simple.mkForm "S1" "s1@college.example" "5550100" "secret1") 0)
              eq_refl eq_refl) as (_ & _ & _ & Ha & Hp).
  split; [exact Ha|]. etrans; [exact Hp|]. vm_compute. reflexivity.
Defined.
